(** * StackSave back end: the deposit, withdrawal, allocation and APY-cache core

    A shallow embedding of the route handlers

      - POST   /api/deposits/:userId                           (deposit routes)
      - POST   /api/transactions/:userId/withdrawal            (transaction routes)
      - POST   /api/portfolio/:userId/allocate                 (portfolio routes)
      - DELETE /api/portfolio/:userId/allocation/:allocationId (portfolio routes)

    and of [getProtocolAPY] with its fetchers (the APY service), over a
    model of the relational store declared in db/schema.sql; and, around
    these, of

      - POST /api/transactions/:userId/earnings, PUT .../:transactionId/status
        and PUT /api/deposits/:depositId/status           (module [Ledger])
      - GET /api/deposits/:userId                         (module [DepositViews])
      - GET, POST .../check, POST .../reset of /api/streaks/:userId
                                                          (module [Streaks])
      - PUT /api/portfolio/:userId/update-earnings        (module [Yield])
      - [getAllProtocolsWithAPY] through [getBatchAPY]    (module [ApyCalls])
      - POST, PUT, DELETE of /api/goals                   (module [Goals])
      - POST /api/auth/connect-wallet                     (module [Auth])
      - POST, PUT, DELETE of /api/payment-methods         (module [PaymentMethods]).

    Conventions of the model.

      - DECIMAL(18,6) and DECIMAL(10,6) columns are fixed-point numbers: a
        column value [v : Z] stands for v / 10^6.  Arithmetic inside one SQL
        expression is exact (rational); a value is rounded to six fractional
        digits, ties away from zero, when it is stored.
      - A request amount [v : Z] stands for the JSON number v / 10^6: a
        numeral of at most six decimals that JavaScript prints back as
        written (every numeral of up to 15 significant digits is one), so
        that the text node-postgres binds to a query parameter is the
        numeral itself.
      - What a handler computes in JavaScript is computed in IEEE 754
        doubles (module [Number]): [parseFloat] of a column, the balance
        check of a withdrawal, the completion check of a goal,
        [(amount * apy) / 365 / 100], [(amount / 1000) * 100], the running
        total of the earnings update and the ranges of the APY fetchers.  A
        number bound to a DECIMAL parameter is written as the shortest
        decimal that reads back as it, and rounded by the column.
      - The upper range of the DECIMAL(18,6) columns and of current_apy is
        not enforced: amounts are taken to be below 10^12 and APYs below
        10^4.  The range of growth_percentage, which an earnings posting of
        100000 reaches, is enforced.
      - UUID keys are numbers; [uuid_generate_v4()] is a counter of the store.
      - DATE columns are day numbers (days since the epoch); the clock is
        [Date.now()] in milliseconds.  The database adapter (config/db) is
        not part of this tree; it is taken to be node-postgres with its
        default parsers, which hands a DATE to the handler as a Date at
        midnight, local time.  The server's time zone is a parameter
        (class [Zone], a fixed offset from UTC): statements hold for every
        zone unless they say otherwise, and the examples run in UTC and in
        UTC+7.  The deposit handler reads the clock twice within one
        request; the model uses one reading.
      - Of db/schema.sql the model keeps the columns the handlers use, the
        UNIQUE keys, the foreign keys, the CHECK on pool_type and the
        BEFORE UPDATE trigger [update_updated_at_column()] where it
        matters: on pool_allocations, a table without the updated_at
        column the trigger assigns, every UPDATE raises.  On the four
        tables that have the column the trigger only sets it; the
        created_at / updated_at / last_updated columns themselves are left
        out.
      - BEGIN ... COMMIT: a handler's transaction body is a function from the
        store to an error or a new store; ROLLBACK returns the store the
        handler started from.  A handler that calls [query] directly runs
        each statement as a transaction of its own: what an earlier
        statement wrote stays when a later one fails.
      - A request body is typed: a field is left out ([None]) or holds a
        value of its type; a field the model gives no option for is
        present.  The length limits of the VARCHAR columns are not
        modelled. *)

From Stdlib Require Import ZArith QArith Qabs Qround Qpower List Bool String Lia Lqa.
From stdpp Require Import base option gmap strings list fin_maps sorting.

Local Open Scope string_scope.
Local Open Scope list_scope.
Local Open Scope Z_scope.

(** ** Fixed-point numbers and dates *)

Abbreviation uuid := N.

(** One unit of a DECIMAL(_,6) column, in the column's integer representation. *)
Definition SCALE6 : Z := 1000000.

(** The rational a fixed-point column value stands for. *)
Definition to_Q (v : Z) : Q := Qmake v 1000000.

(** Rounding to the nearest integer, ties away from zero (the rounding of
    PostgreSQL's numeric type). *)
Definition round_half_away (q : Q) : Z :=
  let n := Qnum q in
  let d := Zpos (Qden q) in
  if 0 <=? n then (2 * n + d) / (2 * d) else - ((2 * (- n) + d) / (2 * d)).

(** Coercion of a numeric value to a DECIMAL(_,6) column. *)
Definition store6 (q : Q) : Z := round_half_away (q * inject_Z SCALE6)%Q.

Definition MS_PER_DAY : Z := 1000 * 60 * 60 * 24.

(** [new Date().toISOString().split('T')[0]]: the UTC calendar day of a clock
    reading, as a day number. *)
Definition iso_day (now : Z) : Z := now / MS_PER_DAY.

(** [new Date(day)] for a date-only ISO string: midnight UTC, in milliseconds. *)
Definition date_ms (day : Z) : Z := day * MS_PER_DAY.

(** ** The server's time zone *)

(** Local time on the server is UTC plus [utc_offset] milliseconds: a fixed
    offset (no daylight saving), less than a day either way. *)
Class Zone := mk_zone {
  utc_offset : Z;
  utc_offset_range : - MS_PER_DAY < utc_offset < MS_PER_DAY }.

(** A server on UTC, and one on Jakarta time (UTC+7). *)
Definition UTC : Zone := mk_zone 0 (conj eq_refl eq_refl).
Definition WIB : Zone := mk_zone (7 * 60 * 60 * 1000) (conj eq_refl eq_refl).

(** A DATE column as node-postgres hands it to a handler: a JavaScript Date
    at midnight, local time, of the day stored. *)
Definition local_midnight {zone : Zone} (day : Z) : Z := date_ms day - utc_offset.

(** [new Date(d).toISOString().split('T')[0]] on such a Date: the UTC
    calendar day of that instant. *)
Definition read_date {zone : Zone} (day : Z) : Z := iso_day (local_midnight day).

(** The calendar day, local time, of a clock reading. *)
Definition local_day {zone : Zone} (t : Z) : Z := (t + utc_offset) / MS_PER_DAY.

(** [d.setHours(0, 0, 0, 0)]: midnight, local time, of the local day of [d]. *)
Definition setHours0 {zone : Zone} (t : Z) : Z := local_midnight (local_day t).

(** ** JavaScript numbers *)

(** A JavaScript number is an IEEE 754 double, here the rational it stands
    for.  Amounts are far from the largest double, so overflow to Infinity
    is left out; NaN does not arise. *)
Module Number.

Local Open Scope Q_scope.

Definition pow2 (e : Z) : Q := 2 ^ e.

(** The integer part of the binary logarithm of x > 0. *)
Definition ilog2 (x : Q) : Z :=
  let k := (Z.log2 (Qnum x) - Z.log2 (Zpos (Qden x)))%Z in
  if Qle_bool (pow2 k) x then k else (k - 1)%Z.

(** The exponent of the last binary digit of the doubles around x > 0:
    53 digits, and no exponent below that of the subnormal numbers. *)
Definition ulp_exponent (x : Q) : Z := Z.max (ilog2 x - 52) (-1074).

(** The nearest integer, ties to the even one. *)
Definition round_half_even (q : Q) : Z :=
  let f := Qfloor q in
  match Qcompare (q - inject_Z f) (1 # 2) with
  | Lt => f
  | Gt => (f + 1)%Z
  | Eq => if Z.even f then f else (f + 1)%Z
  end.

(** The double nearest to x > 0. *)
Definition nearest (x : Q) : Q :=
  let e := ulp_exponent x in
  Qred (inject_Z (round_half_even (x / pow2 e)) * pow2 e).

(** The double nearest to x (round to nearest, ties to even): what a
    numeral, a [parseFloat] or an arithmetic operation yields. *)
Definition fl (x : Q) : Q :=
  match Qnum x with
  | Z0 => 0
  | Zpos _ => nearest x
  | Zneg _ => Qred (- nearest (- x))
  end.

(** [x * y], [x / y] and [x + y]: the exact result, rounded. *)
Definition mul (x y : Q) : Q := fl (x * y).
Definition div (x y : Q) : Q := fl (x / y).
Definition add (x y : Q) : Q := fl (x + y).

(** [x < y] and [x >= y]. *)
Definition ltb (x y : Q) : bool := negb (Qle_bool y x).
Definition geb (x y : Q) : bool := Qle_bool y x.

(** The integer part of the decimal logarithm of x > 0, searched downwards
    from a bound above it. *)
Fixpoint ilog10_from (fuel : nat) (p : Z) (x : Q) : Z :=
  match fuel with
  | O => p
  | S fuel' => if Qle_bool (10 ^ p) x then p else ilog10_from fuel' (p - 1)%Z x
  end.

Definition ilog10 (x : Q) : Z :=
  let e := ilog2 x in
  ilog10_from 128 (if (0 <=? e)%Z then e / 3 + 1 else e / 4 + 1)%Z x.

(** A decimal of [k] significant digits that reads back as the double
    x > 0: of the two next to x, the one that does; when both do, the
    closer one, and of two equally close the one whose last digit is even. *)
Definition shortest_at (x : Q) (k : Z) : option Q :=
  let scale := 10 ^ (ilog10 x - k + 1) in
  let s := Qfloor (x / scale) in
  let below := inject_Z s * scale in
  let above := inject_Z (s + 1) * scale in
  match Qeq_bool (fl below) x, Qeq_bool (fl above) x with
  | true, true =>
      Some match Qcompare (x - below) (above - x) with
           | Lt => below
           | Gt => above
           | Eq => if Z.even s then below else above
           end
  | true, false => Some below
  | false, true => Some above
  | false, false => None
  end.

Fixpoint shortest_from (fuel : nat) (k : Z) (x : Q) : Q :=
  match fuel with
  | O => x
  | S fuel' =>
      match shortest_at x k with
      | Some c => c
      | None => shortest_from fuel' (k + 1)%Z x
      end
  end.

(** [String(x)] (Number::toString), as the number written: the decimal of
    fewest significant digits that reads back as x; seventeen always
    suffice.  This is the text node-postgres sends for a number bound to a
    query parameter. *)
Definition to_text (x : Q) : Q :=
  match Qnum x with
  | Z0 => 0
  | Zpos _ => Qred (shortest_from 17 1 x)
  | Zneg _ => Qred (- shortest_from 17 1 (- x))
  end.

End Number.

(** [parseFloat] of the text of a DECIMAL(_,6) column. *)
Definition parseFloat (v : Z) : Q := Number.fl (to_Q v).

(** The number a request carries for an amount written v / 10^6: the double
    [JSON.parse] makes of the numeral. *)
Definition received (v : Z) : Q := Number.fl (to_Q v).

(** A number computed by a handler and bound to a DECIMAL(_,6) parameter:
    written by the driver, read and rounded by the database. *)
Definition bound6 (x : Q) : Z := store6 (Number.to_text x).

(** [x || d] on an optional string: undefined, null and the empty string are falsy. *)
Definition js_or (x : option string) (d : string) : string :=
  match x with
  | Some s => if String.eqb s "" then d else s
  | None => d
  end.

(** ** The store (db/schema.sql) *)

Inductive status := Pending | Confirmed | Failed.
Inductive tx_type := TDeposit | TWithdrawal | TTransfer | TEarnings.

Record user_row := mk_user {
  wallet_address : string;
  mode : string;
  total_balance : Z;
  total_earnings : Z }.

Record goal_row := mk_goal {
  goal_user : uuid;
  title : string;
  target_amount : Z;
  current_amount : Z;
  is_main_goal : bool;
  is_completed : bool }.

Record deposit_row := mk_deposit {
  dep_id : uuid;
  dep_user : uuid;
  dep_goal : option uuid;
  dep_amount : Z;
  dep_date : Z;
  dep_payment_method : option uuid;
  dep_hash : option string;
  dep_status : status }.

Record transaction_row := mk_transaction {
  tx_id : uuid;
  tx_user : uuid;
  tx_kind : tx_type;
  tx_amount : Z;
  tx_description : string;
  tx_hash : option string;
  tx_status : status }.

Record streak_row := mk_streak {
  current_streak : Z;
  longest_streak : Z;
  last_deposit_date : option Z;
  total_deposits : Z }.

Record growth_row := mk_growth {
  growth_percentage : Z;
  earnings : Z;
  has_deposit : bool }.

Record pool_row := mk_pool {
  pa_id : uuid;
  pa_user : uuid;
  pool_type : string;
  protocol_id : string;
  protocol_name : string;
  protocol_address : option string;
  amount_allocated : Z;
  current_apy : Z;
  pa_total_earnings : Z;
  daily_earnings : Z }.

(** One element of the [allocations] array of an allocate request. *)
Record alloc_entry := mk_entry {
  poolType : string;
  protocolId : string;
  protocolName : string;
  protocolAddress : option string;
  amount : Z;
  percentage : Z;
  apy : Z }.

Record history_row := mk_history {
  ah_id : uuid;
  ah_user : uuid;
  ah_deposit : option uuid;
  ah_deposit_amount : Z;
  ah_allocations : list alloc_entry;
  ah_user_mode : string }.

(** The tables.  [streaks] is keyed by user_id (UNIQUE(user_id)) and
    [daily_growth] by (user_id, date) (UNIQUE(user_id, date)); the tables that
    are only appended to or searched are lists in insertion order. *)
Record db := mk_db {
  users : gmap N user_row;
  savings_goals : gmap N goal_row;
  deposits : list deposit_row;
  transactions : list transaction_row;
  streaks : gmap N streak_row;
  daily_growth : gmap (N * Z) growth_row;
  payment_methods : gset N;
  pool_allocations : list pool_row;
  allocation_history : list history_row;
  uuid_seq : N }.

Definition set_users (f : gmap N user_row -> gmap N user_row) (s : db) : db :=
  mk_db (f (users s)) (savings_goals s) (deposits s) (transactions s) (streaks s)
        (daily_growth s) (payment_methods s) (pool_allocations s)
        (allocation_history s) (uuid_seq s).

Definition set_savings_goals (f : gmap N goal_row -> gmap N goal_row) (s : db) : db :=
  mk_db (users s) (f (savings_goals s)) (deposits s) (transactions s) (streaks s)
        (daily_growth s) (payment_methods s) (pool_allocations s)
        (allocation_history s) (uuid_seq s).

Definition set_deposits (f : list deposit_row -> list deposit_row) (s : db) : db :=
  mk_db (users s) (savings_goals s) (f (deposits s)) (transactions s) (streaks s)
        (daily_growth s) (payment_methods s) (pool_allocations s)
        (allocation_history s) (uuid_seq s).

Definition set_transactions (f : list transaction_row -> list transaction_row) (s : db) : db :=
  mk_db (users s) (savings_goals s) (deposits s) (f (transactions s)) (streaks s)
        (daily_growth s) (payment_methods s) (pool_allocations s)
        (allocation_history s) (uuid_seq s).

Definition set_streaks (f : gmap N streak_row -> gmap N streak_row) (s : db) : db :=
  mk_db (users s) (savings_goals s) (deposits s) (transactions s) (f (streaks s))
        (daily_growth s) (payment_methods s) (pool_allocations s)
        (allocation_history s) (uuid_seq s).

Definition set_daily_growth (f : gmap (N * Z) growth_row -> gmap (N * Z) growth_row) (s : db) : db :=
  mk_db (users s) (savings_goals s) (deposits s) (transactions s) (streaks s)
        (f (daily_growth s)) (payment_methods s) (pool_allocations s)
        (allocation_history s) (uuid_seq s).

Definition set_pool_allocations (f : list pool_row -> list pool_row) (s : db) : db :=
  mk_db (users s) (savings_goals s) (deposits s) (transactions s) (streaks s)
        (daily_growth s) (payment_methods s) (f (pool_allocations s))
        (allocation_history s) (uuid_seq s).

Definition set_allocation_history (f : list history_row -> list history_row) (s : db) : db :=
  mk_db (users s) (savings_goals s) (deposits s) (transactions s) (streaks s)
        (daily_growth s) (payment_methods s) (pool_allocations s)
        (f (allocation_history s)) (uuid_seq s).

(** ** Transactions: a state and error monad over the store *)

(** A statement either raises (constraint violation) or yields a value and
    the store it leaves. *)
Definition tx (A : Type) : Type := db -> option (A * db).

Definition tx_ret {A} (a : A) : tx A := fun s => Some (a, s).
Definition tx_bind {A B} (m : tx A) (k : A -> tx B) : tx B :=
  fun s => match m s with
           | Some (a, s') => k a s'
           | None => None
           end.
Definition tx_raise {A} : tx A := fun _ => None.
Definition tx_get : tx db := fun s => Some (s, s).
Definition tx_modify (f : db -> db) : tx unit := fun s => Some (tt, f s).
Definition tx_guard (b : bool) : tx unit := if b then tx_ret tt else tx_raise.

Declare Scope tx_scope.
Delimit Scope tx_scope with tx.
Notation "'let*' x := m 'in' k" := (tx_bind m (fun x => k))
  (at level 10, x name, m at level 100, k at level 200,
   format "'[v' 'let*'  x  :=  m  'in' '/' k ']'") : tx_scope.
Notation "m ;; k" := (tx_bind m (fun _ => k))
  (at level 100, k at level 200, right associativity) : tx_scope.
Local Open Scope tx_scope.

(** [uuid_generate_v4()]. *)
Definition uuid_generate_v4 : tx uuid :=
  fun s => Some (uuid_seq s,
                 mk_db (users s) (savings_goals s) (deposits s) (transactions s)
                       (streaks s) (daily_growth s) (payment_methods s)
                       (pool_allocations s) (allocation_history s)
                       (N.succ (uuid_seq s))).

(** A nullable foreign key: NULL, or the key of a row of the referenced table. *)
Definition fk_ok {V} (k : option N) (t : gmap N V) : bool :=
  match k with
  | Some i => bool_decide (is_Some (t !! i))
  | None => true
  end.

(** What a handler sends back. *)
Inductive response (A : Type) :=
| Created (body : A)
| OkJson (body : A)
| BadRequest (error : string)
| NotFound (error : string)
| ServerError (error : string).
Arguments Created {A} body.
Arguments OkJson {A} body.
Arguments BadRequest {A} error.
Arguments NotFound {A} error.
Arguments ServerError {A} error.

(** ** The trigger of db/schema.sql *)

(** The tables a BEFORE UPDATE trigger running [update_updated_at_column()]
    is attached to. *)
Inductive table := Users | SavingsGoals | Streaks | PaymentMethods | PoolAllocations.

(** The first four have an updated_at column; pool_allocations has
    last_updated and no updated_at. *)
Definition has_updated_at (t : table) : bool :=
  match t with
  | PoolAllocations => false
  | _ => true
  end.

(** [NEW.updated_at = CURRENT_TIMESTAMP; RETURN NEW;] on the row an
    UPDATE is about to write.  Timestamps are not part of the model's rows,
    so with the column there the row goes on as it is; without it the
    assignment raises (record "new" has no field "updated_at") and the
    statement fails.  Only the updates of pool_allocations are run through
    it here: for the other tables it changes nothing. *)
Definition update_updated_at_column {row : Type} (t : table) (NEW : row) : option row :=
  if has_updated_at t then Some NEW else None.

(** ** Statements shared by the handlers *)

(** [x || null] on an optional string. *)
Definition or_null (x : option string) : option string :=
  match x with
  | Some s => if String.eqb s "" then None else Some s
  | None => None
  end.

(** UPDATE users SET total_balance = total_balance + $1. *)
Definition credit (a : Z) (u : user_row) : user_row :=
  mk_user (wallet_address u) (mode u) (total_balance u + a) (total_earnings u).

(** UPDATE users SET total_balance = total_balance - $1. *)
Definition debit (a : Z) (u : user_row) : user_row :=
  mk_user (wallet_address u) (mode u) (total_balance u - a) (total_earnings u).

(** INSERT INTO transactions ... RETURNING *. *)
Definition insert_transaction (row : uuid -> transaction_row) : tx transaction_row :=
  let* id := uuid_generate_v4 in
  tx_modify (set_transactions (fun t => t ++ [row id])) ;;
  tx_ret (row id).

(** ** The deposit routes (src/routes/deposits.js) *)

Module Deposits.

(** The body of POST /api/deposits/:userId. *)
Record deposit_request := mk_deposit_request {
  d_goalId : option uuid;
  d_amount : Z;
  d_paymentMethodId : option uuid;
  d_transactionHash : option string }.

(** INSERT INTO deposits ... RETURNING *: user_id must reference a user,
    goal_id and payment_method_id are nullable references. *)
Definition deposit_refs_ok (userId : uuid) (req : deposit_request) (s : db) : bool :=
  bool_decide (is_Some (users s !! userId))
  && fk_ok (d_goalId req) (savings_goals s)
  && match d_paymentMethodId req with
     | Some p => bool_decide (p ∈ payment_methods s)
     | None => true
     end.

Definition insert_deposit (userId : uuid) (req : deposit_request) (now : Z) : tx deposit_row :=
  let* s := tx_get in
  tx_guard (deposit_refs_ok userId req s) ;;
  let* id := uuid_generate_v4 in
  let row := mk_deposit id userId (d_goalId req) (d_amount req) now
                        (d_paymentMethodId req) (or_null (d_transactionHash req))
                        Confirmed in
  tx_modify (set_deposits (fun t => t ++ [row])) ;;
  tx_ret row.

(** UPDATE savings_goals SET current_amount = current_amount + $1. *)
Definition add_current_amount (a : Z) (g : goal_row) : goal_row :=
  mk_goal (goal_user g) (title g) (target_amount g) (current_amount g + a)
          (is_main_goal g) (is_completed g).

(** UPDATE savings_goals SET is_completed = true. *)
Definition set_completed (g : goal_row) : goal_row :=
  mk_goal (goal_user g) (title g) (target_amount g) (current_amount g)
          (is_main_goal g) true.

(** [parseFloat(current_amount) >= parseFloat(target_amount)]. *)
Definition reached (row : goal_row) : bool :=
  Number.geb (parseFloat (current_amount row)) (parseFloat (target_amount row)).

(** The [if (goalId)] block: bump the goal, read it back, and mark it
    completed when the check on the two doubles says so. *)
Definition update_goal (goalId : option uuid) (a : Z) : tx unit :=
  match goalId with
  | Some g =>
      tx_modify (set_savings_goals (alter (add_current_amount a) g)) ;;
      let* s := tx_get in
      match savings_goals s !! g with
      | Some row =>
          if reached row
          then tx_modify (set_savings_goals (alter set_completed g))
          else tx_ret tt
      | None => tx_ret tt
      end
  | None => tx_ret tt
  end.

(** [Math.floor((new Date(today) - new Date(lastDepositDate)) / (1000*60*60*24))]. *)
Definition daysDiff (today lastDepositDate : Z) : Z :=
  (date_ms today - date_ms lastDepositDate) / MS_PER_DAY.

(** The streak block for a streak row that exists: [None] when the row is
    left alone (the stored date reads as today), otherwise the row the
    UPDATE writes.  [lastDepositDate] is the stored date as the handler
    reads it back. *)
Definition streak_step {zone : Zone} (today : Z) (streak : streak_row)
  : option streak_row :=
  let lastDepositDate := read_date <$> last_deposit_date streak in
  let newStreak := current_streak streak in
  if match lastDepositDate with
     | None => true
     | Some l => negb (l =? today)
     end
  then
    let newStreak :=
      match lastDepositDate with
      | Some l =>
          if daysDiff today l =? 1 then newStreak + 1
          else if 1 <? daysDiff today l then 1
          else newStreak
      | None => 1
      end in
    let longestStreak := Z.max newStreak (longest_streak streak) in
    Some (mk_streak newStreak longestStreak (Some today) (total_deposits streak + 1))
  else None.

Definition update_streak {zone : Zone} (userId : uuid) (today : Z) : tx unit :=
  let* s := tx_get in
  match streaks s !! userId with
  | Some streak =>
      match streak_step today streak with
      | Some streak' => tx_modify (set_streaks (<[userId := streak']>))
      | None => tx_ret tt
      end
  | None => tx_ret tt
  end.

(** INSERT INTO daily_growth (user_id, date, has_deposit) VALUES ($1, $2, true)
    ON CONFLICT (user_id, date) DO UPDATE SET has_deposit = true. *)
Definition mark_has_deposit (g : option growth_row) : option growth_row :=
  match g with
  | Some r => Some (mk_growth (growth_percentage r) (earnings r) true)
  | None => Some (mk_growth 0 0 true)
  end.

(** The description of the ledger row: "Deposit", or "Deposit to <title>". *)
Definition deposit_description (goalId : option uuid) (s : db) : string :=
  "Deposit" +:+
  match goalId with
  | Some g => " to " +:+ match savings_goals s !! g with
                        | Some row => title row
                        | None => "undefined"
                        end
  | None => ""
  end.

(** Everything between BEGIN and COMMIT. *)
Definition deposit_tx {zone : Zone} (userId : uuid) (req : deposit_request) (now : Z)
  : tx deposit_row :=
  let* deposit := insert_deposit userId req now in
  update_goal (d_goalId req) (d_amount req) ;;
  tx_modify (set_users (alter (credit (d_amount req)) userId)) ;;
  let today := iso_day now in
  update_streak userId today ;;
  tx_modify (set_daily_growth (partial_alter mark_has_deposit (userId, today))) ;;
  let* s := tx_get in
  insert_transaction (fun id =>
    mk_transaction id userId TDeposit (d_amount req)
                   (deposit_description (d_goalId req) s)
                   (or_null (d_transactionHash req)) Confirmed) ;;
  tx_ret deposit.

(** POST /api/deposits/:userId.  A missing amount takes the same branch as 0. *)
Definition RecordDeposit {zone : Zone} (userId : uuid) (req : deposit_request) (now : Z)
    (s : db) : response deposit_row * db :=
  if d_amount req <=? 0 then (BadRequest "Invalid deposit amount", s)
  else match deposit_tx userId req now s with
       | Some (deposit, s') => (Created deposit, s')
       | None => (ServerError "Failed to create deposit", s)
       end.

(** *** What a committed deposit leaves behind *)

Definition goals_after (goalId : option uuid) (a : Z) (t : gmap N goal_row) : gmap N goal_row :=
  match goalId with
  | Some g =>
      let t1 := alter (add_current_amount a) g t in
      match t1 !! g with
      | Some row => if reached row then alter set_completed g t1 else t1
      | None => t1
      end
  | None => t
  end.

Definition streaks_after {zone : Zone} (userId : uuid) (today : Z) (t : gmap N streak_row)
  : gmap N streak_row :=
  match t !! userId with
  | Some streak =>
      match streak_step today streak with
      | Some streak' => <[userId := streak']> t
      | None => t
      end
  | None => t
  end.

Definition deposit_row_of (userId : uuid) (req : deposit_request) (now : Z) (s : db) : deposit_row :=
  mk_deposit (uuid_seq s) userId (d_goalId req) (d_amount req) now
             (d_paymentMethodId req) (or_null (d_transactionHash req)) Confirmed.

Definition ledger_row_of (userId : uuid) (req : deposit_request) (s : db) : transaction_row :=
  mk_transaction (N.succ (uuid_seq s)) userId TDeposit (d_amount req)
    (deposit_description (d_goalId req)
       (set_savings_goals (goals_after (d_goalId req) (d_amount req)) s))
    (or_null (d_transactionHash req)) Confirmed.

Definition deposit_post {zone : Zone} (userId : uuid) (req : deposit_request) (now : Z)
    (s : db) : db :=
  mk_db (alter (credit (d_amount req)) userId (users s))
        (goals_after (d_goalId req) (d_amount req) (savings_goals s))
        (deposits s ++ [deposit_row_of userId req now s])
        (transactions s ++ [ledger_row_of userId req s])
        (streaks_after userId (iso_day now) (streaks s))
        (partial_alter mark_has_deposit (userId, iso_day now) (daily_growth s))
        (payment_methods s) (pool_allocations s) (allocation_history s)
        (N.succ (N.succ (uuid_seq s))).

(** Requests served one after the other. *)
Definition deposit_call : Type := uuid * deposit_request * Z.

Definition serve {zone : Zone} (s : db) (c : deposit_call) : db :=
  let '(userId, req, now) := c in snd (RecordDeposit userId req now s).

Definition serve_all {zone : Zone} (cs : list deposit_call) (s : db) : db :=
  fold_left serve cs s.

(** The streak row created with the user by POST /api/auth/connect-wallet. *)
Definition new_streak : streak_row := mk_streak 0 0 None 0.

(** A clock reading on day [d] ([ms] milliseconds after midnight UTC). *)
Definition on_day (d ms : Z) : Z := date_ms d + ms.

(** The deposit property as the specification words it: without a goal, a
    deposit writes the balance and the day's has_deposit flag and nothing
    else, in particular no streak row. *)
Definition no_goal_deposit_leaves_streak_alone {zone : Zone} : Prop :=
  forall userId req now s u,
    users s !! userId = Some u ->
    0 < d_amount req ->
    d_goalId req = None ->
    d_paymentMethodId req = None ->
    let s' := snd (RecordDeposit userId req now s) in
    total_balance <$> users s' !! userId = Some (total_balance u + d_amount req)
    /\ savings_goals s' = savings_goals s
    /\ streaks s' = streaks s
    /\ daily_growth s'
       = partial_alter mark_has_deposit (userId, iso_day now) (daily_growth s).

End Deposits.

(** ** A small store for examples

    One user (id 1) holding 100.000000, with the streak row of a new
    account and one goal (id 7) of 150.000000. *)
Definition demo_store : db :=
  mk_db {[ 1%N := mk_user "0xabc" "lite" 100000000 0 ]}
        {[ 7%N := mk_goal 1%N "Car" 150000000 0 true false ]}
        [] []
        {[ 1%N := Deposits.new_streak ]}
        ∅ ∅ [] [] 100%N.

(** The same store once the user holds a position of 100.000000 at 10% in
    one lending protocol. *)
Definition demo_portfolio : db :=
  mk_db (users demo_store) (savings_goals demo_store) [] [] (streaks demo_store) ∅ ∅
        [mk_pool 50%N 1%N "lending" "aave-v3-usdc" "Aave V3" None
                 100000000 10000000 0 27397]
        [] 100%N.

(** ** The transaction routes (router of /api/transactions) *)

Module Transactions.

(** The body of POST /api/transactions/:userId/withdrawal. *)
Record withdrawal_request := mk_withdrawal_request {
  w_amount : Z;
  w_description : option string;
  w_transactionHash : option string;
  w_withdrawalAddress : option string }.

(** The ledger row of a withdrawal:
    [description || `Withdrawal to ${withdrawalAddress || 'external wallet'}`]. *)
Definition withdrawal_row (userId : uuid) (req : withdrawal_request) (id : uuid)
  : transaction_row :=
  mk_transaction id userId TWithdrawal (w_amount req)
    (js_or (w_description req)
           ("Withdrawal to " +:+ js_or (w_withdrawalAddress req) "external wallet"))
    (or_null (w_transactionHash req)) Confirmed.

(** The statements after the balance check: INSERT the ledger row, UPDATE
    the balance. *)
Definition withdrawal_tx (userId : uuid) (req : withdrawal_request) : tx transaction_row :=
  let* transaction := insert_transaction (withdrawal_row userId req) in
  tx_modify (set_users (alter (debit (w_amount req)) userId)) ;;
  tx_ret transaction.

(** The store a committed withdrawal leaves. *)
Definition withdrawal_post (userId : uuid) (req : withdrawal_request) (s : db) : db :=
  mk_db (alter (debit (w_amount req)) userId (users s))
        (savings_goals s) (deposits s)
        (transactions s ++ [withdrawal_row userId req (uuid_seq s)])
        (streaks s) (daily_growth s) (payment_methods s) (pool_allocations s)
        (allocation_history s) (N.succ (uuid_seq s)).

(** POST /api/transactions/:userId/withdrawal, run without interruption.
    A missing amount takes the same branch as 0; the sign of the number
    received is that of the amount written.  The balance check compares
    two doubles: [parseFloat] of the balance read and the amount received. *)
Definition RecordWithdrawal (userId : uuid) (req : withdrawal_request) (s : db)
  : response transaction_row * db :=
  if w_amount req <=? 0 then (BadRequest "Invalid withdrawal amount", s)
  else
    match users s !! userId with
    | None => (NotFound "User not found", s)
    | Some u =>
        let currentBalance := parseFloat (total_balance u) in
        if Number.ltb currentBalance (received (w_amount req))
        then (BadRequest "Insufficient balance", s)
        else match withdrawal_tx userId req s with
             | Some (transaction, s') => (Created transaction, s')
             | None => (ServerError "Failed to create withdrawal", s)
             end
    end.

(** *** The handler under interleaving

    The handler is asynchronous: other requests run between its [await]s.
    With the store at its default isolation level (read committed; the
    handler asks for no other, and its SELECT takes no row lock), a request
    meets the committed store at two points: the SELECT that reads
    total_balance, and the writes made visible by COMMIT.  The UPDATE is
    relative ([total_balance - $1]) and is applied to the row as last
    committed; the row lock it takes is held until COMMIT, so the writes of
    one request are not interleaved with those of another on the same row.
    A request is therefore a two-step machine over the committed store:
    first validation, BEGIN, SELECT and the balance check, then INSERT,
    UPDATE and COMMIT.  A schedule says whose turn it is. *)

Inductive progress :=
| AtBegin
| Checked (currentBalance : Q)
| Responded (r : response transaction_row).

Record request := mk_request {
  r_user : uuid;
  r_body : withdrawal_request;
  r_progress : progress }.

Definition step (c : request) (s : db) : request * db :=
  let userId := r_user c in
  let req := r_body c in
  match r_progress c with
  | AtBegin =>
      if w_amount req <=? 0
      then (mk_request userId req (Responded (BadRequest "Invalid withdrawal amount")), s)
      else
        match users s !! userId with
        | None => (mk_request userId req (Responded (NotFound "User not found")), s)
        | Some u =>
            let currentBalance := parseFloat (total_balance u) in
            if Number.ltb currentBalance (received (w_amount req))
            then (mk_request userId req (Responded (BadRequest "Insufficient balance")), s)
            else (mk_request userId req (Checked currentBalance), s)
        end
  | Checked _ =>
      match withdrawal_tx userId req s with
      | Some (transaction, s') => (mk_request userId req (Responded (Created transaction)), s')
      | None => (mk_request userId req (Responded (ServerError "Failed to create withdrawal")), s)
      end
  | Responded _ => (c, s)
  end.

(** Run a schedule: each entry names the request that takes its next step. *)
Fixpoint run (schedule : list nat) (cs : list request) (s : db) : list request * db :=
  match schedule with
  | [] => (cs, s)
  | i :: schedule' =>
      match cs !! i with
      | Some c => let '(c', s') := step c s in run schedule' (<[i := c']> cs) s'
      | None => run schedule' cs s
      end
  end.

(** [n] requests from the same user with the same body, none started. *)
Definition arrivals (n : nat) (userId : uuid) (req : withdrawal_request) : list request :=
  replicate n (mk_request userId req AtBegin).

(** Requests that do not overlap: each is served to its response before
    the next one starts. *)
Fixpoint one_by_one (reqs : list withdrawal_request) (userId : uuid) (s : db)
  : list (response transaction_row) * db :=
  match reqs with
  | [] => ([], s)
  | req :: reqs' =>
      let '(r, s1) := RecordWithdrawal userId req s in
      let '(rs, s2) := one_by_one reqs' userId s1 in
      (r :: rs, s2)
  end.

Definition succeeded (c : request) : bool :=
  match r_progress c with
  | Responded (Created _) => true
  | _ => false
  end.

Definition insufficient (c : request) : bool :=
  match r_progress c with
  | Responded (BadRequest e) => String.eqb e "Insufficient balance"
  | _ => false
  end.

End Transactions.

(** ** The portfolio routes (src/routes/portfolio.js) *)

Module Portfolio.

(** The body of POST /api/portfolio/:userId/allocate. *)
Record allocate_request := mk_allocate_request {
  a_depositId : option uuid;
  a_depositAmount : Z;
  a_allocations : list alloc_entry;
  a_userMode : string }.

(** CHECK (pool_type IN (...)) of pool_allocations. *)
Definition POOL_TYPES : list string :=
  ["stablecoin"; "lending"; "dex"; "staking"; "yield_aggregator"].

Definition USER_MODES : list string := ["lite"; "balanced"; "pro"].

(** [(amount * apy) / 365 / 100] on the numbers of an entry, computed in
    doubles and bound to the DECIMAL(18,6) parameter daily_earnings. *)
Definition daily (amount_n apy_n : Q) : Z :=
  bound6 (Number.div (Number.div (Number.mul amount_n apy_n) (inject_Z 365)) (inject_Z 100)).

(** [amount * apy / 365 / 100] inside an SQL expression: numeric arithmetic,
    rounded when stored in daily_earnings. *)
Definition daily_sql (amount_q apy_q : Q) : Z :=
  store6 (amount_q * apy_q / inject_Z 365 / inject_Z 100)%Q.

(** UNIQUE(user_id, protocol_id, pool_type). *)
Definition key (r : pool_row) : uuid * string * string :=
  (pa_user r, protocol_id r, pool_type r).

(** The key an entry of a request of this user asks for. *)
Definition entry_key (userId : uuid) (alloc : alloc_entry) : uuid * string * string :=
  (userId, protocolId alloc, poolType alloc).

(** ON CONFLICT (user_id, protocol_id, pool_type). *)
Definition conflicts (proposed existing : pool_row) : bool :=
  (pa_user existing =? pa_user proposed)%N
  && String.eqb (protocol_id existing) (protocol_id proposed)
  && String.eqb (pool_type existing) (pool_type proposed).

(** DO UPDATE SET amount_allocated = pool_allocations.amount_allocated + EXCLUDED.amount_allocated,
    current_apy = EXCLUDED.current_apy,
    daily_earnings = (pool_allocations.amount_allocated + EXCLUDED.amount_allocated)
                     * EXCLUDED.current_apy / 365 / 100:
    the row the SET clause computes, before the trigger sees it. *)
Definition do_update (EXCLUDED existing : pool_row) : pool_row :=
  mk_pool (pa_id existing) (pa_user existing) (pool_type existing)
          (protocol_id existing) (protocol_name existing) (protocol_address existing)
          (amount_allocated existing + amount_allocated EXCLUDED)
          (current_apy EXCLUDED)
          (pa_total_earnings existing)
          (daily_sql (to_Q (amount_allocated existing + amount_allocated EXCLUDED))
                     (to_Q (current_apy EXCLUDED))).

(** INSERT ... ON CONFLICT ... DO UPDATE ... RETURNING * on the table:
    the table after the statement and the row returned, or nothing when
    the statement raises.  Without a conflict the row is inserted; on a
    conflict the row of the SET clause goes through the BEFORE UPDATE
    trigger of pool_allocations. *)
Fixpoint insert_on_conflict (proposed : pool_row) (t : list pool_row)
  : option (list pool_row * pool_row) :=
  match t with
  | [] => Some ([proposed], proposed)
  | existing :: t' =>
      if conflicts proposed existing
      then match update_updated_at_column PoolAllocations (do_update proposed existing) with
           | Some row => Some (row :: t', row)
           | None => None
           end
      else match insert_on_conflict proposed t' with
           | Some (t'', r) => Some (existing :: t'', r)
           | None => None
           end
  end.

(** The row an allocation entry proposes; the last parameter of the query
    is [(amount * apy) / 365 / 100]. *)
Definition proposed_row (id userId : uuid) (alloc : alloc_entry) : pool_row :=
  mk_pool id userId (poolType alloc) (protocolId alloc) (protocolName alloc)
          (or_null (protocolAddress alloc)) (amount alloc) (apy alloc) 0
          (daily (received (amount alloc)) (received (apy alloc))).

(** One round of the loop: upsert the entry's row.  user_id references a
    user and pool_type is CHECKed. *)
Definition upsert_allocation (userId : uuid) (alloc : alloc_entry) : tx pool_row :=
  let* s := tx_get in
  tx_guard (bool_decide (is_Some (users s !! userId))
            && bool_decide (poolType alloc ∈ POOL_TYPES)) ;;
  let* id := uuid_generate_v4 in
  match insert_on_conflict (proposed_row id userId alloc) (pool_allocations s) with
  | Some (t, row) =>
      tx_modify (set_pool_allocations (fun _ => t)) ;;
      tx_ret row
  | None => tx_raise
  end.

(** [for (const alloc of allocations) { ...; createdAllocations.push(result.rows[0]) }]. *)
Fixpoint allocate_each (userId : uuid) (allocations : list alloc_entry) : tx (list pool_row) :=
  match allocations with
  | [] => tx_ret []
  | alloc :: rest =>
      let* row := upsert_allocation userId alloc in
      let* rows := allocate_each userId rest in
      tx_ret (row :: rows)
  end.

(** INSERT INTO allocation_history: user_id references a user, deposit_id is
    a nullable reference to a deposit. *)
Definition insert_history (userId : uuid) (req : allocate_request) : tx unit :=
  let* s := tx_get in
  tx_guard (bool_decide (is_Some (users s !! userId))
            && match a_depositId req with
               | Some d => existsb (fun r => (dep_id r =? d)%N) (deposits s)
               | None => true
               end) ;;
  let* id := uuid_generate_v4 in
  tx_modify (set_allocation_history (fun t =>
    t ++ [mk_history id userId (a_depositId req) (a_depositAmount req)
                     (a_allocations req) (a_userMode req)])).

Definition allocate_tx (userId : uuid) (req : allocate_request) : tx (list pool_row) :=
  let* createdAllocations := allocate_each userId (a_allocations req) in
  insert_history userId req ;;
  tx_ret createdAllocations.

(** POST /api/portfolio/:userId/allocate.  A missing or non-array
    [allocations] takes the same branch as the empty array; whatever is
    raised between BEGIN and COMMIT is answered 500 after ROLLBACK. *)
Definition Allocate (userId : uuid) (req : allocate_request) (s : db)
  : response (list pool_row) * db :=
  if (length (a_allocations req) =? 0)%nat
  then (BadRequest "Allocations array is required", s)
  else if negb (bool_decide (a_userMode req ∈ USER_MODES))
  then (BadRequest "Valid user mode is required", s)
  else match allocate_tx userId req s with
       | Some (createdAllocations, s') => (Created createdAllocations, s')
       | None => (ServerError "Failed to allocate deposit", s)
       end.

(** The store a committed allocation of one entry leaves: the entry's row
    inserted, the request recorded. *)
Definition allocate_post (userId : uuid) (req : allocate_request) (alloc : alloc_entry)
    (s : db) : db :=
  mk_db (users s) (savings_goals s) (deposits s) (transactions s) (streaks s)
        (daily_growth s) (payment_methods s)
        (pool_allocations s ++ [proposed_row (uuid_seq s) userId alloc])
        (allocation_history s
         ++ [mk_history (N.succ (uuid_seq s)) userId (a_depositId req)
                        (a_depositAmount req) (a_allocations req) (a_userMode req)])
        (N.succ (N.succ (uuid_seq s))).

(** The body of the reply of DELETE /:userId/allocation/:allocationId. *)
Record removed := mk_removed {
  withdrawnAmount : Z;
  removed_poolType : string;
  removed_protocolName : string }.

(** DELETE /api/portfolio/:userId/allocation/:allocationId.  The amount
    credited is [parseFloat(allocation.amount_allocated)] bound to the
    UPDATE: amount_allocated was written from a request amount and reads
    back as that amount. *)
Definition Deallocate (userId allocationId : uuid) (s : db) : response removed * db :=
  match List.find (fun r => (pa_id r =? allocationId)%N && (pa_user r =? userId)%N)
                  (pool_allocations s) with
  | None => (NotFound "Allocation not found", s)
  | Some allocation =>
      let amount := amount_allocated allocation in
      let s1 := set_pool_allocations
                  (List.filter (fun r => negb (pa_id r =? allocationId)%N)) s in
      let s2 := set_users (alter (credit amount) userId) s1 in
      (OkJson (mk_removed amount (pool_type allocation) (protocol_name allocation)), s2)
  end.

End Portfolio.

(** ** The APY service ([apyCache], [getProtocolAPY] and its fetchers) *)

Module ApyService.

Local Open Scope Q_scope.

(** What the outside world answers during one fetch: the value of
    [Math.random()], and the outcome of the request to the Beefy API: with
    [BeefyData data] the request succeeded and [data v] is
    [response.data[v]] (a figure of 0 is falsy, like a missing one); with
    [BeefyFailure] it threw or timed out.  Both are numbers as JavaScript
    holds them; what the fetchers compute from them is computed in
    doubles. *)
Inductive beefy_reply :=
| BeefyData (data : string -> option Q)
| BeefyFailure.

Record world := mk_world {
  random : Q;
  beefy : beefy_reply }.

(** The fetcher functions a call of the service invokes, in order. *)
Inductive fetcher_call :=
| FetchAave
| FetchCompound
| FetchBeefy (vaultId : string)
| FetchMoonwell (marketType : string)
| FetchDex (poolId : string).

(** [s.includes(sub)]. *)
Fixpoint includes (s sub : string) : bool :=
  String.prefix sub s
  || match s with
     | EmptyString => false
     | String _ s' => includes s' sub
     end.

(** [base + Math.random() * width]. *)
Definition in_range (base width : Q) (w : world) : Q :=
  Number.add base (Number.mul (random w) width).

Definition fetchAaveAPY (w : world) : Q := in_range 7 8 w.

Definition fetchCompoundAPY (w : world) : Q := in_range 6 9 w.

Definition fetchBeefyAPY (vaultId : string) (w : world) : Q :=
  let range := if includes vaultId "volatile"
               then in_range 45 15 w else in_range 25 10 w in
  match beefy w with
  | BeefyData data =>
      match data vaultId with
      | Some v => if Qeq_bool v 0 then range else v
      | None => range
      end
  | BeefyFailure =>
      if includes vaultId "volatile" then Number.fl (523 # 10) else Number.fl (285 # 10)
  end.

Definition fetchMoonwellAPY (marketType : string) (w : world) : Q :=
  let baseAPY := if String.eqb marketType "multi" then 40 else 20 in
  in_range baseAPY 10 w.

Definition fetchDexAPY (poolId : string) (w : world) : Q := in_range 60 20 w.

(** The [switch (protocolId)] of getProtocolAPY: the APY it computes and the
    fetchers it calls on the way. *)
Definition fetch (protocolId : string) (w : world) : Q * list fetcher_call :=
  if String.eqb protocolId "aave-v3-usdc" then (fetchAaveAPY w, [FetchAave])
  else if String.eqb protocolId "compound-v3-usdc" then (fetchCompoundAPY w, [FetchCompound])
  else if String.eqb protocolId "moonwell-usdc"
       then (fetchMoonwellAPY "usdc" w, [FetchMoonwell "usdc"])
  else if String.eqb protocolId "moonwell-multi"
       then (fetchMoonwellAPY "multi" w, [FetchMoonwell "multi"])
  else if String.eqb protocolId "seamless-usdc" then (in_range 18 5 w, [])
  else if String.eqb protocolId "seamless-multi" then (in_range 35 8 w, [])
  else if String.eqb protocolId "beefy-stable"
       then (fetchBeefyAPY "base-usdc-stable" w, [FetchBeefy "base-usdc-stable"])
  else if String.eqb protocolId "beefy-volatile"
       then (fetchBeefyAPY "base-multi-volatile" w, [FetchBeefy "base-multi-volatile"])
  else if String.eqb protocolId "yearn-usdc" then (in_range 23 7 w, [])
  else if String.eqb protocolId "aerodrome-usdc"
       then (fetchDexAPY "aerodrome" w, [FetchDex "aerodrome"])
  else if String.eqb protocolId "uniswap-v3"
       then (fetchDexAPY "uniswap-v3" w, [FetchDex "uniswap-v3"])
  else (10, []).

(** [const CACHE_DURATION = 10 * 60 * 1000]. *)
Definition CACHE_DURATION : Z := 10 * 60 * 1000.

(** An entry of [apyCache]. *)
Record cache_entry := mk_entry_of {
  cached_apy : Q;
  timestamp : Z }.

(** The result of one call: the value returned, the cache it leaves, and
    the fetcher calls it made. *)
Record served := mk_served {
  returned : Q;
  cache_after : gmap string cache_entry;
  fetcher_calls : list fetcher_call;
  ran_switch : bool }.

(** [getProtocolAPY(protocolId)] on the cache [apyCache].  [now] is the
    value of [Date.now()] at the cache check and [stored_at] its value when
    the result is cached; [w] is what a fetch would obtain. *)
Definition getProtocolAPY (protocolId : string) (now stored_at : Z) (w : world)
    (apyCache : gmap string cache_entry) : served :=
  let refetch :=
    let '(apy, calls) := fetch protocolId w in
    mk_served apy (<[protocolId := mk_entry_of apy stored_at]> apyCache) calls true in
  match apyCache !! protocolId with
  | Some cached =>
      if (now - timestamp cached <? CACHE_DURATION)%Z
      then mk_served (cached_apy cached) apyCache [] false
      else refetch
  | None => refetch
  end.

(** [clearCache()]. *)
Definition clearCache (apyCache : gmap string cache_entry) : gmap string cache_entry := ∅.

End ApyService.

(** ** The other transaction routes: earnings and status updates *)

Module Ledger.
Import Deposits Transactions.

(** The body of POST /api/transactions/:userId/earnings. *)
Record earnings_request := mk_earnings_request {
  e_amount : Z;
  e_description : option string }.

(** The ledger row of an earnings posting: no transaction_hash,
    [description || 'Daily yield earnings']. *)
Definition earnings_row (userId : uuid) (req : earnings_request) (id : uuid)
  : transaction_row :=
  mk_transaction id userId TEarnings (e_amount req)
    (js_or (e_description req) "Daily yield earnings") None Confirmed.

(** UPDATE users SET total_balance = total_balance + $1,
                     total_earnings = total_earnings + $1. *)
Definition credit_earnings (a : Z) (u : user_row) : user_row :=
  mk_user (wallet_address u) (mode u) (total_balance u + a) (total_earnings u + a).

(** The fourth parameter of the growth upsert: [(amount / 1000) * 100],
    computed in doubles and bound to a DECIMAL(10,6) column. *)
Definition growth_of (a : Z) : Z :=
  bound6 (Number.mul (Number.div (received a) (inject_Z 1000)) (inject_Z 100)).

(** DECIMAL(10,6): a value of four integer digits at most, once rounded;
    anything else raises "numeric field overflow". *)
Definition fits_decimal_10_6 (v : Z) : bool := Z.abs v <? 10 ^ 10.

(** INSERT INTO daily_growth (user_id, date, earnings, growth_percentage)
    VALUES ($1, $2, $3, $4) ON CONFLICT (user_id, date)
    DO UPDATE SET earnings = daily_growth.earnings + EXCLUDED.earnings,
                  growth_percentage = EXCLUDED.growth_percentage. *)
Definition post_growth (a : Z) (g : option growth_row) : option growth_row :=
  match g with
  | Some r => Some (mk_growth (growth_of a) (earnings r + a) (has_deposit r))
  | None => Some (mk_growth (growth_of a) a false)
  end.

(** Everything between BEGIN and COMMIT; the ledger row references the user. *)
Definition earnings_tx (userId : uuid) (req : earnings_request) (now : Z)
  : tx transaction_row :=
  let* s := tx_get in
  tx_guard (bool_decide (is_Some (users s !! userId))) ;;
  let* transaction := insert_transaction (earnings_row userId req) in
  tx_modify (set_users (alter (credit_earnings (e_amount req)) userId)) ;;
  let today := iso_day now in
  tx_guard (fits_decimal_10_6 (growth_of (e_amount req))) ;;
  tx_modify (set_daily_growth (partial_alter (post_growth (e_amount req)) (userId, today))) ;;
  tx_ret transaction.

(** POST /api/transactions/:userId/earnings.  A missing amount takes the
    same branch as 0. *)
Definition RecordEarnings (userId : uuid) (req : earnings_request) (now : Z) (s : db)
  : response transaction_row * db :=
  if e_amount req <=? 0 then (BadRequest "Invalid earnings amount", s)
  else match earnings_tx userId req now s with
       | Some (transaction, s') => (Created transaction, s')
       | None => (ServerError "Failed to record earnings", s)
       end.

(** The store a committed earnings posting leaves. *)
Definition earnings_post (userId : uuid) (req : earnings_request) (now : Z) (s : db) : db :=
  mk_db (alter (credit_earnings (e_amount req)) userId (users s))
        (savings_goals s) (deposits s)
        (transactions s ++ [earnings_row userId req (uuid_seq s)])
        (streaks s)
        (partial_alter (post_growth (e_amount req)) (userId, iso_day now) (daily_growth s))
        (payment_methods s) (pool_allocations s) (allocation_history s)
        (N.succ (uuid_seq s)).

(** The sum of the amounts of a day's postings. *)
Definition posted (posts : list (earnings_request * Z)) : Z :=
  fold_right (fun p acc => e_amount (fst p) + acc) 0 posts.

(** [['pending', 'confirmed', 'failed'].includes(status)] on the optional
    [status] of a request body. *)
Definition parse_status (x : option string) : option status :=
  match x with
  | Some v =>
      if String.eqb v "pending" then Some Pending
      else if String.eqb v "confirmed" then Some Confirmed
      else if String.eqb v "failed" then Some Failed
      else None
  | None => None
  end.

Definition with_tx_status (v : status) (r : transaction_row) : transaction_row :=
  mk_transaction (tx_id r) (tx_user r) (tx_kind r) (tx_amount r)
                 (tx_description r) (tx_hash r) v.

Definition with_dep_status (v : status) (r : deposit_row) : deposit_row :=
  mk_deposit (dep_id r) (dep_user r) (dep_goal r) (dep_amount r) (dep_date r)
             (dep_payment_method r) (dep_hash r) v.

(** PUT /api/transactions/:transactionId/status:
    UPDATE transactions SET status = $1 WHERE id = $2 RETURNING *. *)
Definition UpdateTransactionStatus (transactionId : uuid) (newStatus : option string) (s : db)
  : response (uuid * status) * db :=
  match parse_status newStatus with
  | None => (BadRequest "Invalid status", s)
  | Some v =>
      match List.find (fun r => (tx_id r =? transactionId)%N) (transactions s) with
      | None => (NotFound "Transaction not found", s)
      | Some r =>
          (OkJson (tx_id r, v),
           set_transactions
             (map (fun r => if (tx_id r =? transactionId)%N then with_tx_status v r else r)) s)
      end
  end.

(** PUT /api/deposits/:depositId/status:
    UPDATE deposits SET status = $1 WHERE id = $2 RETURNING *. *)
Definition UpdateDepositStatus (depositId : uuid) (newStatus : option string) (s : db)
  : response (uuid * status) * db :=
  match parse_status newStatus with
  | None => (BadRequest "Invalid status", s)
  | Some v =>
      match List.find (fun r => (dep_id r =? depositId)%N) (deposits s) with
      | None => (NotFound "Deposit not found", s)
      | Some r =>
          (OkJson (dep_id r, v),
           set_deposits
             (map (fun r => if (dep_id r =? depositId)%N then with_dep_status v r else r)) s)
      end
  end.

(** *** The ledger against the balance *)

(** What a ledger row says happened to the balance. *)
Definition signed (r : transaction_row) : Z :=
  match tx_kind r with
  | TDeposit | TEarnings => tx_amount r
  | TWithdrawal => - tx_amount r
  | TTransfer => 0
  end.

(** The net of a user's ledger rows. *)
Fixpoint ledger_net (userId : uuid) (t : list transaction_row) : Z :=
  match t with
  | [] => 0
  | r :: t' => (if (tx_user r =? userId)%N then signed r else 0) + ledger_net userId t'
  end.

(** A user's total_balance (0 when there is no such user). *)
Definition balance_of (s : db) (userId : uuid) : Z :=
  match users s !! userId with
  | Some u => total_balance u
  | None => 0
  end.

(** The three financial events of the coordinator. *)
Inductive event :=
| Deposit (userId : uuid) (req : deposit_request) (now : Z)
| Withdrawal (userId : uuid) (req : withdrawal_request)
| EarningsPosted (userId : uuid) (req : earnings_request) (now : Z).

Definition handle {zone : Zone} (s : db) (e : event) : db :=
  match e with
  | Deposit userId req now => snd (RecordDeposit userId req now s)
  | Withdrawal userId req => snd (RecordWithdrawal userId req s)
  | EarningsPosted userId req now => snd (RecordEarnings userId req now s)
  end.

Definition handle_all {zone : Zone} (es : list event) (s : db) : db :=
  fold_left handle es s.

(** What an event can add to a user's balance at most: the amount of a
    deposit or of an earnings posting of that user. *)
Definition credit_of (u : uuid) (e : event) : Z :=
  match e with
  | Deposit userId req _ => if (userId =? u)%N then Z.max 0 (d_amount req) else 0
  | Withdrawal _ _ => 0
  | EarningsPosted userId req _ => if (userId =? u)%N then Z.max 0 (e_amount req) else 0
  end.

Definition credited (u : uuid) (es : list event) : Z :=
  fold_right (fun e acc => credit_of u e + acc) 0 es.

End Ledger.

(** ** The streak routes (router of /api/streaks) *)

Module Streaks.
Import Deposits.

(** UPDATE streaks SET current_streak = 0. *)
Definition zero_current (streak : streak_row) : streak_row :=
  mk_streak 0 (longest_streak streak) (last_deposit_date streak) (total_deposits streak).

(** [Math.floor((today.setHours(0,0,0,0) - lastDeposit.setHours(0,0,0,0)) / (1000*60*60*24))]
    with [today = new Date()] and [lastDeposit = new Date(streak.last_deposit_date)]:
    both operands are midnights in local time, of the local day of the
    clock reading and of the stored date. *)
Definition daysSinceLastDeposit {zone : Zone} (now lastDeposit : Z) : Z :=
  (setHours0 now - setHours0 (local_midnight lastDeposit)) / MS_PER_DAY.

(** GET /api/streaks/:userId: creates the row when there is none (user_id
    references a user), and zeroes current_streak when more than one day has
    passed since the last deposit. *)
Definition GetStreak {zone : Zone} (userId : uuid) (now : Z) (s : db)
  : response streak_row * db :=
  match streaks s !! userId with
  | None =>
      if bool_decide (is_Some (users s !! userId))
      then (OkJson (mk_streak 0 0 None 0),
            set_streaks (<[userId := mk_streak 0 0 None 0]>) s)
      else (ServerError "Failed to get streak", s)
  | Some streak =>
      match last_deposit_date streak with
      | Some lastDeposit =>
          if (1 <? daysSinceLastDeposit now lastDeposit) && (0 <? current_streak streak)
          then (OkJson (zero_current streak),
                set_streaks (<[userId := zero_current streak]>) s)
          else (OkJson streak, s)
      | None => (OkJson streak, s)
      end
  end.

(** POST /api/streaks/:userId/check: the reply's message and the row it
    reports. *)
Definition CheckStreak {zone : Zone} (userId : uuid) (now : Z) (s : db)
  : response (string * streak_row) * db :=
  match streaks s !! userId with
  | None => (NotFound "Streak record not found", s)
  | Some streak =>
      let today := iso_day now in
      let lastDepositDate := read_date <$> last_deposit_date streak in
      if match lastDepositDate with
         | Some l => l =? today
         | None => false
         end
      then (OkJson ("Streak already updated for today", streak), s)
      else
        let newStreak :=
          match lastDepositDate with
          | Some l =>
              if daysDiff today l =? 1 then current_streak streak + 1
              else if 1 <? daysDiff today l then 1
              else current_streak streak
          | None => 1
          end in
        let longestStreak := Z.max newStreak (longest_streak streak) in
        let updatedStreak :=
          mk_streak newStreak longestStreak (Some today) (total_deposits streak + 1) in
        (OkJson ("Streak updated successfully", updatedStreak),
         set_streaks (<[userId := updatedStreak]>) s)
  end.

(** POST /api/streaks/:userId/reset. *)
Definition ResetStreak (userId : uuid) (s : db) : response Z * db :=
  match streaks s !! userId with
  | None => (NotFound "Streak record not found", s)
  | Some streak => (OkJson 0, set_streaks (<[userId := zero_current streak]>) s)
  end.

(** The condition under which a view zeroes current_streak, in days of
    the server's local calendar. *)
Definition decays {zone : Zone} (now : Z) (streak : streak_row) : bool :=
  match last_deposit_date streak with
  | Some l => (1 <? local_day now - l) && (0 <? current_streak streak)
  | None => false
  end.

(** The events of one user on one day that leave a stamped row alone. *)
Definition on_the_day (day : Z) (e : option Z) : Prop :=
  match e with
  | Some now => iso_day now = day
  | None => True
  end.

(** Whatever can write a user's streak row. *)
Inductive streak_event :=
| Deposited (req : deposit_request) (now : Z)
| Viewed (now : Z)
| CheckedIn (now : Z)
| ResetByHand.

Definition streak_handle {zone : Zone} (userId : uuid) (s : db) (e : streak_event) : db :=
  match e with
  | Deposited req now => snd (RecordDeposit userId req now s)
  | Viewed now => snd (GetStreak userId now s)
  | CheckedIn now => snd (CheckStreak userId now s)
  | ResetByHand => snd (ResetStreak userId s)
  end.

(** The clock reading of an event, if it has one. *)
Definition event_time (e : streak_event) : option Z :=
  match e with
  | Deposited _ now | Viewed now | CheckedIn now => Some now
  | ResetByHand => None
  end.

Definition streak_handle_all {zone : Zone} (userId : uuid) (es : list streak_event) (s : db)
  : db :=
  fold_left (streak_handle userId) es s.

(** The counters of a streak row are ordered. *)
Definition ordered (streak : streak_row) : Prop :=
  0 <= current_streak streak <= longest_streak streak /\ 0 <= total_deposits streak.

End Streaks.

(** ** The earnings update of the portfolio routes *)

Module Yield.
Import Portfolio.

(** [(parseFloat(alloc.amount_allocated) * parseFloat(alloc.current_apy)) / 365 / 100]. *)
Definition dailyEarning (alloc : pool_row) : Q :=
  Number.div
    (Number.div
       (Number.mul (parseFloat (amount_allocated alloc)) (parseFloat (current_apy alloc)))
       (inject_Z 365))
    (inject_Z 100).

(** SET total_earnings = total_earnings + $1, daily_earnings = $2, with the
    number [q] bound to both parameters. *)
Definition post_daily (q : Q) (r : pool_row) : pool_row :=
  mk_pool (pa_id r) (pa_user r) (pool_type r) (protocol_id r) (protocol_name r)
          (protocol_address r) (amount_allocated r) (current_apy r)
          (store6 (to_Q (pa_total_earnings r) + Number.to_text q)%Q)
          (bound6 q).

(** UPDATE pool_allocations SET ... WHERE id = $3: every row with that id
    is rewritten, through the table's BEFORE UPDATE trigger. *)
Fixpoint update_by_id (id : uuid) (q : Q) (t : list pool_row) : option (list pool_row) :=
  match t with
  | [] => Some []
  | r :: t' =>
      if (pa_id r =? id)%N
      then match update_updated_at_column PoolAllocations (post_daily q r) with
           | Some r' => cons r' <$> update_by_id id q t'
           | None => None
           end
      else cons r <$> update_by_id id q t'
  end.

(** The loop over the rows selected at the start: the running
    [totalNewEarnings] and the table, or nothing when a statement raises. *)
Fixpoint accrue_loop (rows : list pool_row) (totalNewEarnings : Q) (t : list pool_row)
  : option (Q * list pool_row) :=
  match rows with
  | [] => Some (totalNewEarnings, t)
  | alloc :: rest =>
      let totalNewEarnings := Number.add totalNewEarnings (dailyEarning alloc) in
      match update_by_id (pa_id alloc) (dailyEarning alloc) t with
      | Some t' => accrue_loop rest totalNewEarnings t'
      | None => None
      end
  end.

(** UPDATE users SET total_earnings = total_earnings + $1. *)
Definition add_total_earnings (q : Q) (u : user_row) : user_row :=
  mk_user (wallet_address u) (mode u) (total_balance u)
          (store6 (to_Q (total_earnings u) + Number.to_text q)%Q).

(** PUT /api/portfolio/:userId/update-earnings: the reply carries
    [totalNewEarnings] and the number of rows updated; whatever is raised
    between BEGIN and COMMIT is answered 500 after ROLLBACK. *)
Definition UpdateEarnings (userId : uuid) (s : db) : response (Q * nat) * db :=
  let allocations := List.filter (fun r => (pa_user r =? userId)%N) (pool_allocations s) in
  match accrue_loop allocations 0%Q (pool_allocations s) with
  | Some (totalNewEarnings, t) =>
      let s1 := set_pool_allocations (fun _ => t) s in
      let s2 := set_users (alter (add_total_earnings totalNewEarnings) userId) s1 in
      (OkJson (totalNewEarnings, length allocations), s2)
  | None => (ServerError "Failed to update earnings", s)
  end.

(** The amount a user has in pools. *)
Fixpoint allocated (userId : uuid) (t : list pool_row) : Z :=
  match t with
  | [] => 0
  | r :: t' => (if (pa_user r =? userId)%N then amount_allocated r else 0)
               + allocated userId t'
  end.

(** The sum of the amounts of a request's entries. *)
Definition requested (allocations : list alloc_entry) : Z :=
  fold_right (fun alloc acc => amount alloc + acc) 0 allocations.



(** The store after one round of the allocation loop that inserts. *)
Definition upserted (userId : uuid) (s : db) (alloc : alloc_entry) : db :=
  mk_db (users s) (savings_goals s) (deposits s) (transactions s) (streaks s)
        (daily_growth s) (payment_methods s)
        (pool_allocations s ++ [proposed_row (uuid_seq s) userId alloc])
        (allocation_history s) (N.succ (uuid_seq s)).

(** [createdAllocations] after a loop of insertions. *)
Fixpoint returned_rows (userId : uuid) (allocations : list alloc_entry) (s : db)
  : list pool_row :=
  match allocations with
  | [] => []
  | alloc :: rest =>
      proposed_row (uuid_seq s) userId alloc
      :: returned_rows userId rest (upserted userId s alloc)
  end.

(** The store a committed allocation leaves. *)
Definition allocate_done (userId : uuid) (req : allocate_request) (s : db) : db :=
  let s1 := fold_left (upserted userId) (a_allocations req) s in
  mk_db (users s1) (savings_goals s1) (deposits s1) (transactions s1) (streaks s1)
        (daily_growth s1) (payment_methods s1) (pool_allocations s1)
        (allocation_history s1
         ++ [mk_history (uuid_seq s1) userId (a_depositId req) (a_depositAmount req)
                        (a_allocations req) (a_userMode req)])
        (N.succ (uuid_seq s1)).

(** No entry asks for a key that the table, or an earlier entry of the
    same request, already holds. *)
Fixpoint keys_fresh (userId : uuid) (allocations : list alloc_entry)
    (taken : list (uuid * string * string)) : bool :=
  match allocations with
  | [] => true
  | alloc :: rest =>
      negb (bool_decide (entry_key userId alloc ∈ taken))
      && keys_fresh userId rest (taken ++ [entry_key userId alloc])
  end.

(** What the handler's checks, the CHECK on pool_type, the references of
    the two tables and the trigger of pool_allocations ask of a request. *)
Definition accepted (userId : uuid) (req : allocate_request) (s : db) : bool :=
  negb (length (a_allocations req) =? 0)%nat
  && bool_decide (a_userMode req ∈ USER_MODES)
  && bool_decide (is_Some (users s !! userId))
  && forallb (fun alloc => bool_decide (poolType alloc ∈ POOL_TYPES)) (a_allocations req)
  && keys_fresh userId (a_allocations req) (map key (pool_allocations s))
  && match a_depositId req with
     | Some d => existsb (fun r => (dep_id r =? d)%N) (deposits s)
     | None => true
     end.

(** What the columns written can hold: amounts below 10^12 and APYs below
    10^4 in absolute value. *)
Definition entry_fits (alloc : alloc_entry) : bool :=
  (Z.abs (amount alloc) <? 10 ^ 18) && (Z.abs (apy alloc) <? 10 ^ 10).

Definition request_fits (req : allocate_request) : bool :=
  forallb entry_fits (a_allocations req) && (Z.abs (a_depositAmount req) <? 10 ^ 18).




End Yield.

(** ** Calls of the APY service, one after the other *)

Module ApyCalls.
Import ApyService.

(** One call of getProtocolAPY: the id asked for, [Date.now()] at the cache
    check and when the result is cached, and what a fetch would obtain. *)
Record call := mk_call {
  asked : string;
  checked_at : Z;
  call_stored_at : Z;
  outside : world }.

Definition answer (apyCache : gmap string cache_entry) (c : call) : served :=
  getProtocolAPY (asked c) (checked_at c) (call_stored_at c) (outside c) apyCache.

(** A run of calls, each finished before the next starts: the answers and
    the cache left. *)
Fixpoint answers (cs : list call) (apyCache : gmap string cache_entry)
  : list served * gmap string cache_entry :=
  match cs with
  | [] => ([], apyCache)
  | c :: cs' =>
      let r := answer apyCache c in
      let '(rs, apyCache') := answers cs' (cache_after r) in
      (r :: rs, apyCache')
  end.

(** The two protocols whose figure comes from the Beefy API. *)
Definition beefy_vault (protocolId : string) : option string :=
  if String.eqb protocolId "beefy-stable" then Some "base-usdc-stable"
  else if String.eqb protocolId "beefy-volatile" then Some "base-multi-volatile"
  else None.

(** [Object.keys(PROTOCOL_ADDRESSES)]. *)
Definition PROTOCOL_IDS : list string :=
  ["aave-v3-usdc"; "compound-v3-usdc"; "moonwell-usdc"; "seamless-usdc";
   "beefy-stable"; "beefy-volatile"; "yearn-usdc"; "aerodrome-usdc"; "uniswap-v3";
   "moonwell-multi"; "seamless-multi"].

(** An entry of the list of protocols; [address] and [lastUpdated] are
    left out. *)
Record protocol_info := mk_protocol_info {
  info_protocolId : string;
  info_currentAPY : Q }.

(** [apyData[id] || 0]. *)
Definition or_zero (v : Q) : Q := if Qeq_bool v 0 then 0%Q else v.

(** The calls [protocolIds.map(async (id) => ... getProtocolAPY(id))]
    makes; [inputs id] is what the call for [id] meets: the two clock
    readings and the outside world. *)
Definition calls_of (inputs : string -> Z * Z * world) (ids : list string) : list call :=
  map (fun id => mk_call id (fst (fst (inputs id))) (snd (fst (inputs id)))
                         (snd (inputs id))) ids.

(** [getAllProtocolsWithAPY()], through [getBatchAPY(protocolIds)].  The
    calls of the batch are started together and finish in any order; the
    ids being distinct, each call reads and writes its own entry of the
    cache, and the outcome is that of the calls made one after the other. *)
Definition getAllProtocolsWithAPY (inputs : string -> Z * Z * world)
    (apyCache : gmap string cache_entry)
  : list protocol_info * gmap string cache_entry * list fetcher_call :=
  let calls := calls_of inputs PROTOCOL_IDS in
  let '(rs, apyCache') := answers calls apyCache in
  (map (fun cr => mk_protocol_info (asked (fst cr)) (or_zero (returned (snd cr))))
       (combine calls rs),
   apyCache',
   concat (map fetcher_calls rs)).

End ApyCalls.

(** ** The goal routes (router of /api/goals) *)

(** The routes run their statements one by one, each committed on its own:
    there is no BEGIN.  The columns frequency, start_date and end_date are
    checked as the handlers and the table check them, and not kept; a date
    given is taken to be one PostgreSQL accepts. *)

Module Goals.
Import Deposits.

(** The body of POST /api/goals/:userId; [None] is a field left out. *)
Record goal_request := mk_goal_request {
  g_title : option string;
  g_targetAmount : option Z;
  g_frequency : option string;
  g_startDate : option Z;
  g_endDate : option Z;
  g_isMainGoal : option bool }.

(** The body of PUT /api/goals/:goalId; [None] is [undefined]. *)
Record goal_update := mk_goal_update {
  u_title : option string;
  u_targetAmount : option Z;
  u_currentAmount : option Z;
  u_frequency : option string;
  u_endDate : option Z;
  u_isMainGoal : option bool;
  u_isCompleted : option bool }.

(** CHECK (frequency IN ('weekly', 'monthly')). *)
Definition FREQUENCIES : list string := ["weekly"; "monthly"].

(** A word between double quotes. *)
Definition quoted (v : string) : string :=
  String (Ascii.ascii_of_nat 34) v +:+ String (Ascii.ascii_of_nat 34) EmptyString.

Definition frequency_error : string :=
  "Frequency must be " +:+ quoted "weekly" +:+ " or " +:+ quoted "monthly".

Definition unset_main (g : goal_row) : goal_row :=
  mk_goal (goal_user g) (title g) (target_amount g) (current_amount g) false
          (is_completed g).

(** UPDATE savings_goals SET is_main_goal = false WHERE user_id = $1. *)
Definition unset_main_of (userId : uuid) (g : goal_row) : goal_row :=
  if (goal_user g =? userId)%N then unset_main g else g.

(** UPDATE savings_goals SET is_main_goal = false WHERE user_id = $1 AND id != $2. *)
Definition unset_other_main (userId goalId id : uuid) (g : goal_row) : option goal_row :=
  Some (if (goal_user g =? userId)%N && negb (id =? goalId)%N then unset_main g else g).

(** POST /api/goals/:userId.  The INSERT fails when user_id is no user. *)
Definition CreateGoal (userId : uuid) (req : goal_request) (s : db)
  : response (uuid * goal_row) * db :=
  match g_title req, g_targetAmount req, g_frequency req, g_startDate req, g_endDate req with
  | Some title, Some targetAmount, Some frequency, Some _, Some _ =>
      if String.eqb title "" || (targetAmount =? 0) || String.eqb frequency ""
      then (BadRequest "Missing required fields", s)
      else if negb (bool_decide (frequency ∈ FREQUENCIES))
      then (BadRequest frequency_error, s)
      else
        let isMainGoal := default false (g_isMainGoal req) in
        let s1 := if isMainGoal
                  then set_savings_goals (fmap (unset_main_of userId)) s else s in
        if bool_decide (is_Some (users s1 !! userId))
        then
          let row := mk_goal userId title targetAmount 0 isMainGoal false in
          (Created (uuid_seq s1, row),
           mk_db (users s1) (<[uuid_seq s1 := row]> (savings_goals s1)) (deposits s1)
                 (transactions s1) (streaks s1) (daily_growth s1) (payment_methods s1)
                 (pool_allocations s1) (allocation_history s1) (N.succ (uuid_seq s1)))
        else (ServerError "Failed to create goal", s1)
  | _, _, _, _, _ => (BadRequest "Missing required fields", s)
  end.

Definition no_fields (req : goal_update) : bool :=
  match u_title req, u_targetAmount req, u_currentAmount req, u_frequency req,
        u_endDate req, u_isMainGoal req, u_isCompleted req with
  | None, None, None, None, None, None, None => true
  | _, _, _, _, _, _, _ => false
  end.

(** The row the UPDATE built from the fields given writes. *)
Definition updated_goal (req : goal_update) (g : goal_row) : goal_row :=
  mk_goal (goal_user g)
          (default (title g) (u_title req))
          (default (target_amount g) (u_targetAmount req))
          (default (current_amount g) (u_currentAmount req))
          (default (is_main_goal g) (u_isMainGoal req))
          (default (is_completed g) (u_isCompleted req)).

(** PUT /api/goals/:goalId.  The other main goals are unset first, in a
    statement of its own; the UPDATE that follows fails when the frequency
    given violates the CHECK. *)
Definition UpdateGoal (goalId : uuid) (req : goal_update) (s : db)
  : response goal_row * db :=
  let s1 :=
    match u_isMainGoal req, savings_goals s !! goalId with
    | Some true, Some g =>
        set_savings_goals (map_imap (unset_other_main (goal_user g) goalId)) s
    | _, _ => s
    end in
  if no_fields req then (BadRequest "No fields to update", s1)
  else
    match savings_goals s1 !! goalId with
    | None => (NotFound "Goal not found", s1)
    | Some g =>
        if match u_frequency req with
           | Some frequency => bool_decide (frequency ∈ FREQUENCIES)
           | None => true
           end
        then (OkJson (updated_goal req g),
              set_savings_goals (<[goalId := updated_goal req g]>) s1)
        else (ServerError "Failed to update goal", s1)
    end.

(** deposits.goal_id REFERENCES savings_goals(id) ON DELETE SET NULL. *)
Definition clear_goal (goalId : uuid) (d : deposit_row) : deposit_row :=
  if bool_decide (dep_goal d = Some goalId)
  then mk_deposit (dep_id d) (dep_user d) None (dep_amount d) (dep_date d)
                  (dep_payment_method d) (dep_hash d) (dep_status d)
  else d.

(** DELETE /api/goals/:goalId. *)
Definition DeleteGoal (goalId : uuid) (s : db) : response unit * db :=
  match savings_goals s !! goalId with
  | None => (NotFound "Goal not found", s)
  | Some _ =>
      (OkJson tt,
       set_deposits (map (clear_goal goalId)) (set_savings_goals (delete goalId) s))
  end.

(** The requests that write savings_goals. *)
Inductive goal_event :=
| GoalCreated (userId : uuid) (req : goal_request)
| GoalUpdated (goalId : uuid) (req : goal_update)
| GoalDeleted (goalId : uuid)
| GoalFunded (userId : uuid) (req : deposit_request) (now : Z).

Definition goal_handle {zone : Zone} (s : db) (e : goal_event) : db :=
  match e with
  | GoalCreated userId req => snd (CreateGoal userId req s)
  | GoalUpdated goalId req => snd (UpdateGoal goalId req s)
  | GoalDeleted goalId => snd (DeleteGoal goalId s)
  | GoalFunded userId req now => snd (RecordDeposit userId req now s)
  end.

Definition goal_handle_all {zone : Zone} (es : list goal_event) (s : db) : db :=
  fold_left goal_handle es s.

(** No user has two main goals. *)
Definition one_main_goal (s : db) : Prop :=
  forall i j gi gj,
    savings_goals s !! i = Some gi -> savings_goals s !! j = Some gj ->
    goal_user gi = goal_user gj ->
    is_main_goal gi = true -> is_main_goal gj = true -> i = j.

(** Every goal id came from the generator. *)
Definition goal_ids_drawn (s : db) : Prop :=
  forall i, is_Some (savings_goals s !! i) -> (i < uuid_seq s)%N.

End Goals.

(** ** The wallet route (router of /api/auth) *)

Module Auth.
Import Deposits.

Section ConnectWallet.

(** [String.prototype.toLowerCase]. *)
Variable toLowerCase : string -> string.

(** SELECT * FROM users WHERE wallet_address = $1; wallet_address is UNIQUE. *)
Definition find_wallet (address : string) (t : gmap N user_row) : option (uuid * user_row) :=
  List.find (fun r => String.eqb (wallet_address (snd r)) address) (map_to_list t).

(** POST /api/auth/connect-wallet: the user's id and row.  The two INSERTs
    of a new account are statements of their own. *)
Definition ConnectWallet (walletAddress : option string) (s : db)
  : response (uuid * user_row) * db :=
  match walletAddress with
  | None => (BadRequest "Wallet address is required", s)
  | Some walletAddress =>
      if String.eqb walletAddress "" then (BadRequest "Wallet address is required", s)
      else
        let normalizedAddress := toLowerCase walletAddress in
        match find_wallet normalizedAddress (users s) with
        | Some user => (OkJson user, s)
        | None =>
            let id := uuid_seq s in
            let user := mk_user normalizedAddress "lite" 0 0 in
            (OkJson (id, user),
             mk_db (<[id := user]> (users s)) (savings_goals s) (deposits s)
                   (transactions s) (<[id := new_streak]> (streaks s)) (daily_growth s)
                   (payment_methods s) (pool_allocations s) (allocation_history s)
                   (N.succ (N.succ (uuid_seq s))))
        end
  end.

End ConnectWallet.

(** Lower case of the letters A to Z, for addresses written in ASCII. *)
Definition ascii_lower (c : Ascii.ascii) : Ascii.ascii :=
  let n := Ascii.nat_of_ascii c in
  if ((65 <=? n) && (n <=? 90))%nat then Ascii.ascii_of_nat (n + 32) else c.

Fixpoint lower (v : string) : string :=
  match v with
  | EmptyString => EmptyString
  | String c v' => String (ascii_lower c) (lower v')
  end.

End Auth.

(** ** The payment-method routes (router of /api/payment-methods) *)

(** Like the goal routes, these run their statements one by one, without
    BEGIN. *)

Module PaymentMethods.
Import Deposits.

Record payment_row := mk_payment {
  pm_user : uuid;
  pm_type : string;
  account_name : option string;
  account_number : option string;
  pm_wallet_address : option string;
  is_default : bool;
  is_active : bool }.

(** The store together with the rows of payment_methods, by id;
    [payment_methods] of the store holds the ids. *)
Record pm_store := mk_pm_store {
  base : db;
  methods : gmap N payment_row }.

(** The body of POST /api/payment-methods/:userId; [None] is a field left
    out. *)
Record method_request := mk_method_request {
  m_type : option string;
  m_accountName : option string;
  m_accountNumber : option string;
  m_walletAddress : option string;
  m_isDefault : option bool }.

(** The body of PUT /api/payment-methods/:paymentMethodId; [None] is
    [undefined]. *)
Record method_update := mk_method_update {
  mu_accountName : option string;
  mu_accountNumber : option string;
  mu_walletAddress : option string;
  mu_isDefault : option bool;
  mu_isActive : option bool }.

(** CHECK (type IN (...)) and the handler's list. *)
Definition METHOD_TYPES : list string := ["gopay"; "dana"; "ovo"; "bank"; "wallet"].

Definition ACCOUNT_TYPES : list string := ["gopay"; "dana"; "ovo"; "bank"].

Definition unset_default (r : payment_row) : payment_row :=
  mk_payment (pm_user r) (pm_type r) (account_name r) (account_number r)
             (pm_wallet_address r) false (is_active r).

(** UPDATE payment_methods SET is_default = false WHERE user_id = $1. *)
Definition unset_default_of (userId : uuid) (r : payment_row) : payment_row :=
  if (pm_user r =? userId)%N then unset_default r else r.

(** UPDATE payment_methods SET is_default = false WHERE user_id = $1 AND id != $2. *)
Definition unset_other_default (userId paymentMethodId id : uuid) (r : payment_row)
  : option payment_row :=
  Some (if (pm_user r =? userId)%N && negb (id =? paymentMethodId)%N
        then unset_default r else r).

Definition set_methods (f : gmap N payment_row -> gmap N payment_row) (st : pm_store)
  : pm_store :=
  mk_pm_store (base st) (f (methods st)).

(** POST /api/payment-methods/:userId.  The INSERT fails when user_id is
    no user. *)
Definition AddPaymentMethod (userId : uuid) (req : method_request) (st : pm_store)
  : response (uuid * payment_row) * pm_store :=
  let type := js_or (m_type req) "" in
  if negb (bool_decide (type ∈ METHOD_TYPES))
  then (BadRequest "Invalid payment method type", st)
  else if String.eqb type "wallet" && String.eqb (js_or (m_walletAddress req) "") ""
  then (BadRequest "Wallet address is required for wallet type", st)
  else if bool_decide (type ∈ ACCOUNT_TYPES)
          && String.eqb (js_or (m_accountNumber req) "") ""
  then (BadRequest "Account number is required", st)
  else
    let isDefault := default false (m_isDefault req) in
    let st1 := if isDefault then set_methods (fmap (unset_default_of userId)) st else st in
    if bool_decide (is_Some (users (base st1) !! userId))
    then
      let s := base st1 in
      let id := uuid_seq s in
      let row := mk_payment userId type (or_null (m_accountName req))
                            (or_null (m_accountNumber req))
                            (or_null (m_walletAddress req)) isDefault true in
      (Created (id, row),
       mk_pm_store
         (mk_db (users s) (savings_goals s) (deposits s) (transactions s) (streaks s)
                (daily_growth s) ({[id]} ∪ payment_methods s) (pool_allocations s)
                (allocation_history s) (N.succ (uuid_seq s)))
         (<[id := row]> (methods st1)))
    else (ServerError "Failed to create payment method", st1).

Definition no_method_fields (req : method_update) : bool :=
  match mu_accountName req, mu_accountNumber req, mu_walletAddress req,
        mu_isDefault req, mu_isActive req with
  | None, None, None, None, None => true
  | _, _, _, _, _ => false
  end.

(** The row the UPDATE built from the fields given writes. *)
Definition updated_method (req : method_update) (r : payment_row) : payment_row :=
  mk_payment (pm_user r) (pm_type r)
             (match mu_accountName req with Some v => Some v | None => account_name r end)
             (match mu_accountNumber req with Some v => Some v | None => account_number r end)
             (match mu_walletAddress req with
              | Some v => Some v
              | None => pm_wallet_address r
              end)
             (default (is_default r) (mu_isDefault req))
             (default (is_active r) (mu_isActive req)).

(** PUT /api/payment-methods/:paymentMethodId. *)
Definition UpdatePaymentMethod (paymentMethodId : uuid) (req : method_update)
    (st : pm_store) : response payment_row * pm_store :=
  let st1 :=
    match mu_isDefault req, methods st !! paymentMethodId with
    | Some true, Some r =>
        set_methods (map_imap (unset_other_default (pm_user r) paymentMethodId)) st
    | _, _ => st
    end in
  if no_method_fields req then (BadRequest "No fields to update", st1)
  else
    match methods st1 !! paymentMethodId with
    | None => (NotFound "Payment method not found", st1)
    | Some r =>
        (OkJson (updated_method req r),
         set_methods (<[paymentMethodId := updated_method req r]>) st1)
    end.

(** deposits.payment_method_id REFERENCES payment_methods(id) ON DELETE SET NULL. *)
Definition clear_method (paymentMethodId : uuid) (d : deposit_row) : deposit_row :=
  if bool_decide (dep_payment_method d = Some paymentMethodId)
  then mk_deposit (dep_id d) (dep_user d) (dep_goal d) (dep_amount d) (dep_date d)
                  None (dep_hash d) (dep_status d)
  else d.

Definition deactivate (r : payment_row) : payment_row :=
  mk_payment (pm_user r) (pm_type r) (account_name r) (account_number r)
             (pm_wallet_address r) (is_default r) false.

(** DELETE /api/payment-methods/:paymentMethodId; [hardDelete] is
    [req.query.hardDelete === 'true']. *)
Definition DeletePaymentMethod (paymentMethodId : uuid) (hardDelete : bool)
    (st : pm_store) : response string * pm_store :=
  match methods st !! paymentMethodId with
  | None => (NotFound "Payment method not found", st)
  | Some r =>
      if hardDelete
      then
        let s := base st in
        (OkJson "Payment method permanently deleted",
         mk_pm_store
           (mk_db (users s) (savings_goals s) (map (clear_method paymentMethodId) (deposits s))
                  (transactions s) (streaks s) (daily_growth s)
                  (payment_methods s ∖ {[paymentMethodId]}) (pool_allocations s)
                  (allocation_history s) (uuid_seq s))
           (delete paymentMethodId (methods st)))
      else
        (OkJson "Payment method deactivated",
         set_methods (<[paymentMethodId := deactivate r]>) st)
  end.

(** The requests that write payment_methods, and deposits, which refer to
    them. *)
Inductive method_event :=
| MethodAdded (userId : uuid) (req : method_request)
| MethodUpdated (paymentMethodId : uuid) (req : method_update)
| MethodDeleted (paymentMethodId : uuid) (hardDelete : bool)
| PaidIn (userId : uuid) (req : deposit_request) (now : Z).

Definition method_handle {zone : Zone} (st : pm_store) (e : method_event) : pm_store :=
  match e with
  | MethodAdded userId req => snd (AddPaymentMethod userId req st)
  | MethodUpdated paymentMethodId req => snd (UpdatePaymentMethod paymentMethodId req st)
  | MethodDeleted paymentMethodId hardDelete =>
      snd (DeletePaymentMethod paymentMethodId hardDelete st)
  | PaidIn userId req now =>
      mk_pm_store (snd (RecordDeposit userId req now (base st))) (methods st)
  end.

Definition method_handle_all {zone : Zone} (es : list method_event) (st : pm_store)
  : pm_store :=
  fold_left method_handle es st.

(** No user has two default payment methods; the ids of the rows are the
    ids the store holds, and they came from the generator. *)
Definition one_default (st : pm_store) : Prop :=
  forall i j ri rj,
    methods st !! i = Some ri -> methods st !! j = Some rj ->
    pm_user ri = pm_user rj -> is_default ri = true -> is_default rj = true -> i = j.

Definition methods_linked (st : pm_store) : Prop :=
  (forall i, is_Some (methods st !! i) <-> i ∈ payment_methods (base st))
  /\ (forall i, is_Some (methods st !! i) -> (i < uuid_seq (base st))%N).

End PaymentMethods.

(** ** The list of deposits (GET /api/deposits/:userId) *)

Module DepositViews.
Import Deposits.

(** A row of the reply: the deposit and the [goal_title] of the LEFT JOIN.
    The [payment_method_type] of the other join is left out. *)
Record deposit_view := mk_deposit_view {
  shown : deposit_row;
  goalTitle : option string }.

(** ORDER BY d.deposit_date DESC.  Rows with the same deposit_date come
    in an order the query does not fix; the sort takes one. *)
Definition newer_first (a b : deposit_row) : Prop := dep_date b <= dep_date a.

#[global] Instance newer_first_dec : RelDecision newer_first.
Proof. intros a b. unfold newer_first. apply _. Defined.

(** LEFT JOIN savings_goals g ON d.goal_id = g.id. *)
Definition join_goal (s : db) (d : deposit_row) : deposit_view :=
  mk_deposit_view d (match dep_goal d with
                     | Some g => title <$> savings_goals s !! g
                     | None => None
                     end).

(** WHERE d.user_id = $1 [AND d.goal_id = $2]. *)
Definition selected (userId : uuid) (goalId : option uuid) (d : deposit_row) : bool :=
  (dep_user d =? userId)%N
  && match goalId with
     | Some g => bool_decide (dep_goal d = Some g)
     | None => true
     end.

(** GET /api/deposits/:userId; [limit] and [goalId] are the query's,
    [None] when left out.  A negative LIMIT is an error of the query. *)
Definition GetDeposits (userId : uuid) (goalId : option uuid) (limit : option Z) (s : db)
  : response (list deposit_view) :=
  let limit := default 50 limit in
  if limit <? 0 then ServerError "Failed to get deposits"
  else OkJson (join_goal s
               <$> take (Z.to_nat limit)
                        (merge_sort newer_first
                           (List.filter (selected userId goalId) (deposits s)))).

End DepositViews.

(** * Properties *)

(** ** The transaction monad, run symbolically *)

Create HintDb txdb.
#[global] Hint Unfold tx_bind tx_ret tx_get tx_modify tx_guard tx_raise uuid_generate_v4
  insert_transaction
  set_users set_savings_goals set_deposits set_transactions set_streaks
  set_daily_growth set_pool_allocations set_allocation_history : txdb.

Ltac tx_run :=
  repeat autounfold with txdb;
  cbn [users savings_goals deposits transactions streaks daily_growth
       payment_methods pool_allocations allocation_history uuid_seq fst snd].

(** ** JavaScript numbers *)

Section NumberFacts.
Import Number.
Local Open Scope Q_scope.

Lemma pow2_pos e : 0 < pow2 e.
Proof. apply Qpower_0_lt. reflexivity. Qed.

Lemma pow2_add a b : pow2 (a + b) == pow2 a * pow2 b.
Proof. apply Qpower_plus. discriminate. Qed.

Lemma pow2_le a b : (a <= b)%Z -> pow2 a <= pow2 b.
Proof. intros H. apply Qpower_le_compat_l; [done|discriminate]. Qed.

Lemma pow2_lt a b : (a < b)%Z -> pow2 a < pow2 b.
Proof. intros H. apply Qpower_lt_compat_l; [done|reflexivity]. Qed.

Lemma pow2_lt_inv a b : pow2 a < pow2 b -> (a < b)%Z.
Proof. intros H. eapply Qpower_lt_compat_l_inv; [exact H|reflexivity]. Qed.

Lemma pow2_Z n : (0 <= n)%Z -> pow2 n == inject_Z (2 ^ n).
Proof. intros H. unfold pow2. by rewrite Zpower_Qpower. Qed.

Lemma Qpos_num x : 0 < x <-> (0 < Qnum x)%Z.
Proof. unfold Qlt. cbn. lia. Qed.

Lemma Qdiv_lt_cross n1 d1 n2 d2 :
  (0 < d1)%Z -> (0 < d2)%Z -> (n1 * d2 < n2 * d1)%Z ->
  inject_Z n1 / inject_Z d1 < inject_Z n2 / inject_Z d2.
Proof.
  intros H1 H2 H. destruct d1 as [|p1|p1], d2 as [|p2|p2]; try lia.
  unfold Qlt, Qdiv, Qmult, Qinv, inject_Z. cbn. lia.
Qed.

Lemma Qdiv_le_cross n1 d1 n2 d2 :
  (0 < d1)%Z -> (0 < d2)%Z -> (n1 * d2 <= n2 * d1)%Z ->
  inject_Z n1 / inject_Z d1 <= inject_Z n2 / inject_Z d2.
Proof.
  intros H1 H2 H. destruct d1 as [|p1|p1], d2 as [|p2|p2]; try lia.
  unfold Qle, Qdiv, Qmult, Qinv, inject_Z. cbn. lia.
Qed.

(** floor (log2 x) *)
Lemma ilog2_spec x : 0 < x -> pow2 (ilog2 x) <= x /\ x < pow2 (ilog2 x + 1).
Proof.
  intros Hx. apply Qpos_num in Hx. destruct x as [n d]. cbn [Qnum] in Hx.
  unfold ilog2. cbn [Qnum Qden].
  set (a := Z.log2 n). set (b := Z.log2 (Z.pos d)).
  assert (Ha : (0 <= a)%Z) by apply Z.log2_nonneg.
  assert (Hb : (0 <= b)%Z) by apply Z.log2_nonneg.
  destruct (Z.log2_spec n Hx) as [Hn1 Hn2]. fold a in Hn1, Hn2.
  destruct (Z.log2_spec (Z.pos d) ltac:(lia)) as [Hd1 Hd2]. fold b in Hd1, Hd2.
  assert (Hnd : n # d == inject_Z n / inject_Z (Z.pos d)) by (by rewrite Qmake_Qdiv).
  assert (Hdpos : 0 < inject_Z (Z.pos d)) by (unfold Qlt; cbn; lia).
  assert (Hp : forall k, (0 <= k)%Z -> (0 < 2 ^ k)%Z) by (intros; by apply Z.pow_pos_nonneg).
  pose proof (Hp a Ha). pose proof (Hp b Hb).
  rewrite Z.pow_succ_r in Hn2, Hd2 by done.
  assert (Hupper : n # d < pow2 (a - b + 1)).
  { replace (a - b + 1)%Z with ((a + 1) + (- b))%Z by lia.
    rewrite pow2_add. unfold pow2 at 2. rewrite Qpower_opp. fold (pow2 b).
    rewrite Hnd. rewrite !pow2_Z by lia.
    apply Qdiv_lt_cross; [lia..|]. rewrite Z.pow_add_r, Z.pow_1_r by lia. nia. }
  assert (Hlower : pow2 (a - b - 1) <= n # d).
  { replace (a - b - 1)%Z with (a + (- (b + 1)))%Z by lia.
    rewrite pow2_add. unfold pow2 at 2. rewrite Qpower_opp. fold (pow2 (b + 1)).
    rewrite Hnd. rewrite !pow2_Z by lia.
    apply Qdiv_le_cross; [lia..|]. rewrite Z.pow_add_r, Z.pow_1_r by lia. nia. }
  destruct (Qle_bool (pow2 (a - b)) (n # d)) eqn:Hle.
  - apply Qle_bool_iff in Hle. by split.
  - replace (a - b - 1 + 1)%Z with (a - b)%Z by lia. split; [done|].
    apply Qnot_le_lt. intros Hgt. apply Qle_bool_iff in Hgt. congruence.
Qed.

Lemma ilog2_unique x k : pow2 k <= x -> x < pow2 (k + 1) -> ilog2 x = k.
Proof.
  intros H1 H2.
  assert (Hx : 0 < x) by (eapply Qlt_le_trans; [apply pow2_pos|exact H1]).
  destruct (ilog2_spec x Hx) as [H3 H4].
  assert (ilog2 x < k + 1)%Z by (apply pow2_lt_inv; eapply Qle_lt_trans; eauto).
  assert (k < ilog2 x + 1)%Z by (apply pow2_lt_inv; eapply Qle_lt_trans; eauto).
  lia.
Qed.

Lemma ilog2_mono x y : 0 < x -> x <= y -> (ilog2 x <= ilog2 y)%Z.
Proof.
  intros Hx Hxy.
  assert (Hy : 0 < y) by (eapply Qlt_le_trans; eauto).
  destruct (ilog2_spec x Hx) as [H1 _]. destruct (ilog2_spec y Hy) as [_ H2].
  assert (ilog2 x < ilog2 y + 1)%Z; [|lia].
  apply pow2_lt_inv. eapply Qle_lt_trans; [exact H1|]. eapply Qle_lt_trans; eauto.
Qed.

Lemma ulp_exponent_mono x y : 0 < x -> x <= y -> (ulp_exponent x <= ulp_exponent y)%Z.
Proof. intros Hx Hxy. pose proof (ilog2_mono x y Hx Hxy). unfold ulp_exponent. lia. Qed.

(** Rounding to the nearest integer *)
Lemma round_half_even_cases q :
  let f := Qfloor q in
  (round_half_even q = f /\ q - inject_Z f <= 1 # 2)
  \/ (round_half_even q = (f + 1)%Z /\ 1 # 2 <= q - inject_Z f).
Proof.
  intros f. unfold round_half_even. fold f.
  destruct (Qcompare_spec (q - inject_Z f) (1 # 2)) as [He|Hl|Hg].
  - destruct (Z.even f); [left|right]; split; try done; rewrite He; apply Qle_refl.
  - left. split; [done|]. by apply Qlt_le_weak.
  - right. split; [done|]. by apply Qlt_le_weak.
Qed.

Lemma round_half_even_error q : Qabs (inject_Z (round_half_even q) - q) <= 1 # 2.
Proof.
  pose proof (Qfloor_le q) as H1. pose proof (Qlt_floor q) as H2.
  rewrite inject_Z_plus in H2. change (inject_Z 1) with 1 in H2.
  destruct (round_half_even_cases q) as [[-> H]|[-> H]]; cbv zeta in H;
    apply Qabs_case; intros _; rewrite ?inject_Z_plus; change (inject_Z 1) with 1; lra.
Qed.

Lemma round_half_even_Z n : round_half_even (inject_Z n) = n.
Proof.
  unfold round_half_even. rewrite Qfloor_Z.
  destruct (Qcompare_spec (inject_Z n - inject_Z n) (1 # 2)) as [He|Hl|Hg]; [exfalso; lra|done|exfalso; lra].
Qed.

Lemma round_half_even_mono q q' : q <= q' -> (round_half_even q <= round_half_even q')%Z.
Proof.
  intros Hle. pose proof (Qfloor_resp_le _ _ Hle) as Hf.
  destruct (Z.eq_dec (Qfloor q) (Qfloor q')) as [Heq|Hne].
  - unfold round_half_even. rewrite <- Heq.
    destruct (Qcompare_spec (q - inject_Z (Qfloor q)) (1 # 2)) as [He|Hl|Hg];
      destruct (Qcompare_spec (q' - inject_Z (Qfloor q)) (1 # 2)) as [He'|Hl'|Hg'];
      try destruct (Z.even (Qfloor q)); try lia; lra.
  - destruct (round_half_even_cases q) as [[-> _]|[-> _]];
      destruct (round_half_even_cases q') as [[-> _]|[-> _]]; lia.
Qed.

Lemma round_half_even_ge q n : inject_Z n <= q -> (n <= round_half_even q)%Z.
Proof.
  intros H. rewrite <- (round_half_even_Z n). by apply round_half_even_mono.
Qed.

Lemma round_half_even_le q n : q <= inject_Z n -> (round_half_even q <= n)%Z.
Proof.
  intros H. rewrite <- (round_half_even_Z n). by apply round_half_even_mono.
Qed.

(** Rounding to a double *)
Lemma nearest_eq x :
  nearest x == inject_Z (round_half_even (x / pow2 (ulp_exponent x))) * pow2 (ulp_exponent x).
Proof. unfold nearest. apply Qred_correct. Qed.

Lemma scaled_bounds x :
  0 < x ->
  x / pow2 (ulp_exponent x) < inject_Z (2 ^ 53)
  /\ (ulp_exponent x = (ilog2 x - 52)%Z -> inject_Z (2 ^ 52) <= x / pow2 (ulp_exponent x)).
Proof.
  intros Hx. destruct (ilog2_spec x Hx) as [H1 H2].
  pose proof (pow2_pos (ulp_exponent x)) as He. split.
  - apply Qlt_shift_div_r; [done|]. rewrite <- pow2_Z by lia. rewrite <- pow2_add.
    eapply Qlt_le_trans; [exact H2|]. apply pow2_le. unfold ulp_exponent. lia.
  - intros Heq. apply Qle_shift_div_l; [done|]. rewrite <- pow2_Z by lia.
    rewrite <- pow2_add. rewrite Heq.
    replace (52 + (ilog2 x - 52))%Z with (ilog2 x) by lia. done.
Qed.

Lemma nearest_mono x y : 0 < x -> x <= y -> nearest x <= nearest y.
Proof.
  intros Hx Hxy. assert (Hy : 0 < y) by (eapply Qlt_le_trans; eauto).
  rewrite !nearest_eq.
  pose proof (ulp_exponent_mono x y Hx Hxy) as He.
  pose proof (pow2_pos (ulp_exponent x)) as Hpx.
  pose proof (pow2_pos (ulp_exponent y)) as Hpy.
  destruct (Z.eq_dec (ulp_exponent x) (ulp_exponent y)) as [Heq|Hne].
  - rewrite Heq. apply Qmult_le_compat_r; [|by apply Qlt_le_weak].
    rewrite <- Zle_Qle. apply round_half_even_mono.
    apply Qmult_le_compat_r; [done|]. apply Qlt_le_weak. by apply Qinv_lt_0_compat.
  - destruct (scaled_bounds x Hx) as [Hux _].
    destruct (scaled_bounds y Hy) as [_ Hly].
    assert (Hey : ulp_exponent y = (ilog2 y - 52)%Z) by (unfold ulp_exponent in *; lia).
    specialize (Hly Hey).
    apply Qlt_le_weak, (round_half_even_le _ (2 ^ 53)) in Hux.
    apply round_half_even_ge in Hly.
    rewrite Zle_Qle in Hux, Hly.
    apply Qle_trans with (inject_Z (2 ^ 53) * pow2 (ulp_exponent x)).
    { apply Qmult_le_compat_r; [done|by apply Qlt_le_weak]. }
    apply Qle_trans with (inject_Z (2 ^ 52) * pow2 (ulp_exponent y)).
    2:{ apply Qmult_le_compat_r; [done|by apply Qlt_le_weak]. }
    rewrite <- !pow2_Z by lia. rewrite <- !pow2_add. apply pow2_le. lia.
Qed.

Lemma nearest_nonneg x : 0 < x -> 0 <= nearest x.
Proof.
  intros Hx. rewrite nearest_eq. apply Qmult_le_0_compat; [|apply Qlt_le_weak, pow2_pos].
  change 0 with (inject_Z 0). rewrite <- Zle_Qle. apply round_half_even_ge.
  apply Qlt_le_weak. apply Qlt_shift_div_l; [apply pow2_pos|].
  change (inject_Z 0) with 0. lra.
Qed.

Lemma fl_pos x : 0 < x -> fl x = nearest x.
Proof. intros Hx. apply Qpos_num in Hx. unfold fl. by destruct (Qnum x). Qed.

Lemma fl_neg x : x < 0 -> fl x == - nearest (- x).
Proof.
  intros Hx. unfold fl. assert (Qnum x < 0)%Z by (unfold Qlt in Hx; cbn in Hx; lia).
  destruct (Qnum x); try lia. apply Qred_correct.
Qed.

Lemma fl_zero x : x == 0 -> fl x = 0.
Proof.
  intros Hx. unfold fl. assert (Qnum x = 0)%Z by (unfold Qeq in Hx; cbn in Hx; lia).
  by rewrite H.
Qed.

Lemma fl_sign x : (0 <= x -> 0 <= fl x) /\ (x <= 0 -> fl x <= 0).
Proof.
  destruct (Q_dec x 0) as [[Hneg|Hpos]|Hz].
  - split; [lra|]. intros _. rewrite fl_neg by done.
    pose proof (nearest_nonneg (- x)). lra.
  - split; [|lra]. intros _. rewrite fl_pos by done. by apply nearest_nonneg.
  - rewrite (fl_zero x Hz). split; intros _; apply Qle_refl.
Qed.

(** Rounding to a double keeps the order. *)
Lemma fl_mono x y : x <= y -> fl x <= fl y.
Proof.
  intros Hxy.
  destruct (Qlt_le_dec 0 x) as [Hx|Hx].
  - assert (Hy : 0 < y) by lra. rewrite !fl_pos by done. by apply nearest_mono.
  - destruct (Qlt_le_dec y 0) as [Hy|Hy].
    + assert (Hx' : x < 0) by lra. rewrite !fl_neg by done.
      apply Qopp_le_compat. apply nearest_mono; lra.
    + apply Qle_trans with 0; [by apply fl_sign|by apply fl_sign].
Qed.

Lemma nearest_error x : 0 < x -> Qabs (nearest x - x) <= pow2 (ulp_exponent x - 1).
Proof.
  intros Hx. rewrite nearest_eq.
  pose proof (pow2_pos (ulp_exponent x)) as He.
  pose proof (round_half_even_error (x / pow2 (ulp_exponent x))) as Herr.
  set (m := inject_Z (round_half_even (x / pow2 (ulp_exponent x)))) in *.
  assert (Heq : m * pow2 (ulp_exponent x) - x
                == (m - x / pow2 (ulp_exponent x)) * pow2 (ulp_exponent x)).
  { field. lra. }
  rewrite Heq, Qabs_Qmult, (Qabs_pos (pow2 _)) by lra.
  replace (ulp_exponent x - 1)%Z with (-1 + ulp_exponent x)%Z by lia.
  rewrite pow2_add. apply Qmult_le_compat_r; [|lra]. done.
Qed.

(** Below 2^33 a double is within 2^-21 of the number it stands for. *)
Lemma fl_error x : 0 <= x -> x < pow2 33 -> Qabs (fl x - x) <= pow2 (-21).
Proof.
  intros H0 H33. destruct (Qle_lt_or_eq _ _ H0) as [Hx|Hx].
  - rewrite fl_pos by done. eapply Qle_trans; [by apply nearest_error|].
    apply pow2_le. destruct (ilog2_spec x Hx) as [H1 _].
    assert (ilog2 x < 33)%Z by (apply pow2_lt_inv; lra).
    unfold ulp_exponent. lia.
  - rewrite fl_zero by done. rewrite <- Hx. by vm_compute.
Qed.



Lemma ltb_lt x y : ltb x y = true <-> x < y.
Proof.
  unfold ltb. rewrite negb_true_iff. split.
  - intros Hle. apply Qnot_le_lt. intros H. apply Qle_bool_iff in H. congruence.
  - intros Hlt. destruct (Qle_bool y x) eqn:Hle; [|done].
    apply Qle_bool_iff in Hle. lra.
Qed.

Lemma ltb_ge x y : ltb x y = false <-> y <= x.
Proof.
  unfold ltb. rewrite negb_false_iff. apply Qle_bool_iff.
Qed.

Lemma ltb_irrefl x : ltb x x = false.
Proof. apply ltb_ge. apply Qle_refl. Qed.

Lemma geb_le x y : geb x y = true <-> y <= x.
Proof. apply Qle_bool_iff. Qed.

Lemma to_Q_le a b : (a <= b)%Z -> to_Q a <= to_Q b.
Proof. intros H. unfold to_Q, Qle. cbn. lia. Qed.

Lemma to_Q_succ a b : (a < b)%Z -> to_Q a + (1 # 1000000) <= to_Q b.
Proof. intros H. unfold to_Q, Qle, Qplus. cbn. lia. Qed.

Lemma fl_pow2_33 : fl (pow2 33) == pow2 33.
Proof. by vm_compute. Qed.

(** Below 8 * 10^9 the doubles of two amounts stand in the order of the
    amounts: there a double is less than half a millionth away. *)
Lemma parseFloat_lt b a :
  (0 <= b < 8000000000000000)%Z -> (b < a)%Z -> parseFloat b < received a.
Proof.
  intros [Hb0 Hb] Hlt. unfold parseFloat, received.
  assert (Hqb0 : 0 <= to_Q b) by (unfold to_Q, Qle; cbn; lia).
  assert (Hqb : to_Q b <= 8000000000) by (unfold to_Q, Qle; cbn; lia).
  assert (H33 : pow2 33 == 8589934592) by (by vm_compute).
  assert (H21 : pow2 (-21) == 1 # 2097152) by (by vm_compute).
  pose proof (fl_error (to_Q b) Hqb0 ltac:(lra)) as Heb.
  apply Qabs_Qle_condition in Heb as [_ Heb].
  destruct (Qlt_le_dec (to_Q a) (pow2 33)) as [Ha|Ha].
  - assert (Hqa0 : 0 <= to_Q a) by (unfold to_Q, Qle; cbn; lia).
    pose proof (fl_error (to_Q a) Hqa0 Ha) as Hea.
    apply Qabs_Qle_condition in Hea as [Hea _].
    pose proof (to_Q_succ _ _ Hlt). lra.
  - pose proof (fl_mono _ _ Ha) as Hm. rewrite fl_pow2_33 in Hm. lra.
Qed.

(** So a withdrawal that passes the check is covered, for such balances. *)
Lemma parseFloat_ge b a :
  (0 <= b < 8000000000000000)%Z -> ltb (parseFloat b) (received a) = false -> (a <= b)%Z.
Proof.
  intros Hb Hge. apply ltb_ge in Hge.
  destruct (Z.le_gt_cases a b) as [|Hlt]; [done|].
  pose proof (parseFloat_lt b a Hb ltac:(lia)). lra.
Qed.

Lemma parseFloat_mono a b : (a <= b)%Z -> parseFloat a <= parseFloat b.
Proof. intros H. apply fl_mono. by apply to_Q_le. Qed.

(** An amount within the balance passes the check. *)
Lemma received_le a b : (a <= b)%Z -> received a <= parseFloat b.
Proof. intros H. apply fl_mono. by apply to_Q_le. Qed.

Lemma parseFloat_le b a : (b <= a)%Z -> parseFloat b <= received a.
Proof. intros H. apply fl_mono. by apply to_Q_le. Qed.

End NumberFacts.

(** ** Deposits *)

Section DepositFacts.
Import Deposits.
Context {zone : Zone}.

Lemma update_goal_run goalId a s :
  update_goal goalId a s = Some (tt, set_savings_goals (goals_after goalId a) s).
Proof.
  destruct goalId as [g|]; [|by destruct s].
  unfold update_goal, goals_after. tx_run.
  destruct (alter (add_current_amount a) g (savings_goals s) !! g) as [row|]; [|done].
  destruct (reached row); done.
Qed.

Lemma update_streak_run userId today s :
  update_streak userId today s = Some (tt, set_streaks (streaks_after userId today) s).
Proof.
  unfold update_streak, streaks_after. tx_run.
  destruct (streaks s !! userId) as [streak|]; [|by destruct s].
  destruct (streak_step today streak); [done|by destruct s].
Qed.

Lemma deposit_tx_ok userId req now s :
  deposit_refs_ok userId req s = true ->
  deposit_tx userId req now s
  = Some (deposit_row_of userId req now s, deposit_post userId req now s).
Proof.
  intros Hok. unfold deposit_tx, insert_deposit. tx_run. rewrite Hok. tx_run.
  rewrite update_goal_run. tx_run.
  rewrite update_streak_run. tx_run. reflexivity.
Qed.

Lemma deposit_tx_raises userId req now s :
  deposit_refs_ok userId req s = false -> deposit_tx userId req now s = None.
Proof.
  intros Hok. unfold deposit_tx, insert_deposit. tx_run. by rewrite Hok.
Qed.

(** The handler on a well-formed request: amount > 0 and every reference of
    the request resolves. *)
Lemma RecordDeposit_ok userId req now s :
  0 < d_amount req -> deposit_refs_ok userId req s = true ->
  RecordDeposit userId req now s
  = (Created (deposit_row_of userId req now s), deposit_post userId req now s).
Proof.
  intros Ha Hok. unfold RecordDeposit.
  destruct (Z.leb_spec (d_amount req) 0); [lia|].
  by rewrite deposit_tx_ok.
Qed.

(** Every other outcome is a rollback: the store is the one the handler found. *)
Lemma RecordDeposit_cases userId req now s :
  RecordDeposit userId req now s
  = (Created (deposit_row_of userId req now s), deposit_post userId req now s)
  \/ snd (RecordDeposit userId req now s) = s.
Proof.
  unfold RecordDeposit.
  destruct (d_amount req <=? 0) eqn:Ha; [by right|].
  destruct (deposit_refs_ok userId req s) eqn:Hok.
  - left. by rewrite deposit_tx_ok.
  - right. by rewrite deposit_tx_raises.
Qed.

Lemma RecordDeposit_created userId req now s d s' :
  RecordDeposit userId req now s = (Created d, s') ->
  0 < d_amount req /\ deposit_refs_ok userId req s = true
  /\ d = deposit_row_of userId req now s /\ s' = deposit_post userId req now s.
Proof.
  unfold RecordDeposit.
  destruct (Z.leb_spec (d_amount req) 0); [discriminate|].
  destruct (deposit_refs_ok userId req s) eqn:Hok.
  - rewrite deposit_tx_ok by done. intros [= <- <-]. done.
  - rewrite deposit_tx_raises by done. discriminate.
Qed.

Lemma refs_ok_user userId req s :
  deposit_refs_ok userId req s = true -> is_Some (users s !! userId).
Proof.
  unfold deposit_refs_ok. intros H.
  apply andb_prop in H as [H _]. apply andb_prop in H as [H _].
  by apply bool_decide_eq_true in H.
Qed.

Lemma refs_ok_intro userId req s :
  is_Some (users s !! userId) ->
  (forall g, d_goalId req = Some g -> is_Some (savings_goals s !! g)) ->
  (forall p, d_paymentMethodId req = Some p -> p ∈ payment_methods s) ->
  deposit_refs_ok userId req s = true.
Proof.
  intros Hu Hg Hp. unfold deposit_refs_ok, fk_ok.
  rewrite bool_decide_eq_true_2 by done. cbn [andb].
  apply andb_true_intro; split.
  - destruct (d_goalId req); [|done]. apply bool_decide_eq_true_2. by apply Hg.
  - destruct (d_paymentMethodId req); [|done]. apply bool_decide_eq_true_2. by apply Hp.
Qed.

(** A deposit neither creates nor deletes users, goals or payment methods. *)
Lemma goals_after_is_Some goalId a t g :
  is_Some (goals_after goalId a t !! g) <-> is_Some (t !! g).
Proof.
  unfold goals_after. destruct goalId as [g0|]; [|done].
  destruct (alter (add_current_amount a) g0 t !! g0) as [row|];
    [|apply lookup_alter_is_Some].
  destruct (reached row); [|apply lookup_alter_is_Some].
  by rewrite !lookup_alter_is_Some.
Qed.

Lemma refs_ok_post userId req userId' req' now s :
  deposit_refs_ok userId req (deposit_post userId' req' now s)
  = deposit_refs_ok userId req s.
Proof.
  unfold deposit_refs_ok, fk_ok, deposit_post.
  cbn [users savings_goals payment_methods].
  rewrite (bool_decide_ext _ _ (lookup_alter_is_Some _ _ _ _)).
  destruct (d_goalId req) as [g|]; [|done].
  by rewrite (bool_decide_ext _ _ (goals_after_is_Some _ _ _ _)).
Qed.

(** *** The stored date as the handlers read it *)

(** At or west of UTC a stored date reads back as itself; east of UTC it
    reads back as the day before. *)
Lemma read_date_west l : utc_offset <= 0 -> read_date l = l.
Proof.
  intros Hw. pose proof utc_offset_range as Hr.
  unfold read_date, local_midnight, iso_day, date_ms. unfold MS_PER_DAY in *.
  symmetry. apply Z.div_unique with (r := - utc_offset); lia.
Qed.

Lemma read_date_east l : 0 < utc_offset -> read_date l = l - 1.
Proof.
  intros He. pose proof utc_offset_range as Hr.
  unfold read_date, local_midnight, iso_day, date_ms. unfold MS_PER_DAY in *.
  symmetry. apply Z.div_unique with (r := 1000 * 60 * 60 * 24 - utc_offset); lia.
Qed.

Lemma read_date_bounds l : l - 1 <= read_date l <= l.
Proof.
  destruct (Z.le_gt_cases utc_offset 0).
  - rewrite read_date_west by done. lia.
  - rewrite read_date_east by lia. lia.
Qed.

(** The server's calendar day against the UTC day of the same instant. *)
Lemma local_day_west now : utc_offset <= 0 -> iso_day now - 1 <= local_day now <= iso_day now.
Proof.
  intros Hw. pose proof utc_offset_range as Hr. unfold local_day, iso_day.
  unfold MS_PER_DAY in *. split.
  - replace (now / (1000 * 60 * 60 * 24) - 1)
      with ((now + (-1) * (1000 * 60 * 60 * 24)) / (1000 * 60 * 60 * 24))
      by (rewrite Z.div_add; lia).
    apply Z.div_le_mono; lia.
  - apply Z.div_le_mono; lia.
Qed.

Lemma local_day_east now : 0 <= utc_offset -> iso_day now <= local_day now <= iso_day now + 1.
Proof.
  intros He. pose proof utc_offset_range as Hr. unfold local_day, iso_day.
  unfold MS_PER_DAY in *. split.
  - apply Z.div_le_mono; lia.
  - replace (now / (1000 * 60 * 60 * 24) + 1)
      with ((now + 1 * (1000 * 60 * 60 * 24)) / (1000 * 60 * 60 * 24))
      by (rewrite Z.div_add; lia).
    apply Z.div_le_mono; lia.
Qed.

(** *** The streak step *)

Lemma daysDiff_spec today l : daysDiff today l = today - l.
Proof.
  unfold daysDiff, date_ms.
  replace (today * MS_PER_DAY - l * MS_PER_DAY) with ((today - l) * MS_PER_DAY) by ring.
  apply Z.div_mul. unfold MS_PER_DAY. lia.
Qed.

Lemma streak_step_first today streak :
  last_deposit_date streak = None ->
  streak_step today streak
  = Some (mk_streak 1 (Z.max 1 (longest_streak streak)) (Some today)
                    (total_deposits streak + 1)).
Proof. unfold streak_step. by intros ->. Qed.

Lemma streak_step_same_day today streak :
  read_date <$> last_deposit_date streak = Some today -> streak_step today streak = None.
Proof. unfold streak_step. intros ->. by rewrite Z.eqb_refl. Qed.

Lemma streak_step_other_day today l streak :
  last_deposit_date streak = Some l -> read_date l <> today ->
  streak_step today streak
  = Some (mk_streak
            (if today - read_date l =? 1 then current_streak streak + 1
             else if 1 <? today - read_date l then 1 else current_streak streak)
            (Z.max (if today - read_date l =? 1 then current_streak streak + 1
                    else if 1 <? today - read_date l then 1 else current_streak streak)
                   (longest_streak streak))
            (Some today) (total_deposits streak + 1)).
Proof.
  unfold streak_step. intros -> Hne. cbn [fmap option_fmap option_map].
  rewrite daysDiff_spec.
  destruct (Z.eqb_spec (read_date l) today); [done|]. reflexivity.
Qed.

(** Whenever the step writes, it stamps today and keeps longest_streak the
    maximum of the old longest_streak and the new current_streak. *)
Lemma streak_step_writes today streak streak' :
  streak_step today streak = Some streak' ->
  last_deposit_date streak' = Some today
  /\ longest_streak streak' = Z.max (longest_streak streak) (current_streak streak')
  /\ total_deposits streak' = total_deposits streak + 1.
Proof.
  unfold streak_step.
  destruct (match read_date <$> last_deposit_date streak with
            | Some l => negb (l =? today) | None => true end); [|discriminate].
  intros [= <-]. cbn. split; [done|]. split; [lia|done].
Qed.

Lemma streak_step_skips today streak :
  streak_step today streak = None ->
  read_date <$> last_deposit_date streak = Some today.
Proof.
  unfold streak_step. destruct (last_deposit_date streak) as [l|]; [|discriminate].
  cbn [fmap option_fmap option_map].
  destruct (Z.eqb_spec (read_date l) today) as [->|]; [done|discriminate].
Qed.

(** The counters stay ordered: 0 <= current_streak <= longest_streak holds of
    the row of a new account and of every row the step writes from such a row. *)
Lemma streak_step_ordered today streak streak' :
  0 <= current_streak streak <= longest_streak streak ->
  streak_step today streak = Some streak' ->
  0 <= current_streak streak' <= longest_streak streak'.
Proof.
  intros Hinv. unfold streak_step.
  destruct (last_deposit_date streak) as [l|]; cbn [fmap option_fmap option_map negb].
  - destruct (read_date l =? today); cbn [negb]; [discriminate|].
    intros [= <-]. cbn.
    destruct (daysDiff today (read_date l) =? 1); [lia|].
    destruct (1 <? daysDiff today (read_date l)); lia.
  - intros [= <-]. cbn. lia.
Qed.

(** After a committed deposit the user's streak row, if there is one, is
    stamped with the day of the deposit, unless it was left alone because
    its date already read as that day. *)
Lemma streaks_after_stamped userId today t streak :
  streaks_after userId today t !! userId = Some streak ->
  last_deposit_date streak = Some today
  \/ (t !! userId = Some streak /\ read_date <$> last_deposit_date streak = Some today).
Proof.
  unfold streaks_after. destruct (t !! userId) as [r|] eqn:Hr.
  - destruct (streak_step today r) as [r'|] eqn:Hs.
    + rewrite lookup_insert_eq. intros [= <-]. left.
      by apply streak_step_writes in Hs as [? _].
    + rewrite Hr. intros [= <-]. right. split; [done|]. by apply streak_step_skips.
  - by rewrite Hr.
Qed.

(** A row stamped today stays stamped today, written again or not. *)
Lemma streaks_after_keeps_stamp userId today t :
  (forall streak, t !! userId = Some streak -> last_deposit_date streak = Some today) ->
  forall streak, streaks_after userId today t !! userId = Some streak ->
                 last_deposit_date streak = Some today.
Proof.
  intros H streak Hs. destruct (streaks_after_stamped _ _ _ _ Hs) as [?|[Ht _]]; [done|].
  by apply H.
Qed.

Lemma streaks_after_same_day userId today t :
  (forall streak, t !! userId = Some streak ->
                  read_date <$> last_deposit_date streak = Some today) ->
  streaks_after userId today t = t.
Proof.
  intros H. unfold streaks_after. destruct (t !! userId) as [r|]; [|done].
  by rewrite streak_step_same_day by auto.
Qed.

Lemma streaks_after_lookup userId today t streak :
  t !! userId = Some streak ->
  streaks_after userId today t !! userId
  = Some (default streak (streak_step today streak)).
Proof.
  intros Hr. unfold streaks_after. rewrite Hr.
  destruct (streak_step today streak); [by rewrite lookup_insert_eq|done].
Qed.

Lemma streaks_after_other userId today t v :
  v <> userId -> streaks_after userId today t !! v = t !! v.
Proof.
  intros Hv. unfold streaks_after. destruct (t !! userId) as [r|]; [|done].
  destruct (streak_step today r); [by rewrite lookup_insert_ne|done].
Qed.

Lemma streaks_after_absent userId today t :
  t !! userId = None -> streaks_after userId today t = t.
Proof. intros Hr. unfold streaks_after. by rewrite Hr. Qed.

(** The step on a date that reads back as yesterday, and on one that reads
    back as an earlier day. *)
Lemma streak_step_next_day today l streak :
  last_deposit_date streak = Some l -> read_date l = today - 1 ->
  streak_step today streak
  = Some (mk_streak (current_streak streak + 1)
                    (Z.max (current_streak streak + 1) (longest_streak streak))
                    (Some today) (total_deposits streak + 1)).
Proof.
  intros Hl Hread. rewrite (streak_step_other_day _ _ _ Hl) by lia.
  by replace (today - read_date l) with 1 by lia.
Qed.

Lemma streak_step_gap today l streak :
  last_deposit_date streak = Some l -> 1 < today - read_date l ->
  streak_step today streak
  = Some (mk_streak 1 (Z.max 1 (longest_streak streak)) (Some today)
                    (total_deposits streak + 1)).
Proof.
  intros Hl Hgap. rewrite (streak_step_other_day _ _ _ Hl) by lia.
  destruct (Z.eqb_spec (today - read_date l) 1); [lia|].
  destruct (Z.ltb_spec 1 (today - read_date l)); [done|lia].
Qed.

Lemma iso_day_on_day d ms : 0 <= ms < MS_PER_DAY -> iso_day (on_day d ms) = d.
Proof.
  intros Hms. unfold iso_day, on_day, date_ms.
  rewrite Z.add_comm, Z.div_add by (unfold MS_PER_DAY; lia).
  rewrite Z.div_small by done. lia.
Qed.

(** *** Goals under a deposit *)

Lemma goals_after_lookup a t g goal :
  t !! g = Some goal ->
  goals_after (Some g) a t !! g
  = Some (let bumped := add_current_amount a goal in
          if reached bumped then set_completed bumped else bumped).
Proof.
  intros Hg. unfold goals_after. rewrite lookup_alter_eq, Hg. cbn [fmap option_fmap option_map].
  cbv zeta.
  destruct (reached (add_current_amount a goal)); [|by rewrite lookup_alter_eq, Hg].
  by rewrite lookup_alter_eq, lookup_alter_eq, Hg.
Qed.

(** A goal whose current_amount is at least its target_amount passes the
    check: rounding to a double keeps the order. *)
Lemma reached_intro row :
  target_amount row <= current_amount row -> reached row = true.
Proof. intros Hle. apply geb_le. by apply parseFloat_mono. Qed.

Lemma goals_after_other goalId a t g :
  goalId <> Some g -> goals_after goalId a t !! g = t !! g.
Proof.
  intros Hne. unfold goals_after. destruct goalId as [g0|]; [|done].
  assert (g0 <> g) by congruence.
  destruct (alter (add_current_amount a) g0 t !! g0) as [row|];
    [|by rewrite lookup_alter_ne].
  destruct (reached row); by rewrite ?lookup_alter_ne.
Qed.

(** is_completed is one-way: no deposit, to whatever goal, clears it. *)
Lemma goals_after_completed goalId a t g goal :
  t !! g = Some goal -> is_completed goal = true ->
  exists goal', goals_after goalId a t !! g = Some goal' /\ is_completed goal' = true.
Proof.
  intros Hg Hc. destruct (decide (goalId = Some g)) as [->|Hne].
  - rewrite (goals_after_lookup _ _ _ _ Hg). eexists; split; [done|].
    cbv zeta. destruct (reached (add_current_amount a goal)); done.
  - rewrite goals_after_other by done. eauto.
Qed.

Lemma serve_completed s c g goal :
  savings_goals s !! g = Some goal -> is_completed goal = true ->
  exists goal', savings_goals (serve s c) !! g = Some goal' /\ is_completed goal' = true.
Proof.
  intros Hg Hc. destruct c as [[userId req] now]. unfold serve.
  destruct (RecordDeposit_cases userId req now s) as [-> | ->]; [|eauto].
  cbn [snd deposit_post savings_goals]. by eapply goals_after_completed.
Qed.

Lemma serve_all_completed calls s g goal :
  savings_goals s !! g = Some goal -> is_completed goal = true ->
  exists goal', savings_goals (serve_all calls s) !! g = Some goal'
                /\ is_completed goal' = true.
Proof.
  revert s goal. induction calls as [|c calls IH]; intros s goal Hg Hc.
  - eauto.
  - destruct (serve_completed s c g goal Hg Hc) as (goal1 & Hg1 & Hc1).
    exact (IH _ _ Hg1 Hc1).
Qed.

(** Deposits made today, by whomever, keep a row stamped today stamped. *)
Lemma serve_stamped userId today s c :
  (forall streak, streaks s !! userId = Some streak ->
                  last_deposit_date streak = Some today) ->
  iso_day (snd c) = today ->
  forall streak, streaks (serve s c) !! userId = Some streak ->
                 last_deposit_date streak = Some today.
Proof.
  intros Hs Hday. destruct c as [[u req] now]. cbn [snd] in Hday. unfold serve.
  destruct (RecordDeposit_cases u req now s) as [-> | ->]; [|done].
  cbn [snd deposit_post streaks]. rewrite Hday. intros streak.
  destruct (decide (userId = u)) as [->|Hne].
  - by apply streaks_after_keeps_stamp.
  - rewrite streaks_after_other by done. apply Hs.
Qed.

Lemma serve_all_stamped userId today calls s :
  (forall streak, streaks s !! userId = Some streak ->
                  last_deposit_date streak = Some today) ->
  Forall (fun c => iso_day (snd c) = today) calls ->
  forall streak, streaks (serve_all calls s) !! userId = Some streak ->
                 last_deposit_date streak = Some today.
Proof.
  intros Hs Hcalls. revert s Hs.
  induction Hcalls as [|c calls Hc _ IH]; intros s Hs; [done|].
  apply IH. by apply serve_stamped.
Qed.

Lemma serve_keeps_user s c userId :
  is_Some (users (serve s c) !! userId) <-> is_Some (users s !! userId).
Proof.
  destruct c as [[u req] now]. unfold serve.
  destruct (RecordDeposit_cases u req now s) as [-> | ->]; [|done].
  cbn [snd deposit_post users]. apply lookup_alter_is_Some.
Qed.

Lemma serve_all_keeps_user calls s userId :
  is_Some (users (serve_all calls s) !! userId) <-> is_Some (users s !! userId).
Proof.
  revert s. induction calls as [|c calls IH]; intros s; [done|].
  cbn [serve_all fold_left]. etrans; [apply IH|]. apply serve_keeps_user.
Qed.

Lemma serve_ok userId req now s :
  0 < d_amount req -> deposit_refs_ok userId req s = true ->
  serve s (userId, req, now) = deposit_post userId req now s.
Proof. intros Ha Hok. unfold serve. by rewrite RecordDeposit_ok. Qed.

End DepositFacts.

(** ** Deposits: the claims *)

Section DepositClaims.
Import Deposits.
Context {zone : Zone}.

(** C2 (amended).  A deposit with amount > 0 and no goal, by an existing
    user and naming no payment method or an existing one, is accepted; it
    adds exactly the amount to the user's total_balance, leaves every goal
    row as it was, touches daily growth only by setting has_deposit on
    today's row (created with zero earnings if absent), and runs the streak
    step on the user's streak row: when the user has no streak row none is
    created; a row whose last_deposit_date the handler reads back as today
    is left alone; any other row is rewritten with last_deposit_date = today
    and total_deposits + 1.  No other user's row is touched. *)
Theorem deposit_without_goal userId req now s u :
  users s !! userId = Some u ->
  0 < d_amount req ->
  d_goalId req = None ->
  (forall p, d_paymentMethodId req = Some p -> p ∈ payment_methods s) ->
  exists deposit s',
    RecordDeposit userId req now s = (Created deposit, s')
    /\ total_balance <$> users s' !! userId = Some (total_balance u + d_amount req)
    /\ (forall v, v <> userId -> users s' !! v = users s !! v)
    /\ savings_goals s' = savings_goals s
    /\ daily_growth s'
       = partial_alter mark_has_deposit (userId, iso_day now) (daily_growth s)
    /\ (forall v, v <> userId -> streaks s' !! v = streaks s !! v)
    /\ (streaks s !! userId = None -> streaks s' = streaks s)
    /\ (forall streak, streaks s !! userId = Some streak ->
          streaks s' !! userId = Some (default streak (streak_step (iso_day now) streak)))
    /\ (forall streak, streaks s !! userId = Some streak ->
          read_date <$> last_deposit_date streak = Some (iso_day now) ->
          streaks s' = streaks s)
    /\ (forall streak, streaks s !! userId = Some streak ->
          read_date <$> last_deposit_date streak <> Some (iso_day now) ->
          exists streak', streaks s' !! userId = Some streak'
            /\ last_deposit_date streak' = Some (iso_day now)
            /\ total_deposits streak' = total_deposits streak + 1).
Proof.
  intros Hu Ha Hg Hp.
  assert (Hok : deposit_refs_ok userId req s = true).
  { apply refs_ok_intro; [by rewrite Hu| |done]. rewrite Hg. discriminate. }
  eexists _, _. split; [by apply RecordDeposit_ok|].
  unfold deposit_post.
  cbn [users savings_goals daily_growth streaks]. rewrite Hg. cbn [goals_after].
  split; [by rewrite lookup_alter_eq, Hu|].
  split; [by intros v Hv; rewrite lookup_alter_ne|].
  do 2 (split; [done|]).
  split; [by intros v Hv; apply streaks_after_other|].
  split; [by apply streaks_after_absent|].
  split; [by intros streak Hs; apply streaks_after_lookup|].
  split.
  - intros streak Hs Hlast. apply streaks_after_same_day.
    intros streak' Hs'. congruence.
  - intros streak Hs Hlast.
    rewrite (streaks_after_lookup _ _ _ _ Hs).
    destruct (streak_step (iso_day now) streak) as [streak'|] eqn:Hstep.
    + exists streak'. apply streak_step_writes in Hstep as (? & _ & ?). done.
    + by apply streak_step_skips in Hstep.
Qed.

(** C3 (the handler does not meet it east of UTC).  When a deposit has been
    accepted and the same user deposits again on the same UTC calendar day
    (whatever deposits, by this user or others, were served in between that
    day), the second deposit is accepted, adds its amount to total_balance
    and appends one confirmed ledger row of type deposit carrying its
    amount.  On a server at or west of UTC it leaves the streak table as it
    is.  On a server east of UTC the date stamped by the first deposit reads
    back as the day before, and the second deposit counts as one made the
    next day: current_streak and total_deposits both go up by one (the row
    not having been stamped with a later day before). *)
Theorem second_deposit_same_day userId req1 now1 between req2 now2 s0 d1 s1 :
  RecordDeposit userId req1 now1 s0 = (Created d1, s1) ->
  Forall (fun c : deposit_call => iso_day (snd c) = iso_day now1) between ->
  iso_day now2 = iso_day now1 ->
  0 < d_amount req2 ->
  (forall g, d_goalId req2 = Some g ->
             is_Some (savings_goals (serve_all between s1) !! g)) ->
  (forall p, d_paymentMethodId req2 = Some p ->
             p ∈ payment_methods (serve_all between s1)) ->
  exists d2 s2 u1 row,
    RecordDeposit userId req2 now2 (serve_all between s1) = (Created d2, s2)
    /\ users (serve_all between s1) !! userId = Some u1
    /\ total_balance <$> users s2 !! userId = Some (total_balance u1 + d_amount req2)
    /\ transactions s2 = transactions (serve_all between s1) ++ [row]
    /\ tx_user row = userId
    /\ tx_kind row = TDeposit
    /\ tx_amount row = d_amount req2
    /\ tx_status row = Confirmed
    /\ (utc_offset <= 0 -> streaks s2 = streaks (serve_all between s1))
    /\ (0 < utc_offset ->
        (forall streak0 l, streaks s0 !! userId = Some streak0 ->
                           last_deposit_date streak0 = Some l -> l <= iso_day now1) ->
        forall streak, streaks (serve_all between s1) !! userId = Some streak ->
          streaks s2 !! userId
          = Some (mk_streak (current_streak streak + 1)
                            (Z.max (current_streak streak + 1) (longest_streak streak))
                            (Some (iso_day now1)) (total_deposits streak + 1))).
Proof.
  intros Hfirst Hbetween Hday Ha Hg Hp.
  apply RecordDeposit_created in Hfirst as (_ & Hok1 & _ & ->).
  set (s1 := deposit_post userId req1 now1 s0) in *.
  set (s1' := serve_all between s1) in *.
  assert (Hu1 : is_Some (users s1' !! userId)).
  { apply serve_all_keeps_user. cbn [s1 deposit_post users].
    apply lookup_alter_is_Some. by apply refs_ok_user in Hok1. }
  destruct Hu1 as [u1 Hu1].
  assert (Hok2 : deposit_refs_ok userId req2 s1' = true)
    by (apply refs_ok_intro; eauto).
  eexists _, _, u1, _. split; [by apply RecordDeposit_ok|].
  split; [done|].
  split; [by cbn [deposit_post users]; rewrite lookup_alter_eq, Hu1|].
  do 5 (split; [by cbn|]).
  cbn [deposit_post streaks]. rewrite Hday. split.
  - intros Hwest. apply streaks_after_same_day. intros streak Hs.
    assert (Hstamp : last_deposit_date streak = Some (iso_day now1)).
    { revert streak Hs.
      apply (serve_all_stamped userId (iso_day now1) between s1); [|done].
      intros streak Hs. cbn [s1 deposit_post streaks] in Hs.
      destruct (streaks_after_stamped _ _ _ _ Hs) as [?|[_ Hread]]; [done|].
      destruct (last_deposit_date streak) as [l|]; [|done].
      cbn in Hread. rewrite read_date_west in Hread by done. done. }
    rewrite Hstamp. cbn. by rewrite read_date_west.
  - intros Heast Hpast streak Hs.
    assert (Hstamp : last_deposit_date streak = Some (iso_day now1)).
    { revert streak Hs.
      apply (serve_all_stamped userId (iso_day now1) between s1); [|done].
      intros streak Hs. cbn [s1 deposit_post streaks] in Hs.
      destruct (streaks_after_stamped _ _ _ _ Hs) as [?|[Hs0 Hread]]; [done|].
      destruct (last_deposit_date streak) as [l|] eqn:Hl; [|done].
      cbn in Hread. rewrite read_date_east in Hread by done.
      specialize (Hpast _ _ Hs0 Hl). injection Hread as Hread. lia. }
    rewrite (streaks_after_lookup _ _ _ _ Hs).
    rewrite (streak_step_next_day _ _ _ Hstamp) by (by apply read_date_east).
    done.
Qed.

(** C4 (the handler does not meet it east of UTC).  For a user with a
    streak row, an accepted deposit runs the streak step on the stored date
    as the handler reads it back.  After every deposit longest_streak is the
    maximum of its former value and the new current_streak (the handler
    writes exactly that whenever it rewrites the row; when the row is left
    alone it holds because current_streak <= longest_streak, an ordering
    that the row of a new account has and that every deposit preserves).
    On a server at or west of UTC the stored date reads back as itself: a
    deposit the day after last_deposit_date adds 1 to current_streak, one
    made more than a day after it sets current_streak to 1, one on the same
    day leaves the row alone; deposits on three consecutive days by a new
    account give current_streak = 3 and longest_streak = 3, and a deposit
    four days after the third gives current_streak = 1 with
    longest_streak = 3.  On a server east of UTC the stored date reads back
    as the day before: a deposit the day after last_deposit_date sets
    current_streak to 1, and one on the same day adds 1; the same three
    consecutive days give current_streak = 1 and longest_streak = 1. *)
Theorem streak_after_deposit userId req now s streak :
  0 < d_amount req ->
  deposit_refs_ok userId req s = true ->
  streaks s !! userId = Some streak ->
  (exists deposit s' streak',
      RecordDeposit userId req now s = (Created deposit, s')
      /\ streaks s' !! userId = Some streak'
      /\ (read_date <$> last_deposit_date streak <> Some (iso_day now) ->
          longest_streak streak'
          = Z.max (longest_streak streak) (current_streak streak'))
      /\ (current_streak streak <= longest_streak streak ->
          longest_streak streak'
          = Z.max (longest_streak streak) (current_streak streak'))
      /\ (0 <= current_streak streak <= longest_streak streak ->
          0 <= current_streak streak' <= longest_streak streak')
      /\ (utc_offset <= 0 ->
          (last_deposit_date streak = Some (iso_day now - 1) ->
           current_streak streak' = current_streak streak + 1)
          /\ (forall l, last_deposit_date streak = Some l -> 1 < iso_day now - l ->
              current_streak streak' = 1)
          /\ (last_deposit_date streak = Some (iso_day now) -> streak' = streak))
      /\ (0 < utc_offset ->
          (last_deposit_date streak = Some (iso_day now - 1) ->
           current_streak streak' = 1)
          /\ (forall l, last_deposit_date streak = Some l -> 1 < iso_day now - l ->
              current_streak streak' = 1)
          /\ (last_deposit_date streak = Some (iso_day now) ->
              current_streak streak' = current_streak streak + 1
              /\ total_deposits streak' = total_deposits streak + 1)))
  /\ (streak = new_streak ->
      forall day req2 req3 req4 now2 now3 now4,
        iso_day now = day -> iso_day now2 = day + 1 -> iso_day now3 = day + 2 ->
        iso_day now4 = day + 2 + 4 ->
        0 < d_amount req2 -> deposit_refs_ok userId req2 s = true ->
        0 < d_amount req3 -> deposit_refs_ok userId req3 s = true ->
        0 < d_amount req4 -> deposit_refs_ok userId req4 s = true ->
        let s3 := serve_all [(userId, req, now); (userId, req2, now2); (userId, req3, now3)] s in
        let s4 := serve s3 (userId, req4, now4) in
        (utc_offset <= 0 ->
         streaks s3 !! userId = Some (mk_streak 3 3 (Some (day + 2)) 3)
         /\ streaks s4 !! userId = Some (mk_streak 1 3 (Some (day + 6)) 4))
        /\ (0 < utc_offset ->
            streaks s3 !! userId = Some (mk_streak 1 1 (Some (day + 2)) 3)
            /\ streaks s4 !! userId = Some (mk_streak 1 1 (Some (day + 6)) 4))).
Proof.
  intros Ha Hok Hs. split.
  - eexists _, _, _. split; [by apply RecordDeposit_ok|].
    cbn [deposit_post streaks]. split; [by apply streaks_after_lookup|].
    split; [|split; [|split; [|split]]].
    + intros Hl.
      destruct (streak_step (iso_day now) streak) as [streak'|] eqn:Hstep.
      * by apply streak_step_writes in Hstep as (_ & ? & _).
      * by apply streak_step_skips in Hstep.
    + intros Hinv.
      destruct (streak_step (iso_day now) streak) as [streak'|] eqn:Hstep.
      * by apply streak_step_writes in Hstep as (_ & ? & _).
      * cbn [default]. lia.
    + intros Hinv.
      destruct (streak_step (iso_day now) streak) as [streak'|] eqn:Hstep.
      * by eapply streak_step_ordered.
      * done.
    + intros Hwest. split; [|split].
      * intros Hl. by rewrite (streak_step_next_day _ _ _ Hl) by (by apply read_date_west).
      * intros l Hl Hgap.
        by rewrite (streak_step_gap _ l) by (done || rewrite read_date_west by done; lia).
      * intros Hl. rewrite streak_step_same_day; [done|].
        rewrite Hl. cbn. by rewrite read_date_west.
    + intros Heast. split; [|split].
      * intros Hl.
        by rewrite (streak_step_gap _ _ _ Hl) by (rewrite read_date_east by done; lia).
      * intros l Hl Hgap.
        by rewrite (streak_step_gap _ l) by (done || rewrite read_date_east by done; lia).
      * intros Hl.
        by rewrite (streak_step_next_day _ _ _ Hl) by (by apply read_date_east).
  - intros -> day req2 req3 req4 now2 now3 now4 Hd1 Hd2 Hd3 Hd4
           Ha2 Hok2 Ha3 Hok3 Ha4 Hok4 s3 s4.
    set (s1 := deposit_post userId req now s).
    set (s2 := deposit_post userId req2 now2 s1).
    assert (Hok2' : deposit_refs_ok userId req2 s1 = true)
      by (by unfold s1; rewrite refs_ok_post).
    assert (Hok3' : deposit_refs_ok userId req3 s2 = true)
      by (by unfold s2, s1; rewrite !refs_ok_post).
    assert (Hs3 : s3 = deposit_post userId req3 now3 s2).
    { subst s3. unfold serve_all. cbn [fold_left].
      rewrite (serve_ok userId req now) by done. fold s1.
      rewrite (serve_ok userId req2 now2) by done. fold s2.
      by rewrite (serve_ok userId req3 now3). }
    assert (Hs4 : s4 = deposit_post userId req4 now4 s3).
    { subst s4. rewrite serve_ok; [done|done|].
      by rewrite Hs3; unfold s2, s1; rewrite !refs_ok_post. }
    assert (Hrow1 : streaks s1 !! userId = Some (mk_streak 1 1 (Some day) 1)).
    { unfold s1. cbn [deposit_post streaks].
      rewrite (streaks_after_lookup _ _ _ _ Hs), Hd1.
      by rewrite streak_step_first. }
    split.
    + intros Hwest.
      assert (Hrow2 : streaks s2 !! userId = Some (mk_streak 2 2 (Some (day + 1)) 2)).
      { unfold s2. cbn [deposit_post streaks].
        rewrite (streaks_after_lookup _ _ _ _ Hrow1), Hd2.
        by rewrite (streak_step_next_day _ day)
          by (done || rewrite read_date_west by done; lia). }
      assert (Hrow3 : streaks s3 !! userId = Some (mk_streak 3 3 (Some (day + 2)) 3)).
      { rewrite Hs3. cbn [deposit_post streaks].
        rewrite (streaks_after_lookup _ _ _ _ Hrow2), Hd3.
        by rewrite (streak_step_next_day _ (day + 1))
          by (done || rewrite read_date_west by done; lia). }
      split; [done|]. rewrite Hs4. cbn [deposit_post streaks].
      rewrite (streaks_after_lookup _ _ _ _ Hrow3), Hd4.
      rewrite (streak_step_gap _ (day + 2))
        by (done || rewrite read_date_west by done; lia).
      cbn. do 3 f_equal. lia.
    + intros Heast.
      assert (Hrow2 : streaks s2 !! userId = Some (mk_streak 1 1 (Some (day + 1)) 2)).
      { unfold s2. cbn [deposit_post streaks].
        rewrite (streaks_after_lookup _ _ _ _ Hrow1), Hd2.
        by rewrite (streak_step_gap _ day)
          by (done || rewrite read_date_east by done; lia). }
      assert (Hrow3 : streaks s3 !! userId = Some (mk_streak 1 1 (Some (day + 2)) 3)).
      { rewrite Hs3. cbn [deposit_post streaks].
        rewrite (streaks_after_lookup _ _ _ _ Hrow2), Hd3.
        by rewrite (streak_step_gap _ (day + 1))
          by (done || rewrite read_date_east by done; lia). }
      split; [done|]. rewrite Hs4. cbn [deposit_post streaks].
      rewrite (streaks_after_lookup _ _ _ _ Hrow3), Hd4.
      rewrite (streak_step_gap _ (day + 2))
        by (done || rewrite read_date_east by done; lia).
      cbn. do 3 f_equal. lia.
Qed.

(** C5.  A deposit with amount > 0 to an existing goal is accepted and adds
    exactly the amount to the goal's current_amount; if the new
    current_amount reaches target_amount the goal is marked completed; and
    once a goal is completed it stays completed whatever deposits are
    served afterwards. *)
Theorem deposit_to_goal userId req now s g goal :
  0 < d_amount req ->
  is_Some (users s !! userId) ->
  d_goalId req = Some g ->
  savings_goals s !! g = Some goal ->
  (forall p, d_paymentMethodId req = Some p -> p ∈ payment_methods s) ->
  exists deposit s' goal',
    RecordDeposit userId req now s = (Created deposit, s')
    /\ savings_goals s' !! g = Some goal'
    /\ current_amount goal' = current_amount goal + d_amount req
    /\ target_amount goal' = target_amount goal
    /\ (target_amount goal' <= current_amount goal' -> is_completed goal' = true)
    /\ (is_completed goal = true -> is_completed goal' = true)
    /\ (is_completed goal' = true ->
        forall calls, exists goal'',
          savings_goals (serve_all calls s') !! g = Some goal''
          /\ is_completed goal'' = true).
Proof.
  intros Ha Hu Hg Hgoal Hp.
  assert (Hok : deposit_refs_ok userId req s = true).
  { apply refs_ok_intro; [done| |done]. intros g' Hg'. rewrite Hg in Hg'.
    injection Hg' as <-. by rewrite Hgoal. }
  set (bumped := add_current_amount (d_amount req) goal).
  set (goal' := if reached bumped then set_completed bumped else bumped).
  assert (Hlook : savings_goals (deposit_post userId req now s) !! g = Some goal').
  { cbn [deposit_post savings_goals]. rewrite Hg. by apply goals_after_lookup. }
  assert (Hcur : current_amount goal' = current_amount goal + d_amount req)
    by (unfold goal'; destruct (reached bumped); reflexivity).
  assert (Htar : target_amount goal' = target_amount goal)
    by (unfold goal'; destruct (reached bumped); reflexivity).
  exists (deposit_row_of userId req now s), (deposit_post userId req now s), goal'.
  split; [by apply RecordDeposit_ok|].
  do 3 (split; [done|]).
  split; [|split].
  - intros Hle. unfold goal'. rewrite reached_intro; [done|].
    rewrite Hcur, Htar in Hle. cbn. lia.
  - intros Hc. unfold goal'. destruct (reached bumped); done.
  - intros Hc calls. by apply (serve_all_completed calls _ g goal').
Qed.

End DepositClaims.

Section DepositExamples.
Import Deposits.
#[local] Existing Instance UTC.

(** C2 (as stated fails).  A first deposit of the day without a goal does
    write the streak row: the user of [demo_store] deposits 5.000000 and the
    streak row goes from (0, 0, NULL, 0) to (1, 1, today, 1). *)
Lemma no_goal_deposit_writes_streak : ~ no_goal_deposit_leaves_streak_alone.
Proof.
  intros H.
  destruct (H 1%N (mk_deposit_request None 5000000 None None) (on_day 19000 0)
              demo_store (mk_user "0xabc" "lite" 100000000 0))
    as (_ & _ & Hstreaks & _); [reflexivity|cbn; lia|reflexivity|reflexivity|].
  apply (f_equal (fun t => current_streak <$> t !! 1%N)) in Hstreaks.
  vm_compute in Hstreaks. discriminate.
Qed.

Lemma deposit_without_goal_witness :
  exists deposit s',
    RecordDeposit 1%N (mk_deposit_request None 5000000 None None) (on_day 19000 0)
                  demo_store = (Created deposit, s')
    /\ total_balance <$> users s' !! 1%N = Some 105000000
    /\ savings_goals s' = savings_goals demo_store
    /\ (exists streak', streaks s' !! 1%N = Some streak'
          /\ last_deposit_date streak' = Some 19000
          /\ total_deposits streak' = 0 + 1).
Proof.
  destruct (deposit_without_goal 1%N (mk_deposit_request None 5000000 None None)
              (on_day 19000 0) demo_store (mk_user "0xabc" "lite" 100000000 0))
    as (deposit & s' & Hrun & Hbal & _ & Hgoals & _ & _ & _ & _ & _ & Hstreak).
  - reflexivity.
  - cbn. lia.
  - reflexivity.
  - intros p. discriminate.
  - exists deposit, s'. split; [exact Hrun|]. split; [exact Hbal|].
    split; [exact Hgoals|].
    apply (Hstreak new_streak); [reflexivity|discriminate].
Defined.

(** Two deposits on day 19000 (a third one in between on the UTC server):
    in UTC the second leaves the streak table alone; in UTC+7 the first
    deposit's stamp reads back as day 18999 and the second moves the row
    from (1, 1, 19000, 1) to (2, 2, 19000, 2). *)
Lemma second_deposit_same_day_witness :
  let req1 := mk_deposit_request None 5000000 None None in
  let req2 := mk_deposit_request (Some 7%N) 3000000 None None in
  (let s1 := deposit_post (zone := UTC) 1%N req1 (on_day 19000 3600000) demo_store in
   let s1' := serve_all (zone := UTC) [(1%N, req1, on_day 19000 5000000)] s1 in
   exists d2 s2,
     RecordDeposit (zone := UTC) 1%N req2 (on_day 19000 7200000) s1' = (Created d2, s2)
     /\ streaks s2 = streaks s1'
     /\ total_balance <$> users s2 !! 1%N = Some (110000000 + 3000000))
  /\ (let s1 := deposit_post (zone := WIB) 1%N req1 (on_day 19000 3600000) demo_store in
      exists d2 s2,
        RecordDeposit (zone := WIB) 1%N req2 (on_day 19000 7200000) s1 = (Created d2, s2)
        /\ streaks s1 !! 1%N = Some (mk_streak 1 1 (Some 19000) 1)
        /\ streaks s2 !! 1%N = Some (mk_streak 2 2 (Some 19000) 2)).
Proof.
  intros req1 req2. split.
  - intros s1 s1'.
    destruct (second_deposit_same_day (zone := UTC) 1%N req1 (on_day 19000 3600000)
                [(1%N, req1, on_day 19000 5000000)]
                req2 (on_day 19000 7200000) demo_store
                (deposit_row_of 1%N req1 (on_day 19000 3600000) demo_store) s1)
      as (d2 & s2 & u1 & row & Hrun & Hu1 & Hbal & _ & _ & _ & _ & _ & Hwest & _).
    + vm_compute. reflexivity.
    + repeat constructor.
    + vm_compute. reflexivity.
    + cbn. lia.
    + intros g [= <-]. vm_compute. eexists. reflexivity.
    + intros p [=].
    + exists d2, s2. split; [exact Hrun|]. split; [apply Hwest; cbn; lia|].
      vm_compute in Hu1. injection Hu1 as <-. exact Hbal.
  - intros s1.
    destruct (second_deposit_same_day (zone := WIB) 1%N req1 (on_day 19000 3600000)
                [] req2 (on_day 19000 7200000) demo_store
                (deposit_row_of 1%N req1 (on_day 19000 3600000) demo_store) s1)
      as (d2 & s2 & u1 & row & Hrun & _ & _ & _ & _ & _ & _ & _ & _ & Heast).
    + vm_compute. reflexivity.
    + constructor.
    + vm_compute. reflexivity.
    + cbn. lia.
    + intros g [= <-]. vm_compute. eexists. reflexivity.
    + intros p [=].
    + exists d2, s2. split; [exact Hrun|]. split; [vm_compute; reflexivity|].
      apply (Heast eq_refl) with (streak := mk_streak 1 1 (Some 19000) 1).
      * intros streak0 l Hs0 Hl. vm_compute in Hs0. injection Hs0 as <-.
        discriminate Hl.
      * vm_compute. reflexivity.
Defined.

(** The account of [demo_store] depositing on days 19000, 19001, 19002 and
    19006: in UTC the streak goes 1, 2, 3 and then back to 1 with
    longest_streak 3; in UTC+7 every stored date reads back one day early,
    so each of these deposits finds a gap of two days or more and the
    streak stays at 1 with longest_streak 1. *)
Lemma streak_after_deposit_witness :
  let req := mk_deposit_request None 5000000 None None in
  let days3 := [(1%N, req, on_day 19000 0); (1%N, req, on_day 19001 0);
                (1%N, req, on_day 19002 0)] in
  (streaks (serve_all (zone := UTC) days3 demo_store) !! 1%N
   = Some (mk_streak 3 3 (Some (19000 + 2)) 3)
   /\ streaks (serve (zone := UTC) (serve_all (zone := UTC) days3 demo_store)
                     (1%N, req, on_day 19006 0)) !! 1%N
      = Some (mk_streak 1 3 (Some (19000 + 6)) 4))
  /\ (streaks (serve_all (zone := WIB) days3 demo_store) !! 1%N
      = Some (mk_streak 1 1 (Some (19000 + 2)) 3)
      /\ streaks (serve (zone := WIB) (serve_all (zone := WIB) days3 demo_store)
                        (1%N, req, on_day 19006 0)) !! 1%N
         = Some (mk_streak 1 1 (Some (19000 + 6)) 4))
  /\ (let s1 := deposit_post (zone := UTC) 1%N req (on_day 19000 0) demo_store in
      exists d s' streak',
        RecordDeposit (zone := UTC) 1%N req (on_day 19001 0) s1 = (Created d, s')
        /\ streaks s' !! 1%N = Some streak' /\ current_streak streak' = 1 + 1)
  /\ (let s1 := deposit_post (zone := WIB) 1%N req (on_day 19000 0) demo_store in
      exists d s' streak',
        RecordDeposit (zone := WIB) 1%N req (on_day 19001 0) s1 = (Created d, s')
        /\ streaks s' !! 1%N = Some streak' /\ current_streak streak' = 1
        /\ longest_streak streak' = Z.max 1 (current_streak streak')).
Proof.
  intros req days3. split; [|split; [|split]].
  - destruct (streak_after_deposit (zone := UTC) 1%N req (on_day 19000 0)
                demo_store new_streak)
      as [_ Hseq]; [cbn; lia|vm_compute; reflexivity..|].
    destruct (Hseq eq_refl 19000 req req req
                (on_day 19001 0) (on_day 19002 0) (on_day 19006 0)) as [Hwest _];
      try (vm_compute; reflexivity).
    apply Hwest. cbn. lia.
  - destruct (streak_after_deposit (zone := WIB) 1%N req (on_day 19000 0)
                demo_store new_streak)
      as [_ Hseq]; [cbn; lia|vm_compute; reflexivity..|].
    destruct (Hseq eq_refl 19000 req req req
                (on_day 19001 0) (on_day 19002 0) (on_day 19006 0)) as [_ Heast];
      try (vm_compute; reflexivity).
    apply Heast. cbn. lia.
  - intros s1.
    destruct (streak_after_deposit (zone := UTC) 1%N req (on_day 19001 0) s1
                (mk_streak 1 1 (Some 19000) 1))
      as [(d & s' & streak' & Hrun & Hrow & _ & _ & _ & Hwest & _) _];
      [cbn; lia|vm_compute; reflexivity..|].
    exists d, s', streak'. split; [exact Hrun|]. split; [exact Hrow|].
    apply Hwest; [cbn; lia|vm_compute; reflexivity].
  - intros s1.
    destruct (streak_after_deposit (zone := WIB) 1%N req (on_day 19001 0) s1
                (mk_streak 1 1 (Some 19000) 1))
      as [(d & s' & streak' & Hrun & Hrow & Hmax & _ & _ & _ & Heast) _];
      [cbn; lia|vm_compute; reflexivity..|].
    exists d, s', streak'. split; [exact Hrun|]. split; [exact Hrow|].
    split.
    + apply Heast; [cbn; lia|vm_compute; reflexivity].
    + apply Hmax. vm_compute. discriminate.
Defined.

Lemma deposit_to_goal_witness :
  exists deposit s' goal',
    RecordDeposit 1%N (mk_deposit_request (Some 7%N) 150000000 None None)
                  (on_day 19000 0) demo_store = (Created deposit, s')
    /\ savings_goals s' !! 7%N = Some goal'
    /\ current_amount goal' = 150000000
    /\ is_completed goal' = true.
Proof.
  destruct (deposit_to_goal 1%N (mk_deposit_request (Some 7%N) 150000000 None None)
              (on_day 19000 0) demo_store 7%N (mk_goal 1%N "Car" 150000000 0 true false))
    as (deposit & s' & goal' & Hrun & Hg & Hcur & Htarget & Hdone & _).
  - cbn. lia.
  - vm_compute. eexists. reflexivity.
  - reflexivity.
  - reflexivity.
  - intros p [=].
  - exists deposit, s', goal'. split; [exact Hrun|]. split; [exact Hg|].
    split; [exact Hcur|]. apply Hdone. rewrite Htarget, Hcur. cbn. lia.
Defined.

End DepositExamples.

(** ** Withdrawals *)

Section WithdrawalClaims.
Import Transactions.

Lemma withdrawal_tx_run userId req s :
  withdrawal_tx userId req s
  = Some (withdrawal_row userId req (uuid_seq s), withdrawal_post userId req s).
Proof. unfold withdrawal_tx. tx_run. reflexivity. Qed.

(** The handler's three outcomes past validation. *)
Lemma RecordWithdrawal_enough userId req s u :
  users s !! userId = Some u -> 0 < w_amount req -> w_amount req <= total_balance u ->
  RecordWithdrawal userId req s
  = (Created (withdrawal_row userId req (uuid_seq s)), withdrawal_post userId req s).
Proof.
  intros Hu Ha Hle. unfold RecordWithdrawal. rewrite Hu.
  destruct (Z.leb_spec (w_amount req) 0); [lia|].
  rewrite (proj2 (ltb_ge _ _) (received_le _ _ Hle)).
  by rewrite withdrawal_tx_run.
Qed.

(** What the check decides, in terms of the two doubles. *)
Lemma RecordWithdrawal_checked userId req s u :
  users s !! userId = Some u -> 0 < w_amount req ->
  RecordWithdrawal userId req s
  = if Number.ltb (parseFloat (total_balance u)) (received (w_amount req))
    then (BadRequest "Insufficient balance", s)
    else (Created (withdrawal_row userId req (uuid_seq s)), withdrawal_post userId req s).
Proof.
  intros Hu Ha. unfold RecordWithdrawal. rewrite Hu.
  destruct (Z.leb_spec (w_amount req) 0); [lia|].
  destruct (Number.ltb _ _); [done|]. by rewrite withdrawal_tx_run.
Qed.

Lemma RecordWithdrawal_short userId req s u :
  users s !! userId = Some u -> 0 < w_amount req ->
  0 <= total_balance u < 8000000000000000 ->
  total_balance u < w_amount req ->
  RecordWithdrawal userId req s = (BadRequest "Insufficient balance", s).
Proof.
  intros Hu Ha Hb Hlt. rewrite (RecordWithdrawal_checked _ _ _ _ Hu Ha).
  by rewrite (proj2 (ltb_lt _ _) (parseFloat_lt _ _ Hb Hlt)).
Qed.

(** A rejected request leaves the store alone, whatever the reason. *)
Lemma RecordWithdrawal_rejected userId req s :
  (forall row, fst (RecordWithdrawal userId req s) <> Created row) ->
  snd (RecordWithdrawal userId req s) = s.
Proof.
  unfold RecordWithdrawal.
  destruct (w_amount req <=? 0); [done|].
  destruct (users s !! userId) as [u|]; [|done].
  destruct (Number.ltb _ _); [done|].
  rewrite withdrawal_tx_run. intros H. by destruct (H _ eq_refl).
Qed.

(** C6 (the handler does not meet it for large balances).  The handler
    compares two doubles, [parseFloat] of the balance and the amount
    received.  For a withdrawal (amount > 0, as the operation requires) of
    more than the user's total_balance: when the double of the balance is
    below that of the amount, and so for every balance from 0 to below
    8 000 000 000, the answer is "Insufficient balance" and the store, hence
    the balance and the ledger, is the one the handler found.  When the two
    doubles are equal, which happens for larger balances, the withdrawal is
    accepted: a ledger row is appended and total_balance goes below zero.
    One of the two always happens. *)
Theorem withdrawal_exceeding_balance userId req s u :
  users s !! userId = Some u ->
  0 < w_amount req ->
  total_balance u < w_amount req ->
  ((parseFloat (total_balance u) < received (w_amount req))%Q ->
   RecordWithdrawal userId req s = (BadRequest "Insufficient balance", s)
   /\ users (snd (RecordWithdrawal userId req s)) !! userId = Some u
   /\ transactions (snd (RecordWithdrawal userId req s)) = transactions s)
  /\ (0 <= total_balance u < 8000000000000000 ->
      RecordWithdrawal userId req s = (BadRequest "Insufficient balance", s))
  /\ ((parseFloat (total_balance u) == received (w_amount req))%Q ->
      exists row s',
        RecordWithdrawal userId req s = (Created row, s')
        /\ total_balance <$> users s' !! userId
           = Some (total_balance u - w_amount req)
        /\ total_balance u - w_amount req < 0
        /\ transactions s' = transactions s ++ [row]
        /\ tx_kind row = TWithdrawal
        /\ tx_amount row = w_amount req)
  /\ ((parseFloat (total_balance u) < received (w_amount req))%Q
      \/ (parseFloat (total_balance u) == received (w_amount req))%Q).
Proof.
  intros Hu Ha Hlt. rewrite (RecordWithdrawal_checked _ _ _ _ Hu Ha).
  split; [|split; [|split]].
  - intros Hd. by rewrite (proj2 (ltb_lt _ _) Hd).
  - intros Hb. by rewrite (proj2 (ltb_lt _ _) (parseFloat_lt _ _ Hb Hlt)).
  - intros Hd. rewrite (proj2 (ltb_ge _ _)) by (rewrite Hd; apply Qle_refl).
    eexists _, _. split; [done|].
    cbn [withdrawal_post users transactions]. rewrite lookup_alter_eq, Hu.
    split; [done|]. split; [lia|]. done.
  - assert (Hle : (parseFloat (total_balance u) <= received (w_amount req))%Q)
      by (apply parseFloat_le; lia).
    destruct (Qle_lt_or_eq _ _ Hle); [by left|by right].
Qed.

(** A balance of 99999999999.999999 (reached by depositing 100000000000 and
    withdrawing 0.000001) and a withdrawal of 100000000000: the balance
    reads as the double 100000000000, the withdrawal is accepted and the
    balance ends at -0.000001.  With a balance of 100 a withdrawal of
    100.000001 is refused. *)
Lemma withdrawal_exceeding_balance_witness :
  let rich := set_users (<[1%N := mk_user "0xabc" "lite" 99999999999999999 0]>) demo_store in
  (exists row s',
      RecordWithdrawal 1%N (mk_withdrawal_request 100000000000000000 None None None) rich
      = (Created row, s')
      /\ total_balance <$> users s' !! 1%N = Some (-1)
      /\ transactions s' = transactions rich ++ [row])
  /\ RecordWithdrawal 1%N (mk_withdrawal_request 100000001 None None None) demo_store
     = (BadRequest "Insufficient balance", demo_store).
Proof.
  intros rich. split.
  - destruct (withdrawal_exceeding_balance 1%N
                (mk_withdrawal_request 100000000000000000 None None None) rich
                (mk_user "0xabc" "lite" 99999999999999999 0))
      as (_ & _ & Haccepted & _).
    + reflexivity.
    + cbn. lia.
    + cbn. lia.
    + destruct Haccepted as (row & s' & Hrun & Hbal & _ & Hrows & _).
      * vm_compute. reflexivity.
      * exists row, s'. split; [exact Hrun|]. split; [exact Hbal|exact Hrows].
  - destruct (withdrawal_exceeding_balance 1%N
                (mk_withdrawal_request 100000001 None None None) demo_store
                (mk_user "0xabc" "lite" 100000000 0))
      as (_ & Hrefused & _).
    + reflexivity.
    + cbn. lia.
    + cbn. lia.
    + apply Hrefused. cbn. lia.
Defined.



End WithdrawalClaims.

(** ** Withdrawals that overlap *)

Section OverlapClaims.
Import Transactions.

Lemma step_begin userId req s u :
  users s !! userId = Some u -> 0 < w_amount req -> w_amount req <= total_balance u ->
  step (mk_request userId req AtBegin) s
  = (mk_request userId req (Checked (parseFloat (total_balance u))), s).
Proof.
  intros Hu Ha Hle. unfold step. cbn [r_user r_body r_progress]. rewrite Hu.
  destruct (Z.leb_spec (w_amount req) 0); [lia|].
  by rewrite (proj2 (ltb_ge _ _) (received_le _ _ Hle)).
Qed.

Lemma step_commit userId req seen s :
  step (mk_request userId req (Checked seen)) s
  = (mk_request userId req (Responded (Created (withdrawal_row userId req (uuid_seq s)))),
     withdrawal_post userId req s).
Proof. unfold step. cbn [r_user r_body r_progress]. by rewrite withdrawal_tx_run. Qed.

(** Two steps in a row are the handler run without interruption. *)
Lemma step_step_is_handler userId req s :
  let '(c1, s1) := step (mk_request userId req AtBegin) s in
  let '(c2, s2) := step c1 s1 in
  c2 = mk_request userId req (Responded (fst (RecordWithdrawal userId req s)))
  /\ s2 = snd (RecordWithdrawal userId req s).
Proof.
  unfold step at 1, RecordWithdrawal. cbn [r_user r_body r_progress].
  destruct (w_amount req <=? 0); [done|].
  destruct (users s !! userId) as [u|]; [|done].
  destruct (Number.ltb _ _); [done|].
  rewrite step_commit, withdrawal_tx_run. done.
Qed.

Lemma one_by_one_short n userId req s u :
  users s !! userId = Some u -> 0 < w_amount req ->
  0 <= total_balance u < 8000000000000000 ->
  total_balance u < w_amount req ->
  one_by_one (replicate n req) userId s
  = (replicate n (BadRequest "Insufficient balance"), s).
Proof.
  intros Hu Ha Hb Hlt. induction n as [|n IH]; [done|].
  cbn [replicate one_by_one].
  by rewrite (RecordWithdrawal_short _ _ _ _ Hu Ha Hb Hlt), IH.
Qed.

(** Served one after the other, withdrawals of the whole balance behave as
    the specification asks: the first succeeds, the others are refused, the
    balance ends at 0. *)
Lemma one_by_one_whole_balance n userId req s u :
  users s !! userId = Some u -> 0 < w_amount req -> w_amount req = total_balance u ->
  exists row s',
    one_by_one (replicate (S n) req) userId s
    = (Created row :: replicate n (BadRequest "Insufficient balance"), s')
    /\ total_balance <$> users s' !! userId = Some 0.
Proof.
  intros Hu Ha Heq. cbn [replicate one_by_one].
  rewrite (RecordWithdrawal_enough _ _ _ u) by (done || lia).
  erewrite (one_by_one_short n _ _ _ (debit (w_amount req) u)); cycle 1.
  - cbn [withdrawal_post users]. by rewrite lookup_alter_eq, Hu.
  - done.
  - cbn. lia.
  - cbn. lia.
  - eexists _, _. split; [done|].
    cbn [withdrawal_post users]. rewrite lookup_alter_eq, Hu. cbn. f_equal. lia.
Qed.

(** C9 (the handler does not meet it).  Two requests to withdraw the whole
    balance, interleaved so that both read the balance before either
    commits, both succeed: two ledger rows are appended and the balance ends
    at minus the amount. *)
Theorem overlapping_withdrawals_overdraw userId req s u :
  users s !! userId = Some u ->
  0 < w_amount req ->
  w_amount req = total_balance u ->
  exists c1 c2 s',
    run [0; 1; 0; 1]%nat (arrivals 2 userId req) s = ([c1; c2], s')
    /\ succeeded c1 = true
    /\ succeeded c2 = true
    /\ total_balance <$> users s' !! userId = Some (- w_amount req)
    /\ length (transactions s') = (length (transactions s) + 2)%nat.
Proof.
  intros Hu Ha Heq. unfold arrivals. cbn [replicate run lookup list_lookup].
  rewrite (step_begin _ _ _ u) by (done || lia).
  cbn [insert list_insert lookup list_lookup].
  rewrite (step_begin _ _ _ u) by (done || lia).
  cbn [insert list_insert lookup list_lookup].
  rewrite step_commit. cbn [insert list_insert lookup list_lookup].
  rewrite step_commit. cbn [insert list_insert lookup list_lookup].
  eexists _, _, _. split; [reflexivity|].
  split; [done|]. split; [done|].
  cbn [withdrawal_post users transactions].
  rewrite !lookup_alter_eq, Hu. cbn. split; [f_equal; lia|].
  rewrite !length_app. cbn. lia.
Qed.

Lemma overlapping_withdrawals_overdraw_witness :
  exists c1 c2 s',
    run [0; 1; 0; 1]%nat
        (arrivals 2 1%N (mk_withdrawal_request 100000000 None None None)) demo_store
    = ([c1; c2], s')
    /\ succeeded c1 = true
    /\ succeeded c2 = true
    /\ total_balance <$> users s' !! 1%N = Some (-100000000).
Proof.
  destruct (overlapping_withdrawals_overdraw 1%N
              (mk_withdrawal_request 100000000 None None None) demo_store
              (mk_user "0xabc" "lite" 100000000 0))
    as (c1 & c2 & s' & Hrun & H1 & H2 & Hbal & _).
  - reflexivity.
  - cbn. lia.
  - reflexivity.
  - exists c1, c2, s'. split; [exact Hrun|]. split; [exact H1|].
    split; [exact H2|exact Hbal].
Defined.

End OverlapClaims.

(** ** Fixed-point rounding *)

Section Rounding.

Lemma round_half_away_error n (d : positive) :
  2 * Z.abs (round_half_away (n # d) * Z.pos d - n) <= Z.pos d.
Proof.
  unfold round_half_away. cbn [Qnum Qden].
  destruct (Z.leb_spec 0 n).
  - pose proof (Z.div_mod (2 * n + Z.pos d) (2 * Z.pos d) ltac:(lia)).
    pose proof (Z.mod_pos_bound (2 * n + Z.pos d) (2 * Z.pos d) ltac:(lia)).
    lia.
  - pose proof (Z.div_mod (2 * - n + Z.pos d) (2 * Z.pos d) ltac:(lia)).
    pose proof (Z.mod_pos_bound (2 * - n + Z.pos d) (2 * Z.pos d) ltac:(lia)).
    lia.
Qed.

(** A value stored in a DECIMAL(_,6) column is within half a unit of the
    sixth fractional digit of the value computed. *)
Lemma store6_error (q : Q) : (Qabs (to_Q (store6 q) - q) <= 1 # 2000000)%Q.
Proof.
  destruct q as [n d]. unfold store6, to_Q, SCALE6.
  pose proof (round_half_away_error (n * 1000000) (d * 1)) as H.
  change ((n # d) * inject_Z 1000000)%Q with ((n * 1000000) # (d * 1)) in *.
  set (z := round_half_away (n * 1000000 # d * 1)) in *.
  unfold Qle, Qabs, Qminus, Qplus, Qopp. cbn [Qnum Qden].
  rewrite Pos.mul_1_r in H. lia.
Qed.

End Rounding.

(** ** Pool allocations *)

Section PortfolioFacts.
Import Portfolio.

Lemma conflicts_key proposed existing :
  conflicts proposed existing = true <-> key existing = key proposed.
Proof.
  unfold conflicts, key. rewrite !andb_true_iff, N.eqb_eq, !String.eqb_eq.
  split; [intros [[-> ->] ->]; done|intros [= -> -> ->]; done].
Qed.

(** Without a conflict the row is appended. *)
Lemma insert_on_conflict_fresh proposed t :
  Forall (fun r => key r <> key proposed) t ->
  insert_on_conflict proposed t = Some (t ++ [proposed], proposed).
Proof.
  induction 1 as [|r t Hr _ IH]; [done|]. cbn [insert_on_conflict].
  destruct (conflicts proposed r) eqn:Hc; [by apply conflicts_key in Hc|].
  by rewrite IH.
Qed.

(** On a conflict the trigger raises, wherever in the table the row is. *)
Lemma insert_on_conflict_taken proposed t :
  key proposed ∈ map key t -> insert_on_conflict proposed t = None.
Proof.
  induction t as [|r t IH]; cbn [map insert_on_conflict].
  - intros Hin. by apply elem_of_nil in Hin.
  - destruct (conflicts proposed r) eqn:Hc; [done|].
    intros [Heq|Hin]%elem_of_cons.
    + symmetry in Heq. apply conflicts_key in Heq. congruence.
    + by rewrite IH.
Qed.

Lemma insert_on_conflict_cases proposed t :
  ((key proposed ∉ map key t)
   /\ insert_on_conflict proposed t = Some (t ++ [proposed], proposed))
  \/ (key proposed ∈ map key t /\ insert_on_conflict proposed t = None).
Proof.
  destruct (decide (key proposed ∈ map key t)) as [Hin|Hout].
  - right. split; [done|]. by apply insert_on_conflict_taken.
  - left. split; [done|]. apply insert_on_conflict_fresh.
    apply Forall_forall. intros r Hr Heq. apply Hout. rewrite <- Heq.
    apply list_elem_of_In, in_map. by apply list_elem_of_In.
Qed.

Lemma upsert_allocation_run userId alloc s :
  is_Some (users s !! userId) -> poolType alloc ∈ POOL_TYPES ->
  Forall (fun r => key r <> entry_key userId alloc) (pool_allocations s) ->
  upsert_allocation userId alloc s
  = Some (proposed_row (uuid_seq s) userId alloc,
          mk_db (users s) (savings_goals s) (deposits s) (transactions s) (streaks s)
                (daily_growth s) (payment_methods s)
                (pool_allocations s ++ [proposed_row (uuid_seq s) userId alloc])
                (allocation_history s) (N.succ (uuid_seq s))).
Proof.
  intros Hu Hp Hfresh. unfold upsert_allocation. tx_run.
  rewrite !bool_decide_eq_true_2 by done. cbn [andb].
  by rewrite insert_on_conflict_fresh.
Qed.

Lemma upsert_allocation_taken userId alloc s :
  entry_key userId alloc ∈ map key (pool_allocations s) ->
  upsert_allocation userId alloc s = None.
Proof.
  intros Hin. unfold upsert_allocation. tx_run.
  destruct (_ && _); [|done]. cbn.
  by rewrite insert_on_conflict_taken.
Qed.

Lemma Allocate_single userId req alloc s :
  is_Some (users s !! userId) ->
  a_allocations req = [alloc] ->
  poolType alloc ∈ POOL_TYPES ->
  a_userMode req ∈ USER_MODES ->
  a_depositId req = None ->
  Forall (fun r => key r <> entry_key userId alloc) (pool_allocations s) ->
  Allocate userId req s
  = (Created [proposed_row (uuid_seq s) userId alloc], allocate_post userId req alloc s).
Proof.
  intros Hu Hallocs Hp Hm Hd Hfresh. unfold Allocate, allocate_tx. rewrite Hallocs.
  cbn [length Nat.eqb allocate_each].
  rewrite (bool_decide_eq_true_2 _ Hm). cbn [negb].
  unfold tx_bind at 1 2. rewrite (upsert_allocation_run _ _ _ Hu Hp Hfresh).
  unfold insert_history. tx_run. rewrite Hd.
  rewrite !bool_decide_eq_true_2 by done. cbn [andb].
  unfold allocate_post. by rewrite Hallocs, Hd.
Qed.

(** An allocation writes no user row. *)
Lemma upsert_allocation_users userId alloc s row s' :
  upsert_allocation userId alloc s = Some (row, s') -> users s' = users s.
Proof.
  unfold upsert_allocation. tx_run.
  destruct (_ && _); [|discriminate]. cbn.
  destruct (insert_on_conflict _ _) as [[t r]|]; [|discriminate].
  by intros [= _ <-].
Qed.

Lemma allocate_each_users userId allocations s rows s' :
  allocate_each userId allocations s = Some (rows, s') -> users s' = users s.
Proof.
  revert s rows s'. induction allocations as [|alloc rest IH]; intros s rows s'.
  - by intros [= _ <-].
  - cbn [allocate_each]. unfold tx_bind at 1.
    destruct (upsert_allocation userId alloc s) as [[row s1]|] eqn:H1; [|discriminate].
    unfold tx_bind at 1.
    destruct (allocate_each userId rest s1) as [[rows' s2]|] eqn:H2; [|discriminate].
    intros [= _ <-]. rewrite (IH _ _ _ H2). by eapply upsert_allocation_users.
Qed.

Lemma Allocate_users userId req s : users (snd (Allocate userId req s)) = users s.
Proof.
  unfold Allocate.
  destruct (_ =? _)%nat; [done|]. destruct (negb _); [done|].
  destruct (allocate_tx userId req s) as [[rows s']|] eqn:Htx; [|done].
  cbn [snd]. revert Htx. unfold allocate_tx. unfold tx_bind at 1.
  destruct (allocate_each userId (a_allocations req) s) as [[rows' s1]|] eqn:H1;
    [|discriminate].
  unfold insert_history. tx_run.
  destruct (_ && _); [|discriminate].
  intros [= _ <-]. cbn [users]. by eapply allocate_each_users.
Qed.

(** An entry whose key the table holds makes the loop raise, whatever
    comes before it in the request. *)
Lemma allocate_each_pool_keys userId allocations s rows s' :
  allocate_each userId allocations s = Some (rows, s') ->
  forall k, k ∈ map key (pool_allocations s) -> k ∈ map key (pool_allocations s').
Proof.
  revert s rows s'. induction allocations as [|alloc rest IH]; intros s rows s'.
  - by intros [= _ <-].
  - cbn [allocate_each]. unfold tx_bind at 1.
    destruct (upsert_allocation userId alloc s) as [[row s1]|] eqn:H1; [|discriminate].
    unfold tx_bind at 1.
    destruct (allocate_each userId rest s1) as [[rows' s2]|] eqn:H2; [|discriminate].
    intros [= _ <-] k Hk. apply (IH _ _ _ H2).
    revert H1. unfold upsert_allocation. tx_run.
    destruct (_ && _); [|discriminate]. cbn.
    destruct (insert_on_conflict_cases (proposed_row (uuid_seq s) userId alloc)
                (pool_allocations s)) as [[_ ->]|[_ ->]]; [|discriminate].
    intros [= _ <-]. cbn [pool_allocations]. rewrite map_app.
    apply elem_of_app. by left.
Qed.

Lemma allocate_each_taken userId allocations s alloc :
  alloc ∈ allocations ->
  entry_key userId alloc ∈ map key (pool_allocations s) ->
  allocate_each userId allocations s = None.
Proof.
  revert s. induction allocations as [|first rest IH]; intros s Hin Hkey.
  - by apply elem_of_nil in Hin.
  - cbn [allocate_each]. unfold tx_bind at 1.
    destruct (upsert_allocation userId first s) as [[row s1]|] eqn:H1; [|done].
    apply elem_of_cons in Hin as [->|Hin].
    + by rewrite upsert_allocation_taken in H1.
    + unfold tx_bind at 1. rewrite (IH s1); [done|done|].
      assert (Hone : allocate_each userId [first] s = Some ([row], s1)).
      { cbn [allocate_each]. unfold tx_bind at 1. by rewrite H1. }
      by apply (allocate_each_pool_keys _ _ _ _ _ Hone).
Qed.

(** Removing an allocation credits what the row holds. *)
Lemma Deallocate_found userId allocationId s allocation :
  List.find (fun r => (pa_id r =? allocationId)%N && (pa_user r =? userId)%N)
            (pool_allocations s) = Some allocation ->
  Deallocate userId allocationId s
  = (OkJson (mk_removed (amount_allocated allocation) (pool_type allocation)
                        (protocol_name allocation)),
     mk_db (alter (credit (amount_allocated allocation)) userId (users s))
           (savings_goals s) (deposits s) (transactions s) (streaks s)
           (daily_growth s) (payment_methods s)
           (List.filter (fun r => negb (pa_id r =? allocationId)%N) (pool_allocations s))
           (allocation_history s) (uuid_seq s)).
Proof. intros Hfind. unfold Deallocate. by rewrite Hfind. Qed.

Lemma find_last_fresh (t : list pool_row) row userId :
  Forall (fun r => pa_id r <> pa_id row) t -> pa_user row = userId ->
  List.find (fun r => (pa_id r =? pa_id row)%N && (pa_user r =? userId)%N) (t ++ [row])
  = Some row.
Proof.
  intros Ht Hu. induction Ht as [|r t Hr _ IH]; cbn [app List.find].
  - by rewrite N.eqb_refl, (proj2 (N.eqb_eq _ _) Hu).
  - by rewrite (proj2 (N.eqb_neq _ _) Hr).
Qed.

Lemma filter_last_fresh (t : list pool_row) row :
  Forall (fun r => pa_id r <> pa_id row) t ->
  List.filter (fun r => negb (pa_id r =? pa_id row)%N) (t ++ [row]) = t.
Proof.
  induction 1 as [|r t Hr _ IH]; cbn [app List.filter].
  - by rewrite N.eqb_refl.
  - by rewrite (proj2 (N.eqb_neq _ _) Hr), IH.
Qed.

End PortfolioFacts.

Section PortfolioClaims.
Import Portfolio.

(** C7 (the handler does not meet it).  The SET clause of the upsert
    computes what the claim asks for: amount_allocated grown by the entry's
    amount, current_apy overwritten, daily_earnings the new amount at the
    new APY over 365 and 100, rounded to the column.  But the row never
    reaches the table: pool_allocations carries the BEFORE UPDATE trigger
    that assigns updated_at, a column it does not have, so the statement
    raises.  Hence an Allocate request (with a valid user mode) in which
    some entry asks for a (user, protocol_id, pool_type) key the table
    already holds is answered 500 and rolled back, wherever in the request
    that entry stands.  In particular, allocating 100 at 10% to a protocol
    the user had no position in creates one row (100, 10%, daily 0.027397),
    and allocating 50 more at 12% to it is refused: the row stays as it
    is. *)
Theorem allocate_into_existing_is_refused :
  (forall userId req s alloc,
      a_userMode req ∈ USER_MODES ->
      alloc ∈ a_allocations req ->
      entry_key userId alloc ∈ map key (pool_allocations s) ->
      Allocate userId req s = (ServerError "Failed to allocate deposit", s))
  /\ (forall EXCLUDED existing,
        let merged := do_update EXCLUDED existing in
        key merged = key existing
        /\ pa_id merged = pa_id existing
        /\ amount_allocated merged = amount_allocated existing + amount_allocated EXCLUDED
        /\ current_apy merged = current_apy EXCLUDED
        /\ daily_earnings merged
           = store6 (to_Q (amount_allocated merged) * to_Q (current_apy merged)
                     / 365 / 100)
        /\ update_updated_at_column PoolAllocations merged = None)
  /\ (forall userId s mode,
        is_Some (users s !! userId) ->
        mode ∈ USER_MODES ->
        Forall (fun r => key r <> (userId, "aave-v3-usdc", "lending")) (pool_allocations s) ->
        let first := mk_entry "lending" "aave-v3-usdc" "Aave V3" None 100000000 100 10000000 in
        let second := mk_entry "lending" "aave-v3-usdc" "Aave V3" None 50000000 100 12000000 in
        exists row s1,
          Allocate userId (mk_allocate_request None 100000000 [first] mode) s
          = (Created [row], s1)
          /\ pool_allocations s1 = pool_allocations s ++ [row]
          /\ amount_allocated row = 100000000
          /\ current_apy row = 10000000
          /\ daily_earnings row = 27397
          /\ Allocate userId (mk_allocate_request None 50000000 [second] mode) s1
             = (ServerError "Failed to allocate deposit", s1)).
Proof.
  assert (Hrefused : forall userId req s alloc,
             a_userMode req ∈ USER_MODES ->
             alloc ∈ a_allocations req ->
             entry_key userId alloc ∈ map key (pool_allocations s) ->
             Allocate userId req s = (ServerError "Failed to allocate deposit", s)).
  { intros userId req s alloc Hmode Hin Hkey. unfold Allocate.
    destruct (a_allocations req) as [|first rest] eqn:Hallocs;
      [by apply elem_of_nil in Hin|].
    cbn [length Nat.eqb]. rewrite (bool_decide_eq_true_2 _ Hmode). cbn [negb].
    unfold allocate_tx. unfold tx_bind at 1. rewrite Hallocs.
    by rewrite (allocate_each_taken _ _ _ alloc). }
  split; [exact Hrefused|]. split; [done|].
  intros userId s mode Hu Hmode Hfresh first second.
  assert (Hlending : "lending" ∈ POOL_TYPES) by (unfold POOL_TYPES; repeat constructor).
  eexists _, _. split; [by apply (Allocate_single userId _ first s)|].
  split; [done|]. do 2 (split; [done|]). split; [by vm_compute|].
  apply (Hrefused _ _ _ second); [done|cbn; by left|].
  cbn [allocate_post pool_allocations]. rewrite map_app. apply elem_of_app. right.
  cbn. by left.
Qed.

(** The user of [demo_portfolio] holds 100 at 10% in aave-v3-usdc: a
    request that adds 50 at 12% to it, after an entry for another protocol,
    is refused and nothing is written; on the store without the position
    the first allocation creates the row and the second is refused. *)
Lemma allocate_into_existing_is_refused_witness :
  Allocate 1%N
    (mk_allocate_request None 75000000
       [mk_entry "dex" "uniswap-v3" "Uniswap" None 25000000 33 60000000;
        mk_entry "lending" "aave-v3-usdc" "Aave V3" None 50000000 67 12000000] "pro")
    demo_portfolio
  = (ServerError "Failed to allocate deposit", demo_portfolio)
  /\ (let first := mk_entry "lending" "aave-v3-usdc" "Aave V3" None 100000000 100 10000000 in
      let second := mk_entry "lending" "aave-v3-usdc" "Aave V3" None 50000000 100 12000000 in
      exists row s1,
        Allocate 1%N (mk_allocate_request None 100000000 [first] "pro") demo_store
        = (Created [row], s1)
        /\ pool_allocations s1 = [row]
        /\ daily_earnings row = 27397
        /\ Allocate 1%N (mk_allocate_request None 50000000 [second] "pro") s1
           = (ServerError "Failed to allocate deposit", s1)).
Proof.
  destruct allocate_into_existing_is_refused as (Hrefused & _ & Hexample). split.
  - apply (Hrefused 1%N _ demo_portfolio
             (mk_entry "lending" "aave-v3-usdc" "Aave V3" None 50000000 67 12000000)).
    + unfold USER_MODES. repeat constructor.
    + cbn. right. by left.
    + cbn. by left.
  - destruct (Hexample 1%N demo_store "pro") as (row & s1 & H1 & Ht & _ & _ & Hd & H2).
    + vm_compute. eexists. reflexivity.
    + unfold USER_MODES. repeat constructor.
    + constructor.
    + exists row, s1. split; [exact H1|]. split; [exact Ht|]. split; [exact Hd|exact H2].
Defined.

(** C1 (the handlers do not meet it).  Allocating never debits
    total_balance, and removing the allocation credits amount_allocated:
    after Allocate and then Deallocate of the row it created, the table of
    allocations is back to what it was but total_balance is its former
    value plus the amount allocated. *)
Theorem allocate_then_deallocate_credits userId req alloc s u :
  users s !! userId = Some u ->
  a_allocations req = [alloc] ->
  poolType alloc ∈ POOL_TYPES ->
  a_userMode req ∈ USER_MODES ->
  a_depositId req = None ->
  Forall (fun r => key r <> (userId, protocolId alloc, poolType alloc)
                   /\ pa_id r <> uuid_seq s) (pool_allocations s) ->
  exists row s1 out s2,
    Allocate userId req s = (Created [row], s1)
    /\ users s1 = users s
    /\ amount_allocated row = amount alloc
    /\ Deallocate userId (pa_id row) s1 = (OkJson out, s2)
    /\ withdrawnAmount out = amount alloc
    /\ pool_allocations s2 = pool_allocations s
    /\ total_balance <$> users s2 !! userId = Some (total_balance u + amount alloc).
Proof.
  intros Hu Hallocs Hp Hm Hd Hfresh.
  assert (Hkeys : Forall (fun r => key r <> entry_key userId alloc) (pool_allocations s))
    by (eapply Forall_impl; [exact Hfresh|]; by intros r [? _]).
  assert (Hids : Forall (fun r => pa_id r <> pa_id (proposed_row (uuid_seq s) userId alloc))
                        (pool_allocations s))
    by (eapply Forall_impl; [exact Hfresh|]; by intros r [_ ?]).
  eexists _, _, _, _.
  split; [by apply Allocate_single; rewrite ?Hu|].
  split; [done|]. split; [done|].
  split.
  { apply Deallocate_found. cbn [allocate_post pool_allocations].
    by apply find_last_fresh. }
  cbn [withdrawnAmount pool_allocations users allocate_post].
  split; [done|]. split.
  - by apply filter_last_fresh.
  - by rewrite lookup_alter_eq, Hu.
Qed.

Lemma allocate_then_deallocate_credits_witness :
  let alloc := mk_entry "lending" "aave-v3-usdc" "Aave V3" None 100000000 100 10000000 in
  let req := mk_allocate_request None 100000000 [alloc] "lite" in
  exists row s1 out s2,
    Allocate 1%N req demo_store = (Created [row], s1)
    /\ total_balance <$> users s1 !! 1%N = Some 100000000
    /\ Deallocate 1%N (pa_id row) s1 = (OkJson out, s2)
    /\ total_balance <$> users s2 !! 1%N = Some 200000000.
Proof.
  intros alloc req.
  destruct (allocate_then_deallocate_credits 1%N req alloc demo_store
              (mk_user "0xabc" "lite" 100000000 0))
    as (row & s1 & out & s2 & Hrun & Husers & _ & Hback & _ & _ & Hbal).
  - reflexivity.
  - reflexivity.
  - unfold POOL_TYPES. repeat constructor.
  - unfold USER_MODES. repeat constructor.
  - reflexivity.
  - constructor.
  - exists row, s1, out, s2. split; [exact Hrun|]. split; [by rewrite Husers|].
    split; [exact Hback|exact Hbal].
Defined.

End PortfolioClaims.

(** ** The APY cache *)

Section ApyClaims.
Import ApyService.

Lemma getProtocolAPY_hit protocolId now stored_at w apyCache cached :
  apyCache !! protocolId = Some cached ->
  now - timestamp cached < CACHE_DURATION ->
  getProtocolAPY protocolId now stored_at w apyCache
  = mk_served (cached_apy cached) apyCache [] false.
Proof.
  intros Hc Hfresh. unfold getProtocolAPY. rewrite Hc.
  destruct (Z.ltb_spec (now - timestamp cached) CACHE_DURATION); [done|lia].
Qed.

Lemma getProtocolAPY_stale protocolId now stored_at w apyCache cached :
  apyCache !! protocolId = Some cached ->
  CACHE_DURATION <= now - timestamp cached ->
  getProtocolAPY protocolId now stored_at w apyCache
  = mk_served (fst (fetch protocolId w))
              (<[protocolId := mk_entry_of (fst (fetch protocolId w)) stored_at]> apyCache)
              (snd (fetch protocolId w)) true.
Proof.
  intros Hc Hstale. unfold getProtocolAPY. rewrite Hc.
  destruct (Z.ltb_spec (now - timestamp cached) CACHE_DURATION); [lia|].
  by destruct (fetch protocolId w).
Qed.

Lemma getProtocolAPY_absent protocolId now stored_at w apyCache :
  apyCache !! protocolId = None ->
  getProtocolAPY protocolId now stored_at w apyCache
  = mk_served (fst (fetch protocolId w))
              (<[protocolId := mk_entry_of (fst (fetch protocolId w)) stored_at]> apyCache)
              (snd (fetch protocolId w)) true.
Proof.
  intros Hc. unfold getProtocolAPY. rewrite Hc. by destruct (fetch protocolId w).
Qed.

(** Whatever a call did, the cache then holds the value it returned. *)
Lemma getProtocolAPY_caches protocolId now stored_at w apyCache :
  exists entry,
    cache_after (getProtocolAPY protocolId now stored_at w apyCache) !! protocolId
    = Some entry
    /\ cached_apy entry = returned (getProtocolAPY protocolId now stored_at w apyCache).
Proof.
  destruct (apyCache !! protocolId) as [cached|] eqn:Hc.
  - destruct (Z.lt_ge_cases (now - timestamp cached) CACHE_DURATION).
    + rewrite (getProtocolAPY_hit _ _ _ _ _ _ Hc) by done. by exists cached.
    + rewrite (getProtocolAPY_stale _ _ _ _ _ _ Hc) by done.
      eexists. cbn [cache_after returned]. by rewrite lookup_insert_eq.
  - rewrite getProtocolAPY_absent by done.
    eexists. cbn [cache_after returned]. by rewrite lookup_insert_eq.
Qed.

(** C8.  After a call for a protocol, the cache holds an entry for it with
    the value the call returned.  A second call made less than ten minutes
    after that entry's timestamp returns the same value, calls no fetcher,
    does not run the switch and leaves the cache as it is.  A second call
    made ten minutes or more after the timestamp runs the switch again:
    it returns what the protocol's fetcher yields now, having called it,
    and caches that value with the time of storing. *)
Theorem apy_cache_window protocolId now1 stored1 w1 apyCache now2 stored2 w2 :
  let first := getProtocolAPY protocolId now1 stored1 w1 apyCache in
  let second := getProtocolAPY protocolId now2 stored2 w2 (cache_after first) in
  exists entry,
    cache_after first !! protocolId = Some entry
    /\ cached_apy entry = returned first
    /\ (ran_switch first = true -> timestamp entry = stored1)
    /\ (now2 - timestamp entry < CACHE_DURATION ->
        returned second = returned first
        /\ fetcher_calls second = []
        /\ ran_switch second = false
        /\ cache_after second = cache_after first)
    /\ (CACHE_DURATION <= now2 - timestamp entry ->
        returned second = fst (fetch protocolId w2)
        /\ fetcher_calls second = snd (fetch protocolId w2)
        /\ ran_switch second = true
        /\ cache_after second !! protocolId
           = Some (mk_entry_of (returned second) stored2)
        /\ (forall other, other <> protocolId ->
              cache_after second !! other = cache_after first !! other)).
Proof.
  intros first second.
  destruct (getProtocolAPY_caches protocolId now1 stored1 w1 apyCache)
    as (entry & Hentry & Hvalue).
  fold first in Hentry, Hvalue. exists entry.
  split; [done|]. split; [done|]. split; [|split].
  - intros Hran. revert Hentry Hran. unfold first, getProtocolAPY.
    destruct (apyCache !! protocolId) as [cached|];
      [destruct (_ <? _)%Z; [discriminate|]|];
      destruct (fetch protocolId w1); cbn [cache_after ran_switch];
      rewrite lookup_insert_eq; by intros [= <-].
  - intros Hfresh. unfold second.
    rewrite (getProtocolAPY_hit _ _ _ _ _ _ Hentry Hfresh). by cbn.
  - intros Hstale. unfold second.
    rewrite (getProtocolAPY_stale _ _ _ _ _ _ Hentry Hstale).
    cbn [returned fetcher_calls ran_switch cache_after].
    rewrite lookup_insert_eq. do 4 (split; [done|]).
    intros other Hother. by rewrite lookup_insert_ne.
Qed.

Lemma apy_cache_window_witness :
  let w1 := mk_world (1 # 2) BeefyFailure in
  let w2 := mk_world (1 # 4) BeefyFailure in
  let first := getProtocolAPY "aave-v3-usdc" 1000 1005 w1 ∅ in
  (returned first == 11)%Q
  /\ fetcher_calls first = [FetchAave]
  /\ (let second := getProtocolAPY "aave-v3-usdc" 601004 601010 w2 (cache_after first) in
      returned second = returned first /\ fetcher_calls second = [])
  /\ (let second := getProtocolAPY "aave-v3-usdc" 601005 601010 w2 (cache_after first) in
      (returned second == 9)%Q /\ fetcher_calls second = [FetchAave]).
Proof.
  intros w1 w2 first.
  split; [reflexivity|]. split; [reflexivity|].
  destruct (apy_cache_window "aave-v3-usdc" 1000 1005 w1 ∅ 601004 601010 w2)
    as (entry & Hentry & _ & _ & Hfresh & _).
  destruct (apy_cache_window "aave-v3-usdc" 1000 1005 w1 ∅ 601005 601010 w2)
    as (entry' & Hentry' & _ & _ & _ & Hstale).
  vm_compute in Hentry. injection Hentry as <-.
  vm_compute in Hentry'. injection Hentry' as <-.
  split.
  - destruct Hfresh as (Hv & Hc & _); [unfold CACHE_DURATION; cbn; lia|]. split; [exact Hv|exact Hc].
  - destruct Hstale as (Hv & Hc & _); [unfold CACHE_DURATION; cbn; lia|]. split.
    + fold w1 first in Hv. unfold first in *. rewrite Hv. reflexivity.
    + exact Hc.
Defined.

End ApyClaims.

(** ** The handlers run on the example store *)

Section Scenarios.
Import Deposits Transactions Portfolio ApyService.
#[local] Existing Instance UTC.

Let deposit5 : deposit_request := mk_deposit_request None 5000000 None None.

(** Deposits on days 1, 2, 3 and 7, on a server on UTC: the streak row
    after each. *)
Example streak_days_1_2_3 :
  streaks (serve_all [(1%N, deposit5, on_day 1 0); (1%N, deposit5, on_day 2 0);
                      (1%N, deposit5, on_day 3 0)] demo_store) !! 1%N
  = Some (mk_streak 3 3 (Some 3) 3).
Proof. vm_compute. reflexivity. Qed.

Example streak_days_1_2_3_7 :
  streaks (serve_all [(1%N, deposit5, on_day 1 0); (1%N, deposit5, on_day 2 0);
                      (1%N, deposit5, on_day 3 0); (1%N, deposit5, on_day 7 0)]
                     demo_store) !! 1%N
  = Some (mk_streak 1 3 (Some 7) 4).
Proof. vm_compute. reflexivity. Qed.

(** The same days on a server on UTC+7: every stored date reads back as
    the day before, each deposit finds a gap of two days, and the streak
    never leaves 1. *)
Example streak_days_1_2_3_east :
  streaks (serve_all (zone := WIB)
             [(1%N, deposit5, on_day 1 0); (1%N, deposit5, on_day 2 0);
              (1%N, deposit5, on_day 3 0)] demo_store) !! 1%N
  = Some (mk_streak 1 1 (Some 3) 3).
Proof. vm_compute. reflexivity. Qed.

(** Two deposits on the same day, on UTC: one streak update, two ledger
    rows. *)
Example two_deposits_one_day :
  let s := serve_all [(1%N, deposit5, on_day 1 1000); (1%N, deposit5, on_day 1 2000)]
                     demo_store in
  streaks s !! 1%N = Some (mk_streak 1 1 (Some 1) 1)
  /\ total_balance <$> users s !! 1%N = Some 110000000
  /\ map tx_description (transactions s) = ["Deposit"; "Deposit"].
Proof. vm_compute. done. Qed.

(** On UTC+7 the second deposit of the day counts as one made the next
    day. *)
Example two_deposits_one_day_east :
  let s := serve_all (zone := WIB)
             [(1%N, deposit5, on_day 1 1000); (1%N, deposit5, on_day 1 2000)]
             demo_store in
  streaks s !! 1%N = Some (mk_streak 2 2 (Some 1) 2)
  /\ total_balance <$> users s !! 1%N = Some 110000000.
Proof. vm_compute. done. Qed.

(** A deposit that references a goal nobody created is rolled back. *)
Example deposit_to_unknown_goal :
  RecordDeposit 1%N (mk_deposit_request (Some 8%N) 5000000 None None) (on_day 1 0)
                demo_store
  = (ServerError "Failed to create deposit", demo_store).
Proof. vm_compute. reflexivity. Qed.

(** The ledger row of a deposit to a goal names the goal. *)
Example deposit_to_goal_description :
  map tx_description
      (transactions (serve demo_store
                       (1%N, mk_deposit_request (Some 7%N) 5000000 None None, on_day 1 0)))
  = ["Deposit to Car"].
Proof. vm_compute. reflexivity. Qed.

(** Validation comes first. *)
Example withdrawal_of_nothing :
  RecordWithdrawal 1%N (mk_withdrawal_request 0 None None None) demo_store
  = (BadRequest "Invalid withdrawal amount", demo_store).
Proof. reflexivity. Qed.

Example withdrawal_unknown_user :
  RecordWithdrawal 2%N (mk_withdrawal_request 1 None None None) demo_store
  = (NotFound "User not found", demo_store).
Proof. vm_compute. reflexivity. Qed.

(** One request served to its end before the other starts: one success. *)
Example withdrawals_back_to_back :
  let '(cs, s) := run [0; 0; 1; 1]%nat
                      (arrivals 2 1%N (mk_withdrawal_request 100000000 None None None))
                      demo_store in
  map succeeded cs = [true; false]
  /\ map insufficient cs = [false; true]
  /\ total_balance <$> users s !! 1%N = Some 0.
Proof. vm_compute. done. Qed.

(** 100 at 10%: 100 * 10 / 365 / 100 = 0.0273972..., stored as 0.027397. *)
Example first_allocation :
  map (fun r => (amount_allocated r, current_apy r, daily_earnings r))
      (pool_allocations
         (snd (Allocate 1%N
                 (mk_allocate_request None 100000000
                    [mk_entry "lending" "aave-v3-usdc" "Aave V3" None 100000000 100 10000000]
                    "lite")
                 demo_store)))
  = [(100000000, 10000000, 27397)].
Proof. vm_compute. reflexivity. Qed.

(** A pool type outside the CHECK list rolls the whole request back. *)
Example allocation_to_unknown_pool_type :
  Allocate 1%N
    (mk_allocate_request None 100000000
       [mk_entry "lending" "aave-v3-usdc" "Aave V3" None 60000000 60 10000000;
        mk_entry "bond" "t-bill" "T-Bill" None 40000000 40 5000000]
       "lite")
    demo_store
  = (ServerError "Failed to allocate deposit", demo_store).
Proof. vm_compute. reflexivity. Qed.

(** Removing somebody else's allocation is refused. *)
Example deallocate_foreign_row :
  Deallocate 2%N 50%N demo_portfolio = (NotFound "Allocation not found", demo_portfolio).
Proof. vm_compute. reflexivity. Qed.

(** Request amounts print back as written, up to 15 significant digits and
    often beyond; a numeral of 17 digits may not. *)
Example numerals_print_back :
  bound6 (received 5000000) = 5000000
  /\ bound6 (received 100000001) = 100000001
  /\ bound6 (received 123456789012345) = 123456789012345
  /\ bound6 (received 100000000000000000) = 100000000000000000
  /\ bound6 (received 99999999999999999) = 100000000000000000.
Proof. vm_compute. done. Qed.

(** Arithmetic in doubles: 0.1 + 0.2, and the daily earnings of 0.5 at
    0.1095%, which fall just below 0.0000015 and are stored as 0.000001. *)
Example doubles :
  (Number.to_text (Number.add (received 100000) (received 200000))
   == 30000000000000004 # 100000000000000000)%Q
  /\ daily (received 500000) (received 109500) = 1
  /\ daily_sql (to_Q 500000) (to_Q 109500) = 2.
Proof. vm_compute. done. Qed.

(** Rounding goes to the nearest millionth, ties away from zero. *)
Example store6_ties :
  store6 (5 # 10000000) = 1 /\ store6 (-5 # 10000000) = -1
  /\ store6 (4 # 10000000) = 0 /\ store6 (15 # 10000000) = 2.
Proof. vm_compute. done. Qed.

(** The Beefy fetcher: the API's figure when there is one, a range when the
    vault is missing from the reply, a constant (the double written 52.3)
    when the request fails. *)
Example beefy_sources :
  let reply v := if String.eqb v "base-usdc-stable" then Some (31 # 1) else None in
  fst (fetch "beefy-stable" (mk_world (1 # 2) (BeefyData reply))) = 31 # 1
  /\ (fst (fetch "beefy-volatile" (mk_world (1 # 2) (BeefyData reply))) == 105 # 2)%Q
  /\ Number.to_text (fst (fetch "beefy-volatile" (mk_world (1 # 2) BeefyFailure)))
     = 523 # 10
  /\ fst (fetch "unknown" (mk_world (1 # 2) BeefyFailure)) = 10 # 1.
Proof. vm_compute. done. Qed.

End Scenarios.

(** * More of the code *)

(** ** Earnings, status updates and the ledger *)

Section LedgerFacts.
Import Deposits Transactions Ledger.
Context {zone : Zone}.

Lemma earnings_tx_run userId req now s :
  is_Some (users s !! userId) ->
  fits_decimal_10_6 (growth_of (e_amount req)) = true ->
  earnings_tx userId req now s
  = Some (earnings_row userId req (uuid_seq s), earnings_post userId req now s).
Proof.
  intros Hu Hfits. unfold earnings_tx. tx_run.
  rewrite bool_decide_eq_true_2 by done. by rewrite Hfits.
Qed.

(** A growth figure that does not fit its column raises. *)
Lemma earnings_tx_overflow userId req now s :
  fits_decimal_10_6 (growth_of (e_amount req)) = false ->
  earnings_tx userId req now s = None.
Proof.
  intros Hfits. unfold earnings_tx. tx_run.
  destruct (bool_decide (is_Some (users s !! userId))); [|done]. by rewrite Hfits.
Qed.

Lemma earnings_tx_raises userId req now s :
  users s !! userId = None -> earnings_tx userId req now s = None.
Proof.
  intros Hu. unfold earnings_tx. tx_run.
  rewrite bool_decide_eq_false_2; [done|]. rewrite Hu. by intros [? ?].
Qed.

Lemma RecordEarnings_ok userId req now s :
  is_Some (users s !! userId) -> 0 < e_amount req ->
  fits_decimal_10_6 (growth_of (e_amount req)) = true ->
  RecordEarnings userId req now s
  = (Created (earnings_row userId req (uuid_seq s)), earnings_post userId req now s).
Proof.
  intros Hu Ha Hfits. unfold RecordEarnings.
  destruct (Z.leb_spec (e_amount req) 0); [lia|]. by rewrite earnings_tx_run.
Qed.

Lemma RecordEarnings_overflow userId req now s :
  0 < e_amount req ->
  fits_decimal_10_6 (growth_of (e_amount req)) = false ->
  RecordEarnings userId req now s = (ServerError "Failed to record earnings", s).
Proof.
  intros Ha Hfits. unfold RecordEarnings.
  destruct (Z.leb_spec (e_amount req) 0); [lia|]. by rewrite earnings_tx_overflow.
Qed.

(** The outcomes of the three handlers: accepted, with the store the
    request commits, or the store as it was. *)
Lemma RecordDeposit_outcome userId req now s :
  (is_Some (users s !! userId)
   /\ RecordDeposit userId req now s
      = (Created (deposit_row_of userId req now s), deposit_post userId req now s))
  \/ ((forall row, fst (RecordDeposit userId req now s) <> Created row)
      /\ snd (RecordDeposit userId req now s) = s).
Proof.
  unfold RecordDeposit.
  destruct (d_amount req <=? 0) eqn:Ha; [by right|].
  destruct (deposit_refs_ok userId req s) eqn:Hok.
  - left. split; [by apply refs_ok_user in Hok|]. by rewrite deposit_tx_ok.
  - right. by rewrite deposit_tx_raises.
Qed.

Lemma RecordWithdrawal_outcome userId req s :
  (is_Some (users s !! userId)
   /\ RecordWithdrawal userId req s
      = (Created (withdrawal_row userId req (uuid_seq s)), withdrawal_post userId req s))
  \/ ((forall row, fst (RecordWithdrawal userId req s) <> Created row)
      /\ snd (RecordWithdrawal userId req s) = s).
Proof.
  unfold RecordWithdrawal.
  destruct (w_amount req <=? 0); [by right|].
  destruct (users s !! userId) as [u|]; [|by right].
  destruct (Number.ltb _ _); [by right|].
  left. by rewrite withdrawal_tx_run.
Qed.

Lemma RecordEarnings_outcome userId req now s :
  (is_Some (users s !! userId)
   /\ RecordEarnings userId req now s
      = (Created (earnings_row userId req (uuid_seq s)), earnings_post userId req now s))
  \/ ((forall row, fst (RecordEarnings userId req now s) <> Created row)
      /\ snd (RecordEarnings userId req now s) = s).
Proof.
  unfold RecordEarnings.
  destruct (e_amount req <=? 0); [by right|].
  destruct (fits_decimal_10_6 (growth_of (e_amount req))) eqn:Hfits;
    [|right; by rewrite earnings_tx_overflow].
  destruct (users s !! userId) as [u|] eqn:Hu.
  - left. by rewrite earnings_tx_run.
  - right. by rewrite earnings_tx_raises.
Qed.

Lemma ledger_net_app userId t r :
  ledger_net userId (t ++ [r])
  = ledger_net userId t + (if (tx_user r =? userId)%N then signed r else 0).
Proof. induction t as [|r' t IH]; cbn [app ledger_net]; lia. Qed.

Lemma balance_of_alter f userId s s' u :
  users s' = alter f userId (users s) ->
  balance_of s' u
  = if decide (userId = u)
    then match users s !! u with Some r => total_balance (f r) | None => 0 end
    else balance_of s u.
Proof.
  intros Hs'. unfold balance_of. rewrite Hs', lookup_alter.
  case_decide; [subst|done]. by destruct (users s !! u).
Qed.

(** One event moves the balance by what it writes in the ledger. *)
Lemma handle_balanced s e u :
  balance_of (handle s e) u - ledger_net u (transactions (handle s e))
  = balance_of s u - ledger_net u (transactions s).
Proof.
  destruct e as [userId req now|userId req|userId req now]; cbn [handle].
  - destruct (RecordDeposit_outcome userId req now s) as [[[r Hr] ->]|[_ ->]]; [|done].
    cbn [snd]. rewrite (balance_of_alter (credit (d_amount req)) userId s) by done.
    cbn [deposit_post transactions]. rewrite ledger_net_app.
    cbn [ledger_row_of tx_user signed tx_kind tx_amount].
    case_decide as Hu.
    + subst u. rewrite N.eqb_refl. unfold balance_of. rewrite Hr. cbn. lia.
    + rewrite (proj2 (N.eqb_neq _ _) Hu). lia.
  - destruct (RecordWithdrawal_outcome userId req s) as [[[r Hr] ->]|[_ ->]]; [|done].
    cbn [snd]. rewrite (balance_of_alter (debit (w_amount req)) userId s) by done.
    cbn [withdrawal_post transactions]. rewrite ledger_net_app.
    cbn [withdrawal_row tx_user signed tx_kind tx_amount].
    case_decide as Hu.
    + subst u. rewrite N.eqb_refl. unfold balance_of. rewrite Hr. cbn. lia.
    + rewrite (proj2 (N.eqb_neq _ _) Hu). lia.
  - destruct (RecordEarnings_outcome userId req now s) as [[[r Hr] ->]|[_ ->]]; [|done].
    cbn [snd]. rewrite (balance_of_alter (credit_earnings (e_amount req)) userId s) by done.
    cbn [earnings_post transactions]. rewrite ledger_net_app.
    cbn [earnings_row tx_user signed tx_kind tx_amount].
    case_decide as Hu.
    + subst u. rewrite N.eqb_refl. unfold balance_of. rewrite Hr. cbn. lia.
    + rewrite (proj2 (N.eqb_neq _ _) Hu). lia.
Qed.

Lemma handle_all_snoc es e s : handle_all (es ++ [e]) s = handle (handle_all es s) e.
Proof. unfold handle_all. by rewrite fold_left_app. Qed.

Lemma posted_snoc posts p : posted (posts ++ [p]) = posted posts + e_amount (fst p).
Proof. unfold posted. induction posts as [|q posts IH]; cbn [app fold_right]; lia. Qed.

Lemma refs_ok_earnings_post userId req userId' req' now s :
  deposit_refs_ok userId req (earnings_post userId' req' now s)
  = deposit_refs_ok userId req s.
Proof.
  unfold deposit_refs_ok, earnings_post. cbn [users savings_goals payment_methods].
  by rewrite (bool_decide_ext _ _ (lookup_alter_is_Some _ _ _ _)).
Qed.

Lemma mark_post_growth a g : mark_has_deposit (post_growth a g) = post_growth a (mark_has_deposit g).
Proof. by destruct g. Qed.

(** X1.  Over any sequence of deposits, withdrawals and earnings postings,
    accepted or not, with amounts written in whole millionths, every user's
    total_balance moves by exactly the net of the ledger rows written for
    that user: deposits and earnings count positive, withdrawals negative. *)
Theorem balance_moves_with_ledger es s u :
  balance_of (handle_all es s) u - balance_of s u
  = ledger_net u (transactions (handle_all es s)) - ledger_net u (transactions s).
Proof.
  induction es as [|e es IH] using rev_ind; [cbn; lia|].
  rewrite handle_all_snoc.
  pose proof (handle_balanced (handle_all es s) e u). lia.
Qed.

(** X2.  Earnings postings of one day add up.  A posting whose growth
    figure, (amount / 1000) * 100 computed in doubles, does not fit
    DECIMAL(10,6) is refused with nothing written.  After any number of
    postings by a user on the same day whose growth figures fit,
    total_balance and total_earnings have both grown by the sum of the
    amounts, one ledger row was appended per posting, and the day's growth
    row holds the former earnings plus that sum, the has_deposit flag it
    had, and the growth figure of the last posting alone. *)
Theorem earnings_add_up userId s u day posts last_post :
  users s !! userId = Some u ->
  Forall (fun p => 0 < e_amount (fst p) /\ iso_day (snd p) = day
                   /\ fits_decimal_10_6 (growth_of (e_amount (fst p))) = true)
         (posts ++ [last_post]) ->
  let s' := handle_all (map (fun p => EarningsPosted userId (fst p) (snd p))
                            (posts ++ [last_post])) s in
  let before := default (mk_growth 0 0 false) (daily_growth s !! (userId, day)) in
  users s' !! userId
  = Some (mk_user (wallet_address u) (mode u)
                  (total_balance u + posted (posts ++ [last_post]))
                  (total_earnings u + posted (posts ++ [last_post])))
  /\ length (transactions s') = (length (transactions s) + length (posts ++ [last_post]))%nat
  /\ daily_growth s' !! (userId, day)
     = Some (mk_growth (growth_of (e_amount (fst last_post)))
                       (earnings before + posted (posts ++ [last_post]))
                       (has_deposit before))
  /\ (forall req now,
        0 < e_amount req ->
        fits_decimal_10_6 (growth_of (e_amount req)) = false ->
        RecordEarnings userId req now s' = (ServerError "Failed to record earnings", s')).
Proof.
  intros Hu Hall.
  assert (Hgen : forall l,
    Forall (fun p => 0 < e_amount (fst p) /\ iso_day (snd p) = day
                     /\ fits_decimal_10_6 (growth_of (e_amount (fst p))) = true) l ->
    let s' := handle_all (map (fun p => EarningsPosted userId (fst p) (snd p)) l) s in
    let before := default (mk_growth 0 0 false) (daily_growth s !! (userId, day)) in
    users s' !! userId
    = Some (mk_user (wallet_address u) (mode u)
                    (total_balance u + posted l) (total_earnings u + posted l))
    /\ length (transactions s') = (length (transactions s) + length l)%nat
    /\ (forall p l0, l = l0 ++ [p] ->
          daily_growth s' !! (userId, day)
          = Some (mk_growth (growth_of (e_amount (fst p)))
                            (earnings before + posted l) (has_deposit before)))
    /\ (l = [] -> daily_growth s' = daily_growth s)).
  { induction l as [|p l IH] using rev_ind; intros Hl.
    - cbn. split; [rewrite Hu, !Z.add_0_r; by destruct u|].
      split; [lia|]. split; [|done]. intros p l0 Hnil. by destruct l0.
    - apply Forall_app in Hl as [Hl Hp].
      apply Forall_singleton in Hp as (Hpa & Hpd & Hpf).
      destruct (IH Hl) as (IHu & IHt & IHg & IHnil). clear IH.
      cbv zeta. rewrite map_app. cbn [map]. rewrite handle_all_snoc. cbn [handle].
      set (s1 := handle_all (map (fun p => EarningsPosted userId (fst p) (snd p)) l) s) in *.
      rewrite RecordEarnings_ok by (by rewrite ?IHu). cbn [snd earnings_post users transactions daily_growth].
      rewrite lookup_alter_eq, IHu, posted_snoc, !length_app, IHt. cbn.
      split; [unfold credit_earnings; cbn; do 2 f_equal; lia|].
      split; [lia|]. split; [|by intros H; destruct l].
      intros p' l0 Heq. apply app_inj_tail in Heq as [<- <-].
      rewrite Hpd, lookup_partial_alter_eq.
      destruct l as [|q l _] using rev_ind.
      + rewrite (IHnil eq_refl). cbn.
        destruct (daily_growth s !! (userId, day)) as [g|]; cbn; do 2 f_equal; lia.
      + rewrite (IHg q l eq_refl). cbn. do 2 f_equal. lia. }
  destruct (Hgen (posts ++ [last_post]) Hall) as (H1 & H2 & H3 & _).
  split; [exact H1|]. split; [exact H2|].
  split; [exact (H3 last_post posts eq_refl)|].
  intros req now Ha Hfits. by apply RecordEarnings_overflow.
Qed.

(** X3.  An accepted deposit and an accepted earnings posting can be served
    in either order: the users, goals, streaks and daily-growth tables end
    up the same; in particular the deposit keeps the day's earnings and the
    posting keeps the day's has_deposit flag. *)
Theorem deposit_and_earnings_commute userId req now userId' req' now' s :
  0 < d_amount req -> deposit_refs_ok userId req s = true ->
  0 < e_amount req' -> is_Some (users s !! userId') ->
  let s1 := handle (handle s (Deposit userId req now)) (EarningsPosted userId' req' now') in
  let s2 := handle (handle s (EarningsPosted userId' req' now')) (Deposit userId req now) in
  users s1 = users s2
  /\ savings_goals s1 = savings_goals s2
  /\ streaks s1 = streaks s2
  /\ daily_growth s1 = daily_growth s2.
Proof.
  intros Ha Hok Ha' Hu' s1 s2. subst s1 s2. cbn [handle].
  rewrite (RecordDeposit_ok userId req now s) by done. cbn [snd].
  destruct (fits_decimal_10_6 (growth_of (e_amount req'))) eqn:Hfits; cycle 1.
  { rewrite !RecordEarnings_overflow by done. cbn [snd].
    by rewrite RecordDeposit_ok by done. }
  rewrite (RecordEarnings_ok userId' req' now' s) by done. cbn [snd].
  rewrite RecordEarnings_ok
    by (done || by cbn [deposit_post users]; apply lookup_alter_is_Some).
  rewrite RecordDeposit_ok by (done || by rewrite refs_ok_earnings_post).
  cbn [snd deposit_post earnings_post users savings_goals streaks daily_growth].
  split; [|split; [done|split; [done|]]].
  - apply map_eq. intros k. rewrite !lookup_alter.
    repeat case_decide; simplify_eq; try done.
    destruct (users s !! userId) as [u|]; [|done]. cbn.
    unfold credit, credit_earnings. cbn. do 2 f_equal; lia.
  - apply map_eq. intros k. rewrite !lookup_partial_alter.
    repeat case_decide; simplify_eq; try done.
    by rewrite mark_post_growth, H2.
Qed.

End LedgerFacts.

Section LedgerExamples.
Import Deposits Transactions Ledger.
#[local] Existing Instance UTC.

(** Postings of 2.5 and 1.5 on one day, and then one of 100000, whose
    growth figure 10000 does not fit; 1.000005 gives growth 0.100000, the
    double falling just below the tie. *)
Lemma earnings_add_up_witness :
  let s' := handle_all [EarningsPosted 1%N (mk_earnings_request 2500000 None) (on_day 19000 10);
                        EarningsPosted 1%N (mk_earnings_request 1500000 None) (on_day 19000 20)]
                       demo_store in
  total_balance <$> users s' !! 1%N = Some 104000000
  /\ daily_growth s' !! (1%N, 19000) = Some (mk_growth 150000 4000000 false)
  /\ RecordEarnings 1%N (mk_earnings_request 100000000000 None) (on_day 19000 30) s'
     = (ServerError "Failed to record earnings", s')
  /\ growth_of 1000005 = 100000.
Proof.
  destruct (earnings_add_up 1%N demo_store (mk_user "0xabc" "lite" 100000000 0) 19000
              [(mk_earnings_request 2500000 None, on_day 19000 10)]
              (mk_earnings_request 1500000 None, on_day 19000 20))
    as (Hu & _ & Hg & Hover).
  - reflexivity.
  - repeat (constructor; [repeat split; vm_compute; reflexivity|]). constructor.
  - split; [exact (f_equal (fmap total_balance) Hu)|].
    split; [etransitivity; [exact Hg|vm_compute; reflexivity]|].
    split; [|vm_compute; reflexivity].
    apply Hover; vm_compute; reflexivity.
Defined.

Lemma deposit_and_earnings_commute_witness :
  let dep := Deposit 1%N (mk_deposit_request None 5000000 None None) (on_day 19000 10) in
  let earn := EarningsPosted 1%N (mk_earnings_request 2500000 None) (on_day 19000 20) in
  daily_growth (handle (handle demo_store dep) earn)
  = daily_growth (handle (handle demo_store earn) dep)
  /\ daily_growth (handle (handle demo_store dep) earn) !! (1%N, 19000)
     = Some (mk_growth 250000 2500000 true).
Proof.
  intros dep earn.
  destruct (deposit_and_earnings_commute 1%N (mk_deposit_request None 5000000 None None)
              (on_day 19000 10) 1%N (mk_earnings_request 2500000 None) (on_day 19000 20)
              demo_store) as (_ & _ & _ & Hg).
  - cbn. lia.
  - vm_compute. reflexivity.
  - cbn. lia.
  - vm_compute. eexists. reflexivity.
  - split; [exact Hg|]. vm_compute. reflexivity.
Defined.

End LedgerExamples.

Section StatusFacts.
Import Ledger.

Lemma retag_transactions v id t :
  map (with_tx_status Pending)
      (map (fun r => if (tx_id r =? id)%N then with_tx_status v r else r) t)
  = map (with_tx_status Pending) t.
Proof.
  rewrite map_map. apply map_ext. intros r. by destruct (tx_id r =? id)%N.
Qed.

Lemma retag_deposits v id t :
  map (with_dep_status Pending)
      (map (fun r => if (dep_id r =? id)%N then with_dep_status v r else r) t)
  = map (with_dep_status Pending) t.
Proof.
  rewrite map_map. apply map_ext. intros r. by destruct (dep_id r =? id)%N.
Qed.

Lemma find_by_id_none {A} (f : A -> N) id (t : list A) :
  Forall (fun r => f r <> id) t -> List.find (fun r => (f r =? id)%N) t = None.
Proof.
  induction 1 as [|r t Hr _ IH]; [done|]. cbn [List.find].
  by rewrite (proj2 (N.eqb_neq _ _) Hr).
Qed.

Lemma find_by_id_some {A} (f : A -> N) id (t : list A) :
  Exists (fun r => f r = id) t ->
  exists r, List.find (fun r => (f r =? id)%N) t = Some r /\ f r = id.
Proof.
  induction 1 as [r t Hr|r t _ IH]; cbn [List.find].
  - exists r. by rewrite (proj2 (N.eqb_eq _ _) Hr).
  - destruct (N.eqb_spec (f r) id); [by exists r|done].
Qed.

Lemma UpdateTransactionStatus_cases id newStatus s :
  match parse_status newStatus with
  | None => UpdateTransactionStatus id newStatus s = (BadRequest "Invalid status", s)
  | Some v =>
      (Forall (fun row => tx_id row <> id) (transactions s) ->
       UpdateTransactionStatus id newStatus s = (NotFound "Transaction not found", s))
      /\ (Exists (fun row => tx_id row = id) (transactions s) ->
          UpdateTransactionStatus id newStatus s
          = (OkJson (id, v),
             set_transactions
               (map (fun row => if (tx_id row =? id)%N then with_tx_status v row else row)) s))
  end.
Proof.
  unfold UpdateTransactionStatus. destruct (parse_status newStatus) as [v|]; [|done].
  split.
  - intros Hall. by rewrite (find_by_id_none tx_id).
  - intros Hex. by destruct (find_by_id_some tx_id _ _ Hex) as (r & -> & ->).
Qed.

Lemma UpdateDepositStatus_cases id newStatus s :
  match parse_status newStatus with
  | None => UpdateDepositStatus id newStatus s = (BadRequest "Invalid status", s)
  | Some v =>
      (Forall (fun row => dep_id row <> id) (deposits s) ->
       UpdateDepositStatus id newStatus s = (NotFound "Deposit not found", s))
      /\ (Exists (fun row => dep_id row = id) (deposits s) ->
          UpdateDepositStatus id newStatus s
          = (OkJson (id, v),
             set_deposits
               (map (fun row => if (dep_id row =? id)%N then with_dep_status v row else row)) s))
  end.
Proof.
  unfold UpdateDepositStatus. destruct (parse_status newStatus) as [v|]; [|done].
  split.
  - intros Hall. by rewrite (find_by_id_none dep_id).
  - intros Hex. by destruct (find_by_id_some dep_id _ _ Hex) as (r & -> & ->).
Qed.

Lemma UpdateTransactionStatus_frame id newStatus s :
  let s1 := snd (UpdateTransactionStatus id newStatus s) in
  users s1 = users s /\ savings_goals s1 = savings_goals s
  /\ streaks s1 = streaks s /\ daily_growth s1 = daily_growth s
  /\ deposits s1 = deposits s
  /\ map (with_tx_status Pending) (transactions s1)
     = map (with_tx_status Pending) (transactions s).
Proof.
  unfold UpdateTransactionStatus. destruct (parse_status newStatus) as [v|]; [|done].
  destruct (List.find _ _); [|done]. cbn. by rewrite retag_transactions.
Qed.

Lemma UpdateDepositStatus_frame id newStatus s :
  let s2 := snd (UpdateDepositStatus id newStatus s) in
  users s2 = users s /\ savings_goals s2 = savings_goals s
  /\ streaks s2 = streaks s /\ daily_growth s2 = daily_growth s
  /\ transactions s2 = transactions s
  /\ map (with_dep_status Pending) (deposits s2)
     = map (with_dep_status Pending) (deposits s).
Proof.
  unfold UpdateDepositStatus. destruct (parse_status newStatus) as [v|]; [|done].
  destruct (List.find _ _); [|done]. cbn. by rewrite retag_deposits.
Qed.

(** X4.  A status update of a ledger row or of a deposit is a change of
    that one column: whatever the request, the users, goals, streaks and
    daily-growth tables are left as they are (so no balance or goal
    progress is reverted when a confirmed row is marked failed), and every
    row keeps all its other columns.  An accepted update sets the status of
    the rows with the given id and leaves the other rows alone; a status
    outside pending/confirmed/failed is answered "Invalid status" and an
    unknown id "not found", both without a write. *)
Theorem status_updates_touch_status_only id newStatus s :
  let '(r1, s1) := UpdateTransactionStatus id newStatus s in
  let '(r2, s2) := UpdateDepositStatus id newStatus s in
  (users s1 = users s /\ savings_goals s1 = savings_goals s
   /\ streaks s1 = streaks s /\ daily_growth s1 = daily_growth s
   /\ deposits s1 = deposits s
   /\ map (with_tx_status Pending) (transactions s1)
      = map (with_tx_status Pending) (transactions s))
  /\ (users s2 = users s /\ savings_goals s2 = savings_goals s
      /\ streaks s2 = streaks s /\ daily_growth s2 = daily_growth s
      /\ transactions s2 = transactions s
      /\ map (with_dep_status Pending) (deposits s2)
         = map (with_dep_status Pending) (deposits s))
  /\ (parse_status newStatus = None ->
      r1 = BadRequest "Invalid status" /\ s1 = s
      /\ r2 = BadRequest "Invalid status" /\ s2 = s)
  /\ (forall v, parse_status newStatus = Some v ->
      (Forall (fun row => tx_id row <> id) (transactions s) ->
       r1 = NotFound "Transaction not found" /\ s1 = s)
      /\ (Forall (fun row => dep_id row <> id) (deposits s) ->
          r2 = NotFound "Deposit not found" /\ s2 = s)
      /\ (Exists (fun row => tx_id row = id) (transactions s) ->
          r1 = OkJson (id, v)
          /\ transactions s1
             = map (fun row => if (tx_id row =? id)%N then with_tx_status v row else row)
                   (transactions s))
      /\ (Exists (fun row => dep_id row = id) (deposits s) ->
          r2 = OkJson (id, v)
          /\ deposits s2
             = map (fun row => if (dep_id row =? id)%N then with_dep_status v row else row)
                   (deposits s))).
Proof.
  pose proof (UpdateTransactionStatus_frame id newStatus s) as Hf1.
  pose proof (UpdateDepositStatus_frame id newStatus s) as Hf2.
  pose proof (UpdateTransactionStatus_cases id newStatus s) as Hc1.
  pose proof (UpdateDepositStatus_cases id newStatus s) as Hc2.
  destruct (UpdateTransactionStatus id newStatus s) as [r1 s1].
  destruct (UpdateDepositStatus id newStatus s) as [r2 s2].
  cbn [snd] in Hf1, Hf2.
  split; [exact Hf1|]. split; [exact Hf2|].
  destruct (parse_status newStatus) as [v|].
  - split; [discriminate|]. intros v' [= <-]. destruct Hc1 as [Hn1 He1], Hc2 as [Hn2 He2].
    split; [|split; [|split]].
    + intros H. by injection (Hn1 H) as -> ->.
    + intros H. by injection (Hn2 H) as -> ->.
    + intros H. by injection (He1 H) as -> ->.
    + intros H. by injection (He2 H) as -> ->.
  - split; [|discriminate]. intros _.
    by injection Hc1 as -> ->; injection Hc2 as -> ->.
Qed.

End StatusFacts.

(** ** The streak routes *)

Section StreakFacts.
Import Deposits Streaks.
Context {zone : Zone}.

Lemma local_day_midnight day : local_day (local_midnight day) = day.
Proof.
  unfold local_day, local_midnight, date_ms.
  replace (day * MS_PER_DAY - utc_offset + utc_offset) with (day * MS_PER_DAY) by ring.
  apply Z.div_mul. unfold MS_PER_DAY. lia.
Qed.

(** The view counts days of the server's local calendar. *)
Lemma daysSinceLastDeposit_spec now l : daysSinceLastDeposit now l = local_day now - l.
Proof.
  unfold daysSinceLastDeposit, setHours0. rewrite local_day_midnight.
  unfold local_midnight, date_ms.
  replace (local_day now * MS_PER_DAY - utc_offset - (l * MS_PER_DAY - utc_offset))
    with ((local_day now - l) * MS_PER_DAY) by ring.
  apply Z.div_mul. unfold MS_PER_DAY. lia.
Qed.

(** The check route writes the streak table exactly as the streak block of
    the deposit handler does. *)
Lemma CheckStreak_streaks userId now s :
  streaks (snd (CheckStreak userId now s))
  = streaks_after userId (iso_day now) (streaks s).
Proof.
  unfold CheckStreak, streaks_after, streak_step.
  destruct (streaks s !! userId) as [streak|]; [|done].
  destruct (last_deposit_date streak) as [l|]; [|done].
  cbn. by destruct (read_date l =? iso_day now).
Qed.

Lemma CheckStreak_frame userId now s :
  let s' := snd (CheckStreak userId now s) in
  users s' = users s /\ transactions s' = transactions s
  /\ daily_growth s' = daily_growth s /\ savings_goals s' = savings_goals s
  /\ payment_methods s' = payment_methods s.
Proof.
  unfold CheckStreak. destruct (streaks s !! userId) as [streak|]; [|done].
  by destruct (match read_date <$> last_deposit_date streak with
               | Some l => _ | None => _ end).
Qed.

Lemma GetStreak_row userId now s streak :
  streaks s !! userId = Some streak ->
  GetStreak userId now s
  = if decays now streak
    then (OkJson (zero_current streak), set_streaks (<[userId := zero_current streak]>) s)
    else (OkJson streak, s).
Proof.
  intros Hs. unfold GetStreak, decays. rewrite Hs.
  destruct (last_deposit_date streak) as [l|]; [|done].
  by rewrite daysSinceLastDeposit_spec.
Qed.

Lemma decays_zero_current now streak : decays now (zero_current streak) = false.
Proof.
  unfold decays. cbn. destruct (last_deposit_date streak); [|done].
  by rewrite andb_false_r.
Qed.

(** A decayed row and the row it came from give the same row at the next
    deposit, provided the clock has not gone back. *)
Lemma streak_step_after_decay now today streak :
  decays now streak = true -> iso_day now <= today ->
  streak_step today (zero_current streak) = streak_step today streak.
Proof.
  unfold decays, streak_step. cbn.
  destruct (last_deposit_date streak) as [l|]; [|discriminate].
  intros [Hgap _]%andb_prop Hle. apply Z.ltb_lt in Hgap. cbn.
  rewrite daysDiff_spec.
  assert (Hread : 1 < today - read_date l).
  { destruct (Z.le_gt_cases utc_offset 0) as [Hw|He].
    - rewrite read_date_west by done. pose proof (local_day_west now Hw). lia.
    - rewrite read_date_east by done.
      pose proof (local_day_east now (Z.lt_le_incl _ _ He)). lia. }
  destruct (Z.eqb_spec (read_date l) today); [lia|]. cbn.
  destruct (Z.eqb_spec (today - read_date l) 1); [lia|].
  destruct (Z.ltb_spec 1 (today - read_date l)); [done|lia].
Qed.

(** What one event can do to the user's row: nothing, zero current_streak,
    or the streak step of some day. *)
Lemma streak_handle_row userId s e streak :
  streaks s !! userId = Some streak ->
  exists streak',
    streaks (streak_handle userId s e) !! userId = Some streak'
    /\ (streak' = streak \/ streak' = zero_current streak
        \/ exists today, streak_step today streak = Some streak').
Proof.
  intros Hs. destruct e as [req now|now|now|]; cbn [streak_handle].
  - destruct (RecordDeposit_cases userId req now s) as [-> | ->]; [|eauto].
    cbn [snd deposit_post streaks]. rewrite (streaks_after_lookup _ _ _ _ Hs).
    destruct (streak_step (iso_day now) streak) eqn:Hstep; cbn; eauto 6.
  - rewrite (GetStreak_row _ _ _ _ Hs). destruct (decays now streak); cbn; [|eauto].
    rewrite lookup_insert_eq. eauto.
  - rewrite CheckStreak_streaks, (streaks_after_lookup _ _ _ _ Hs).
    destruct (streak_step (iso_day now) streak) eqn:Hstep; cbn; eauto 6.
  - unfold ResetStreak. rewrite Hs. cbn. rewrite lookup_insert_eq. eauto.
Qed.

Lemma streak_step_keeps_order today streak streak' :
  ordered streak -> streak_step today streak = Some streak' ->
  ordered streak'
  /\ longest_streak streak <= longest_streak streak'
  /\ total_deposits streak <= total_deposits streak'.
Proof.
  intros [Hcur Htot] Hstep.
  pose proof (streak_step_ordered _ _ _ Hcur Hstep).
  apply streak_step_writes in Hstep as (_ & Hmax & Htotal).
  unfold ordered. lia.
Qed.

(** X5.  The check route and the deposit route agree on the streak: a check
    at some time leaves the streak table exactly as an accepted deposit at
    that time would.  It answers "already updated" and writes nothing when
    it reads the row's last_deposit_date back as today's date; otherwise it
    rewrites the row with the streak step and total_deposits + 1.  Unlike a
    deposit, it touches nothing else: no balance, no ledger row, no
    daily-growth row. *)
Theorem check_counts_like_a_deposit userId req now s :
  0 < d_amount req ->
  deposit_refs_ok userId req s = true ->
  streaks (snd (CheckStreak userId now s))
  = streaks (snd (RecordDeposit userId req now s))
  /\ users (snd (CheckStreak userId now s)) = users s
  /\ transactions (snd (CheckStreak userId now s)) = transactions s
  /\ daily_growth (snd (CheckStreak userId now s)) = daily_growth s
  /\ (forall streak, streaks s !! userId = Some streak ->
      read_date <$> last_deposit_date streak = Some (iso_day now) ->
      CheckStreak userId now s = (OkJson ("Streak already updated for today", streak), s))
  /\ (forall streak, streaks s !! userId = Some streak ->
      read_date <$> last_deposit_date streak <> Some (iso_day now) ->
      exists streak',
        streak_step (iso_day now) streak = Some streak'
        /\ fst (CheckStreak userId now s) = OkJson ("Streak updated successfully", streak')
        /\ total_deposits streak' = total_deposits streak + 1).
Proof.
  intros Ha Hok.
  destruct (CheckStreak_frame userId now s) as (Hu & Ht & Hg & _).
  split; [by rewrite CheckStreak_streaks, RecordDeposit_ok|].
  do 3 (split; [done|]). split.
  - intros streak Hs Hl. unfold CheckStreak. rewrite Hs, Hl. by rewrite Z.eqb_refl.
  - intros streak Hs Hl. unfold CheckStreak, streak_step. rewrite Hs.
    destruct (last_deposit_date streak) as [l|]; cbn in *.
    + destruct (Z.eqb_spec (read_date l) (iso_day now)); [congruence|]. cbn. eauto.
    + eauto.
Qed.

Lemma streak_handle_all_snoc userId es e s :
  streak_handle_all userId (es ++ [e]) s
  = streak_handle userId (streak_handle_all userId es s) e.
Proof. unfold streak_handle_all. by rewrite fold_left_app. Qed.

(** At or west of UTC, no event advances a row on the day it is stamped. *)
Lemma streak_handle_same_day userId s e streak day :
  utc_offset <= 0 ->
  streaks s !! userId = Some streak ->
  last_deposit_date streak = Some day ->
  on_the_day day (event_time e) ->
  streaks (streak_handle userId s e) !! userId
  = Some (match e with ResetByHand => zero_current streak | _ => streak end).
Proof.
  intros Hw Hs Hl Hday.
  assert (Hread : read_date <$> last_deposit_date streak = Some day)
    by (by rewrite Hl; cbn; rewrite read_date_west).
  destruct e as [req now|now|now|]; cbn in Hday; cbn [streak_handle].
  - destruct (RecordDeposit_cases userId req now s) as [-> | ->]; [|done].
    cbn [snd deposit_post streaks]. rewrite (streaks_after_lookup _ _ _ _ Hs).
    by rewrite streak_step_same_day by congruence.
  - rewrite (GetStreak_row _ _ _ _ Hs). unfold decays. rewrite Hl.
    pose proof (local_day_west now Hw).
    destruct (Z.ltb_spec 1 (local_day now - day)); [lia|done].
  - rewrite CheckStreak_streaks, (streaks_after_lookup _ _ _ _ Hs).
    by rewrite streak_step_same_day by congruence.
  - unfold ResetStreak. rewrite Hs. cbn. by rewrite lookup_insert_eq.
Qed.

(** East of UTC, a check on the day a row is stamped advances it. *)
Lemma CheckStreak_same_day_east userId now s streak :
  0 < utc_offset ->
  streaks s !! userId = Some streak ->
  last_deposit_date streak = Some (iso_day now) ->
  streaks (snd (CheckStreak userId now s)) !! userId
  = Some (mk_streak (current_streak streak + 1)
                    (Z.max (current_streak streak + 1) (longest_streak streak))
                    (Some (iso_day now)) (total_deposits streak + 1)).
Proof.
  intros He Hs Hl.
  rewrite CheckStreak_streaks, (streaks_after_lookup _ _ _ _ Hs).
  by rewrite (streak_step_next_day _ _ _ Hl) by (by apply read_date_east).
Qed.

(** X6.  How often a streak advances on the day its row is stamped depends
    on the server's time zone.  At or west of UTC, deposits, checks, views
    and manual resets made on that day leave longest_streak,
    last_deposit_date and total_deposits as they are, and current_streak is
    either kept or, after a reset, 0: the streak advances at most once a
    day.  East of UTC the stamp reads back as the day before, so every
    accepted deposit and every check made on that day adds 1 to
    current_streak and to total_deposits; n checks in a row add n. *)
Theorem advances_on_the_stamped_day userId s streak day :
  streaks s !! userId = Some streak ->
  last_deposit_date streak = Some day ->
  (utc_offset <= 0 ->
   forall es, Forall (fun e => on_the_day day (event_time e)) es ->
   exists streak',
     streaks (streak_handle_all userId es s) !! userId = Some streak'
     /\ longest_streak streak' = longest_streak streak
     /\ last_deposit_date streak' = Some day
     /\ total_deposits streak' = total_deposits streak
     /\ (current_streak streak' = current_streak streak
         \/ current_streak streak' = 0 /\ In ResetByHand es))
  /\ (0 < utc_offset ->
      (forall req now, iso_day now = day -> 0 < d_amount req ->
         deposit_refs_ok userId req s = true ->
         streaks (streak_handle userId s (Deposited req now)) !! userId
         = Some (mk_streak (current_streak streak + 1)
                           (Z.max (current_streak streak + 1) (longest_streak streak))
                           (Some day) (total_deposits streak + 1)))
      /\ (forall nows, Forall (fun now => iso_day now = day) nows ->
          exists streak',
            streaks (streak_handle_all userId (CheckedIn <$> nows) s) !! userId
            = Some streak'
            /\ current_streak streak' = current_streak streak + Z.of_nat (length nows)
            /\ total_deposits streak' = total_deposits streak + Z.of_nat (length nows)
            /\ last_deposit_date streak' = Some day)).
Proof.
  intros Hs Hl. split.
  - intros Hw es Hes. induction es as [|e es IH] using rev_ind.
    + exists streak. cbn. eauto 6.
    + apply Forall_app in Hes as [Hes He]. rewrite Forall_singleton in He.
      destruct (IH Hes) as (streak1 & Hs1 & Hlong & Hlast & Htot & Hcur).
      rewrite streak_handle_all_snoc.
      rewrite (streak_handle_same_day _ _ _ streak1 day) by done.
      eexists. split; [done|].
      assert (Hkept : current_streak streak1 = current_streak streak
                      \/ current_streak streak1 = 0 /\ In ResetByHand (es ++ [e])).
      { destruct Hcur as [?|[? ?]]; [by left|right]. split; [done|].
        apply in_or_app. by left. }
      destruct e; cbn; try done.
      do 3 (split; [done|]). right. split; [done|]. apply in_or_app. right. by left.
  - intros He. split.
    + intros req now Hday Ha Hok. cbn [streak_handle].
      rewrite RecordDeposit_ok by done. cbn [snd deposit_post streaks].
      rewrite (streaks_after_lookup _ _ _ _ Hs), Hday.
      by rewrite (streak_step_next_day _ _ _ Hl) by (by apply read_date_east).
    + intros nows Hnows. induction nows as [|now nows IH] using rev_ind.
      * exists streak. cbn. split; [done|]. split; [lia|]. split; [lia|done].
      * apply Forall_app in Hnows as [Hnows Hnow]. rewrite Forall_singleton in Hnow.
        destruct (IH Hnows) as (streak1 & Hs1 & Hcur & Htot & Hlast).
        rewrite fmap_app. cbn [fmap list_fmap]. rewrite streak_handle_all_snoc.
        cbn [streak_handle]. rewrite <- Hnow in Hlast.
        rewrite (CheckStreak_same_day_east _ _ _ _ He Hs1 Hlast).
        eexists. split; [done|]. cbn. rewrite length_app. cbn.
        split; [lia|]. split; [lia|by rewrite Hnow].
Qed.

(** X7.  Viewing the streak decays it lazily and once.  The view counts
    days of the server's local calendar, from the stored last_deposit_date
    to the local day of the clock reading: it zeroes current_streak exactly
    when that count is more than one and current_streak is positive.  It
    never changes longest_streak, last_deposit_date or total_deposits, it
    touches no other user's row, and a second view at the same time reports
    the same row and writes nothing. *)
Theorem view_decays_once userId now s streak :
  streaks s !! userId = Some streak ->
  let shown := if decays now streak then zero_current streak else streak in
  let s' := snd (GetStreak userId now s) in
  fst (GetStreak userId now s) = OkJson shown
  /\ streaks s' !! userId = Some shown
  /\ (forall v, v <> userId -> streaks s' !! v = streaks s !! v)
  /\ users s' = users s /\ transactions s' = transactions s
  /\ longest_streak shown = longest_streak streak
  /\ last_deposit_date shown = last_deposit_date streak
  /\ total_deposits shown = total_deposits streak
  /\ (decays now streak = true <->
      exists l, last_deposit_date streak = Some l
                /\ 1 < local_day now - l /\ 0 < current_streak streak)
  /\ (current_streak shown = 0
      \/ current_streak shown = current_streak streak
         /\ forall l, last_deposit_date streak = Some l -> local_day now - l <= 1
                      \/ current_streak streak <= 0)
  /\ GetStreak userId now s' = (OkJson shown, s').
Proof.
  intros Hs shown s'.
  assert (Hiff : decays now streak = true <->
                 exists l, last_deposit_date streak = Some l
                           /\ 1 < local_day now - l /\ 0 < current_streak streak).
  { unfold decays. destruct (last_deposit_date streak) as [l|].
    - rewrite andb_true_iff, !Z.ltb_lt. split.
      + intros [? ?]. by exists l.
      + by intros (l' & [= <-] & ? & ?).
    - split; [discriminate|]. by intros (l' & [=] & _). }
  subst s'. rewrite (GetStreak_row _ _ _ _ Hs).
  subst shown. destruct (decays now streak) eqn:Hd; cbn [fst snd].
  - split; [done|]. cbn [set_streaks streaks users transactions].
    rewrite lookup_insert_eq. split; [done|].
    split; [by intros v Hv; rewrite lookup_insert_ne|].
    do 5 (split; [done|]). split; [done|]. split; [by left|].
    rewrite (GetStreak_row _ _ _ (zero_current streak))
      by (cbn; by rewrite lookup_insert_eq).
    by rewrite decays_zero_current.
  - split; [done|]. split; [done|]. split; [done|]. do 5 (split; [done|]).
    split; [done|]. split.
    + right. split; [done|]. intros l Hl. unfold decays in Hd. rewrite Hl in Hd.
      apply andb_false_iff in Hd as [Hd|Hd]; [left|right].
      * apply Z.ltb_ge in Hd. lia.
      * by apply Z.ltb_ge in Hd.
    + rewrite (GetStreak_row _ _ _ _ Hs). by rewrite Hd.
Qed.

(** X8.  A view never changes what the next deposit writes: for a user with
    a streak row, an accepted deposit made after a view (the clock not
    having gone back) leaves the same streak row as the same deposit made
    without the view, decayed or not. *)
Theorem view_then_deposit userId now req now' s streak :
  streaks s !! userId = Some streak ->
  iso_day now <= iso_day now' ->
  0 < d_amount req ->
  deposit_refs_ok userId req s = true ->
  exists d d' s1 s2,
    RecordDeposit userId req now' (snd (GetStreak userId now s)) = (Created d, s1)
    /\ RecordDeposit userId req now' s = (Created d', s2)
    /\ streaks s1 = streaks s2
    /\ users s1 = users s2.
Proof.
  intros Hs Hle Ha Hok. rewrite (GetStreak_row _ _ _ _ Hs).
  destruct (decays now streak) eqn:Hd; cbn [snd].
  - eexists _, _, _, _. split; [by apply RecordDeposit_ok|].
    split; [by apply RecordDeposit_ok|].
    cbn [deposit_post streaks users set_streaks]. split; [|done].
    unfold streaks_after. rewrite lookup_insert_eq, Hs.
    rewrite (streak_step_after_decay now) by done.
    destruct (streak_step (iso_day now') streak) as [streak'|] eqn:Hstep.
    + by rewrite insert_insert_eq.
    + apply streak_step_skips in Hstep. unfold decays in Hd.
      destruct (last_deposit_date streak) as [l|]; [|done].
      cbn in Hstep. injection Hstep as Hstep.
      apply andb_prop in Hd as [Hgap _]. apply Z.ltb_lt in Hgap.
      destruct (Z.le_gt_cases utc_offset 0) as [Hw|He].
      * rewrite read_date_west in Hstep by done.
        pose proof (local_day_west now Hw). lia.
      * rewrite read_date_east in Hstep by done.
        pose proof (local_day_east now (Z.lt_le_incl _ _ He)). lia.
  - eexists _, _, _, _. split; [by apply RecordDeposit_ok|].
    split; [by apply RecordDeposit_ok|]. done.
Qed.

(** X9.  The streak counters stay ordered and never go back: starting from
    a row with 0 <= current_streak <= longest_streak and total_deposits >= 0
    (the row of a new account is one), after any sequence of deposits,
    checks, views and manual resets the user still has a row, it is still
    ordered, and longest_streak and total_deposits are at least what they
    were. *)
Theorem streak_counters_stay_ordered userId s streak es :
  streaks s !! userId = Some streak ->
  ordered streak ->
  exists streak',
    streaks (streak_handle_all userId es s) !! userId = Some streak'
    /\ ordered streak'
    /\ longest_streak streak <= longest_streak streak'
    /\ total_deposits streak <= total_deposits streak'.
Proof.
  intros Hs Hord. induction es as [|e es IH] using rev_ind.
  - exists streak. cbn. split; [done|]. split; [done|lia].
  - destruct IH as (streak1 & Hs1 & Hord1 & Hlong & Htot).
    rewrite streak_handle_all_snoc.
    destruct (streak_handle_row userId _ e streak1 Hs1)
      as (streak' & Hs' & [Heq|[Heq|[today Hstep]]]).
    + exists streak'. split; [done|]. rewrite Heq. split; [done|lia].
    + exists streak'. split; [done|]. rewrite Heq.
      destruct Hord1 as [? ?]. unfold ordered. cbn. repeat split; lia.
    + destruct (streak_step_keeps_order _ _ _ Hord1 Hstep) as (? & ? & ?).
      exists streak'. split; [done|]. split; [done|lia].
Qed.

(** X10.  Only a view creates a streak row.  For a user without one,
    deposits (by anyone) never create it, a check and a reset answer
    "not found", and the first view creates the row of a new account,
    all zero, whatever was deposited before; for an unknown user the
    view fails and writes nothing. *)
Theorem streak_row_comes_from_view userId calls now s :
  streaks s !! userId = None ->
  let s' := serve_all calls s in
  streaks s' !! userId = None
  /\ CheckStreak userId now s' = (NotFound "Streak record not found", s')
  /\ ResetStreak userId s' = (NotFound "Streak record not found", s')
  /\ (is_Some (users s !! userId) ->
      GetStreak userId now s'
      = (OkJson (mk_streak 0 0 None 0), set_streaks (<[userId := mk_streak 0 0 None 0]>) s'))
  /\ (users s !! userId = None ->
      GetStreak userId now s' = (ServerError "Failed to get streak", s')).
Proof.
  intros Hs s'.
  assert (Hnone : streaks s' !! userId = None).
  { subst s'. revert s Hs. induction calls as [|c calls IH]; intros s Hs; [done|].
    cbn [serve_all fold_left]. apply IH. destruct c as [[u req] t]. unfold serve.
    destruct (RecordDeposit_cases u req t s) as [-> | ->]; [|done].
    cbn [snd deposit_post streaks]. unfold streaks_after.
    destruct (streaks s !! u) as [r|] eqn:Hr; [|done].
    destruct (streak_step (iso_day t) r); [|done].
    rewrite lookup_insert_ne; [done|]. intros ->. congruence. }
  split; [done|]. unfold CheckStreak, ResetStreak, GetStreak. rewrite Hnone.
  split; [done|]. split; [done|]. split.
  - intros Hu. by rewrite bool_decide_eq_true_2 by (by apply serve_all_keeps_user).
  - intros Hu. rewrite bool_decide_eq_false_2; [done|].
    intros H. apply serve_all_keeps_user in H. rewrite Hu in H. by destruct H.
Qed.

End StreakFacts.

Section StreakExamples.
Import Deposits Streaks.
#[local] Existing Instance UTC.

Lemma check_counts_like_a_deposit_witness :
  streaks (snd (CheckStreak 1%N (on_day 19000 5) demo_store)) !! 1%N
  = Some (mk_streak 1 1 (Some 19000) 1)
  /\ users (snd (CheckStreak 1%N (on_day 19000 5) demo_store)) = users demo_store.
Proof.
  destruct (check_counts_like_a_deposit 1%N (mk_deposit_request None 5000000 None None)
              (on_day 19000 5) demo_store) as (Hs & Hu & _).
  - cbn. lia.
  - vm_compute. reflexivity.
  - split; [|exact Hu]. rewrite Hs. vm_compute. reflexivity.
Defined.

(** A row stamped on day 19000 and four more requests that day: in UTC
    the counters stay at 1; in UTC+7 three checks take them to 4. *)
Lemma advances_on_the_stamped_day_witness :
  let req := mk_deposit_request None 5000000 None None in
  (let s1 := deposit_post (zone := UTC) 1%N req (on_day 19000 0) demo_store in
   exists streak',
     streaks (streak_handle_all (zone := UTC) 1%N
                [Deposited req (on_day 19000 10); CheckedIn (on_day 19000 20);
                 Viewed (on_day 19000 30); Deposited req (on_day 19000 40)] s1) !! 1%N
     = Some streak'
     /\ total_deposits streak' = 1 /\ current_streak streak' = 1)
  /\ (let s1 := deposit_post (zone := WIB) 1%N req (on_day 19000 0) demo_store in
      exists streak',
        streaks (streak_handle_all (zone := WIB) 1%N
                   (CheckedIn <$> [on_day 19000 10; on_day 19000 20; on_day 19000 30])
                   s1) !! 1%N
        = Some streak'
        /\ current_streak streak' = 1 + 3 /\ total_deposits streak' = 1 + 3).
Proof.
  intros req. split.
  - intros s1.
    destruct (advances_on_the_stamped_day (zone := UTC) 1%N s1
                (mk_streak 1 1 (Some 19000) 1) 19000) as [Hwest _].
    + vm_compute. reflexivity.
    + reflexivity.
    + destruct (Hwest ltac:(cbn; lia)
                  [Deposited req (on_day 19000 10); CheckedIn (on_day 19000 20);
                   Viewed (on_day 19000 30); Deposited req (on_day 19000 40)])
        as (streak' & Hs & _ & _ & Htot & Hcur).
      * repeat constructor.
      * exists streak'. split; [exact Hs|]. split; [exact Htot|].
        destruct Hcur as [Hc|[_ Hin]]; [exact Hc|].
        cbn in Hin. by repeat destruct Hin as [Hin|Hin].
  - intros s1.
    destruct (advances_on_the_stamped_day (zone := WIB) 1%N s1
                (mk_streak 1 1 (Some 19000) 1) 19000) as [_ Heast].
    + vm_compute. reflexivity.
    + reflexivity.
    + destruct (Heast eq_refl) as [_ Hchecks].
      destruct (Hchecks [on_day 19000 10; on_day 19000 20; on_day 19000 30])
        as (streak' & Hs & Hcur & Htot & _).
      * repeat constructor.
      * exists streak'. split; [exact Hs|]. split; [exact Hcur|exact Htot].
Defined.

(** A row stamped on day 19000: in UTC a view at 18:00 on day 19001 shows
    it as it is and a view on day 19002 shows it decayed; in UTC+7 the view
    at 18:00 UTC on day 19001 falls on local day 19002 and decays it. *)
Lemma view_decays_once_witness :
  let req := mk_deposit_request None 5000000 None None in
  (let s1 := deposit_post (zone := UTC) 1%N req (on_day 19000 0) demo_store in
   fst (GetStreak (zone := UTC) 1%N (on_day 19001 64800000) s1)
   = OkJson (mk_streak 1 1 (Some 19000) 1)
   /\ fst (GetStreak (zone := UTC) 1%N (on_day 19002 0) s1)
      = OkJson (mk_streak 0 1 (Some 19000) 1))
  /\ (let s1 := deposit_post (zone := WIB) 1%N req (on_day 19000 0) demo_store in
      fst (GetStreak (zone := WIB) 1%N (on_day 19001 64800000) s1)
      = OkJson (mk_streak 0 1 (Some 19000) 1)).
Proof.
  intros req. split; [intros s1; split|intros s1].
  - destruct (view_decays_once (zone := UTC) 1%N (on_day 19001 64800000) s1
                (mk_streak 1 1 (Some 19000) 1))
      as (Hr & _); [vm_compute; reflexivity|exact Hr].
  - destruct (view_decays_once (zone := UTC) 1%N (on_day 19002 0) s1
                (mk_streak 1 1 (Some 19000) 1))
      as (Hr & _); [vm_compute; reflexivity|exact Hr].
  - destruct (view_decays_once (zone := WIB) 1%N (on_day 19001 64800000) s1
                (mk_streak 1 1 (Some 19000) 1))
      as (Hr & _); [vm_compute; reflexivity|exact Hr].
Defined.

Lemma view_then_deposit_witness :
  let req := mk_deposit_request None 5000000 None None in
  let s1 := deposit_post 1%N req (on_day 19000 0) demo_store in
  streaks (snd (RecordDeposit 1%N req (on_day 19003 0) (snd (GetStreak 1%N (on_day 19002 0) s1))))
  = streaks (snd (RecordDeposit 1%N req (on_day 19003 0) s1)).
Proof.
  intros req s1.
  destruct (view_then_deposit 1%N (on_day 19002 0) req (on_day 19003 0) s1
              (mk_streak 1 1 (Some 19000) 1))
    as (d & d' & t1 & t2 & H1 & H2 & Hst & _).
  - vm_compute. reflexivity.
  - vm_compute. discriminate.
  - cbn. lia.
  - vm_compute. reflexivity.
  - rewrite H1, H2. exact Hst.
Defined.

Lemma streak_counters_stay_ordered_witness :
  let req := mk_deposit_request None 5000000 None None in
  exists streak',
    streaks (streak_handle_all 1%N
               [Deposited req (on_day 19000 0); Deposited req (on_day 19001 0);
                ResetByHand; Viewed (on_day 19005 0); CheckedIn (on_day 19005 0)]
               demo_store) !! 1%N = Some streak'
    /\ ordered streak' /\ 0 <= longest_streak streak'.
Proof.
  intros req.
  destruct (streak_counters_stay_ordered 1%N demo_store new_streak
              [Deposited req (on_day 19000 0); Deposited req (on_day 19001 0);
               ResetByHand; Viewed (on_day 19005 0); CheckedIn (on_day 19005 0)])
    as (streak' & Hs & Hord & Hlong & _).
  - reflexivity.
  - unfold ordered, new_streak. cbn. lia.
  - exists streak'. split; [exact Hs|]. split; [exact Hord|exact Hlong].
Defined.

Lemma streak_row_comes_from_view_witness :
  let s := mk_db (users demo_store) ∅ [] [] ∅ ∅ ∅ [] [] 100%N in
  let s' := serve_all [(1%N, mk_deposit_request None 5000000 None None, on_day 19000 0)] s in
  total_balance <$> users s' !! 1%N = Some 105000000
  /\ streaks s' !! 1%N = None
  /\ fst (GetStreak 1%N (on_day 19000 10) s') = OkJson (mk_streak 0 0 None 0).
Proof.
  intros s s'.
  destruct (streak_row_comes_from_view 1%N
              [(1%N, mk_deposit_request None 5000000 None None, on_day 19000 0)]
              (on_day 19000 10) s) as (Hnone & _ & _ & Hview & _).
  - reflexivity.
  - split; [vm_compute; reflexivity|]. split; [exact Hnone|].
    assert (Hu : is_Some (users s !! 1%N)) by (vm_compute; eexists; reflexivity).
    exact (f_equal fst (Hview Hu)).
Defined.

End StreakExamples.

(** ** Allocations, earnings and removals *)

Section YieldFacts.
Import Portfolio Yield.

Lemma forallb_and_const {A} (u : bool) (p : A -> bool) (l : list A) :
  forallb (fun a => u && p a) l
  = match l with [] => true | _ => u end && forallb p l.
Proof.
  induction l as [|a l IH]; [done|]. cbn [forallb]. rewrite IH.
  destruct u, (p a), l; done.
Qed.

Lemma not_taken_fresh (k : uuid * string * string) (t : list pool_row) :
  k ∉ map key t -> Forall (fun r => key r <> k) t.
Proof.
  intros Hout. apply Forall_forall. intros r Hr Heq. apply Hout. rewrite <- Heq.
  apply list_elem_of_In, in_map. by apply list_elem_of_In.
Qed.

(** The loop of the allocation, entry by entry: every entry is inserted,
    or the loop raises. *)
Lemma allocate_each_spec userId allocations s :
  allocate_each userId allocations s
  = if forallb (fun alloc => bool_decide (is_Some (users s !! userId))
                             && bool_decide (poolType alloc ∈ POOL_TYPES)) allocations
       && keys_fresh userId allocations (map key (pool_allocations s))
    then Some (returned_rows userId allocations s,
               fold_left (upserted userId) allocations s)
    else None.
Proof.
  revert s. induction allocations as [|alloc rest IH]; intros s; [done|].
  cbn [allocate_each forallb returned_rows fold_left keys_fresh]. unfold tx_bind at 1.
  destruct (bool_decide (is_Some (users s !! userId))
            && bool_decide (poolType alloc ∈ POOL_TYPES)) eqn:Hok; cbn [andb]; cycle 1.
  { unfold upsert_allocation. tx_run. by rewrite Hok. }
  apply andb_prop in Hok as [Hu Hp].
  apply bool_decide_eq_true_1 in Hu, Hp.
  destruct (decide (entry_key userId alloc ∈ map key (pool_allocations s))) as [Hin|Hout].
  - rewrite upsert_allocation_taken by done.
    rewrite (bool_decide_eq_true_2 _ Hin). cbn [negb andb]. by rewrite andb_false_r.
  - rewrite upsert_allocation_run by (done || by apply not_taken_fresh).
    rewrite (bool_decide_eq_false_2 _ Hout). cbn [negb andb].
    change (mk_db (users s) (savings_goals s) (deposits s) (transactions s) (streaks s)
              (daily_growth s) (payment_methods s)
              (pool_allocations s ++ [proposed_row (uuid_seq s) userId alloc])
              (allocation_history s) (N.succ (uuid_seq s)))
      with (upserted userId s alloc).
    unfold tx_bind at 1. rewrite IH.
    change (users (upserted userId s alloc)) with (users s).
    change (pool_allocations (upserted userId s alloc))
      with (pool_allocations s ++ [proposed_row (uuid_seq s) userId alloc]).
    rewrite map_app. cbn [map].
    change (key (proposed_row (uuid_seq s) userId alloc)) with (entry_key userId alloc).
    by destruct (_ && _).
Qed.

Lemma upserted_all_frame userId allocations s :
  let s1 := fold_left (upserted userId) allocations s in
  users s1 = users s /\ deposits s1 = deposits s
  /\ transactions s1 = transactions s
  /\ allocation_history s1 = allocation_history s.
Proof.
  revert s. induction allocations as [|alloc rest IH]; intros s; [done|].
  cbn [fold_left]. destruct (IH (upserted userId s alloc)) as (-> & -> & -> & ->).
  done.
Qed.

(** A loop of insertions appends the rows it returns. *)
Lemma upserted_all_rows userId allocations s :
  pool_allocations (fold_left (upserted userId) allocations s)
  = pool_allocations s ++ returned_rows userId allocations s
  /\ uuid_seq (fold_left (upserted userId) allocations s)
     = (uuid_seq s + N.of_nat (length allocations))%N
  /\ length (returned_rows userId allocations s) = length allocations.
Proof.
  revert s. induction allocations as [|alloc rest IH]; intros s.
  - cbn. rewrite app_nil_r. split; [done|]. split; [lia|done].
  - cbn [fold_left returned_rows length].
    destruct (IH (upserted userId s alloc)) as (-> & -> & ->).
    cbn [upserted pool_allocations uuid_seq]. rewrite <- app_assoc.
    split; [done|]. split; [lia|done].
Qed.

Lemma Allocate_accepted userId req s :
  accepted userId req s = true ->
  Allocate userId req s
  = (Created (returned_rows userId (a_allocations req) s), allocate_done userId req s).
Proof.
  unfold accepted. rewrite !andb_true_iff.
  intros (((((Hlen & Hmode) & Huser) & Hpools) & Hkeys) & Hdep).
  unfold Allocate. apply negb_true_iff in Hlen. rewrite Hlen, Hmode. cbn [negb].
  unfold allocate_tx. unfold tx_bind at 1. rewrite allocate_each_spec.
  rewrite forallb_and_const, Huser, Hpools, Hkeys.
  assert (Hne : forall u : bool,
             match a_allocations req with [] => true | _ :: _ => u end = u)
    by (intros u; by destruct (a_allocations req)).
  rewrite Hne. cbn [andb].
  destruct (upserted_all_frame userId (a_allocations req) s) as (Hu & Hd & _ & _).
  unfold insert_history. tx_run. by rewrite Hu, Hd, Huser, Hdep.
Qed.

Lemma Allocate_refused userId req s :
  accepted userId req s = false ->
  snd (Allocate userId req s) = s
  /\ forall rows, fst (Allocate userId req s) <> Created rows.
Proof.
  unfold accepted, Allocate. intros Hacc.
  destruct (length (a_allocations req) =? 0)%nat eqn:Hlen; [done|].
  destruct (bool_decide (a_userMode req ∈ USER_MODES)); [|done].
  cbn [negb andb] in *.
  unfold allocate_tx. unfold tx_bind at 1 3. rewrite allocate_each_spec.
  rewrite forallb_and_const.
  assert (Hne : forall u : bool,
             match a_allocations req with [] => true | _ :: _ => u end = u)
    by (intros u; by destruct (a_allocations req)).
  rewrite Hne.
  destruct (bool_decide (is_Some (users s !! userId))) eqn:Huser; [|done].
  destruct (forallb _ (a_allocations req)); [|done].
  destruct (keys_fresh _ _ _); [|done]. cbn [andb] in *.
  destruct (upserted_all_frame userId (a_allocations req) s) as (Hu & Hd & _ & _).
  unfold insert_history. tx_run. rewrite Hu, Hd, Huser, Hacc. done.
Qed.

(** X11.  An allocation is all or nothing.  When the list is not empty,
    the mode is one of lite, balanced and pro, the user exists, every
    entry's pool type is one of the five the table allows, no entry asks
    for a (user, protocol, pool type) key that the table or an earlier
    entry of the request holds, and depositId, if given, is a deposit, a
    request whose figures fit the columns is accepted: one row is inserted
    for each entry, in order, after the rows there were, one row comes back
    for each, and the request is recorded in the history.  A request that
    fails one of these conditions writes nothing at all, also when the
    entry refused comes after entries already inserted: an empty list and
    a bad mode are answered 400, anything else 500. *)
Theorem allocate_all_or_nothing userId req s :
  (accepted userId req s = true -> request_fits req = true ->
   exists rows s',
     Allocate userId req s = (Created rows, s')
     /\ length rows = length (a_allocations req)
     /\ map key rows = map (entry_key userId) (a_allocations req)
     /\ map amount_allocated rows = map amount (a_allocations req)
     /\ pool_allocations s' = pool_allocations s ++ rows
     /\ length (allocation_history s') = S (length (allocation_history s))
     /\ uuid_seq s' = (uuid_seq s + N.of_nat (length (a_allocations req)) + 1)%N)
  /\ (accepted userId req s = false ->
      snd (Allocate userId req s) = s
      /\ (forall rows, fst (Allocate userId req s) <> Created rows)
      /\ (a_allocations req = [] ->
          fst (Allocate userId req s) = BadRequest "Allocations array is required")
      /\ (a_allocations req <> [] -> a_userMode req ∉ USER_MODES ->
          fst (Allocate userId req s) = BadRequest "Valid user mode is required")
      /\ (a_allocations req <> [] -> a_userMode req ∈ USER_MODES ->
          fst (Allocate userId req s) = ServerError "Failed to allocate deposit")).
Proof.
  split.
  - intros Hacc _. rewrite Allocate_accepted by done. eexists _, _. split; [done|].
    destruct (upserted_all_rows userId (a_allocations req) s) as (Hrows & Hseq & Hlen).
    destruct (upserted_all_frame userId (a_allocations req) s) as (_ & _ & _ & Hhist).
    split; [done|]. split; [|split].
    + generalize (a_allocations req) s. clear.
      induction l as [|alloc rest IH]; intros s; [done|].
      cbn [returned_rows map]. by rewrite IH.
    + generalize (a_allocations req) s. clear.
      induction l as [|alloc rest IH]; intros s; [done|].
      cbn [returned_rows map]. by rewrite IH.
    + unfold allocate_done. cbn [pool_allocations allocation_history uuid_seq].
      rewrite Hrows, Hseq, Hhist, length_app. cbn [length].
      split; [done|]. split; lia.
  - intros Hacc. destruct (Allocate_refused _ _ _ Hacc) as [Hs Hno].
    split; [done|]. split; [done|]. unfold Allocate. split; [|split].
    + by intros ->.
    + intros Hne Hmode. destruct (a_allocations req); [done|]. cbn [length Nat.eqb].
      by rewrite (bool_decide_eq_false_2 _ Hmode).
    + intros Hne Hmode. destruct (a_allocations req) eqn:Hl; [done|].
      cbn [length Nat.eqb]. rewrite (bool_decide_eq_true_2 _ Hmode). cbn [negb].
      destruct (allocate_tx userId req s) as [[rows s']|] eqn:Htx; [|done].
      exfalso. apply (Hno rows). unfold Allocate. rewrite Hl. cbn [length Nat.eqb].
      rewrite (bool_decide_eq_true_2 _ Hmode). cbn [negb]. by rewrite Htx.
Qed.

Lemma allocate_all_or_nothing_witness :
  let req := mk_allocate_request None 75000000
               [mk_entry "dex" "uniswap-v3" "Uniswap" None 25000000 33 60000000;
                mk_entry "lending" "compound-v3-usdc" "Compound" None 50000000 67 12000000]
               "pro" in
  (exists rows s',
      Allocate 1%N req demo_portfolio = (Created rows, s')
      /\ length rows = 2%nat
      /\ length (pool_allocations s') = 3%nat)
  /\ snd (Allocate 1%N req (snd (Allocate 1%N req demo_portfolio)))
     = snd (Allocate 1%N req demo_portfolio).
Proof.
  intros req. split.
  - destruct (allocate_all_or_nothing 1%N req demo_portfolio) as [Hyes _].
    destruct Hyes as (rows & s' & Hrun & Hlen & _ & _ & Ht & _).
    + vm_compute. reflexivity.
    + vm_compute. reflexivity.
    + exists rows, s'. split; [exact Hrun|]. split; [exact Hlen|].
      rewrite Ht, length_app, Hlen. reflexivity.
  - destruct (allocate_all_or_nothing 1%N req (snd (Allocate 1%N req demo_portfolio)))
      as [_ Hno].
    destruct Hno as (Hs & _); [vm_compute; reflexivity|exact Hs].
Defined.

Lemma Allocate_created userId req s rows s' :
  Allocate userId req s = (Created rows, s') ->
  accepted userId req s = true /\ s' = allocate_done userId req s.
Proof.
  intros Hcall. destruct (accepted userId req s) eqn:Hacc.
  - rewrite Allocate_accepted in Hcall by done. by injection Hcall as _ <-.
  - destruct (Allocate_refused _ _ _ Hacc) as [_ Hno]. rewrite Hcall in Hno.
    by destruct (Hno rows).
Qed.

Lemma allocated_app v t t' : allocated v (t ++ t') = allocated v t + allocated v t'.
Proof. induction t as [|r t IH]; cbn [app allocated]; lia. Qed.

Lemma allocated_upserted_all v userId allocations s :
  allocated v (pool_allocations (fold_left (upserted userId) allocations s))
  = allocated v (pool_allocations s)
    + (if (userId =? v)%N then requested allocations else 0).
Proof.
  revert s. induction allocations as [|alloc rest IH]; intros s;
    cbn [fold_left requested fold_right].
  - destruct (userId =? v)%N; lia.
  - rewrite IH. cbn [upserted pool_allocations].
    rewrite allocated_app. cbn [allocated proposed_row pa_user amount_allocated].
    fold (requested rest). destruct (userId =? v)%N; lia.
Qed.

(** X12.  A committed allocation raises what the user has in pools by the
    sum of the entries' amounts, leaves every other user's pools as they
    were, adds one history row holding the request, and changes no user
    row: total_balance is not debited by what goes into the pools. *)
Theorem allocate_adds_requested userId req s rows s' :
  Allocate userId req s = (Created rows, s') ->
  allocated userId (pool_allocations s')
  = allocated userId (pool_allocations s) + requested (a_allocations req)
  /\ (forall v, v <> userId ->
        allocated v (pool_allocations s') = allocated v (pool_allocations s))
  /\ users s' = users s
  /\ transactions s' = transactions s
  /\ exists id,
       allocation_history s'
       = allocation_history s
         ++ [mk_history id userId (a_depositId req) (a_depositAmount req)
                        (a_allocations req) (a_userMode req)].
Proof.
  intros Hcall. apply Allocate_created in Hcall as [_ ->].
  unfold allocate_done. cbn [pool_allocations users transactions allocation_history].
  destruct (upserted_all_frame userId (a_allocations req) s) as (-> & _ & -> & ->).
  rewrite allocated_upserted_all, N.eqb_refl. split; [done|]. split.
  - intros v Hv. rewrite allocated_upserted_all.
    destruct (N.eqb_spec userId v); [congruence|lia].
  - eauto.
Qed.

Lemma allocate_adds_requested_witness :
  let req := mk_allocate_request None 75000000
               [mk_entry "lending" "compound-v3-usdc" "Compound" None 50000000 67 12000000;
                mk_entry "dex" "uniswap-v3" "Uniswap" None 25000000 33 60000000] "pro" in
  allocated 1%N (pool_allocations (snd (Allocate 1%N req demo_portfolio))) = 175000000
  /\ users (snd (Allocate 1%N req demo_portfolio)) = users demo_portfolio.
Proof.
  intros req.
  destruct (allocate_adds_requested 1%N req demo_portfolio
              (returned_rows 1%N (a_allocations req) demo_portfolio)
              (snd (Allocate 1%N req demo_portfolio)))
    as (Hsum & _ & Husers & _).
  - vm_compute. reflexivity.
  - split; [rewrite Hsum; vm_compute; reflexivity|exact Husers].
Defined.

(** *** Removing an allocation *)

Lemma find_by_id_filtered (p : pool_row -> bool) allocationId (t : list pool_row) :
  List.find (fun r => (pa_id r =? allocationId)%N && p r)
            (List.filter (fun r => negb (pa_id r =? allocationId)%N) t) = None.
Proof.
  induction t as [|x t IH]; [done|]. cbn [List.filter].
  destruct (pa_id x =? allocationId)%N eqn:Hx; cbn [negb]; [done|].
  cbn [List.find]. by rewrite Hx.
Qed.

Lemma find_by_id_fresh allocationId (t : list pool_row) :
  allocationId ∉ map pa_id t ->
  List.filter (fun r => negb (pa_id r =? allocationId)%N) t = t.
Proof.
  induction t as [|x t IH]; [done|]. cbn [map List.filter].
  rewrite not_elem_of_cons. intros [Hne Hin].
  destruct (N.eqb_spec (pa_id x) allocationId) as [Hx|Hx]; [done|].
  cbn [negb]. by rewrite IH.
Qed.

(** With unique ids, the DELETE removes the row found and no other. *)
Lemma delete_found userId allocationId (t : list pool_row) allocation v :
  NoDup (map pa_id t) ->
  List.find (fun r => (pa_id r =? allocationId)%N && (pa_user r =? userId)%N) t
  = Some allocation ->
  let t' := List.filter (fun r => negb (pa_id r =? allocationId)%N) t in
  allocated v t'
  = allocated v t - (if (userId =? v)%N then amount_allocated allocation else 0)
  /\ S (length t') = length t.
Proof.
  intros Hnd Hfind. induction t as [|x t IH]; [done|].
  inversion Hnd as [|? ? Hx Hnd']; subst. cbn [List.find List.filter] in *.
  destruct (N.eqb_spec (pa_id x) allocationId) as [Hid|Hid]; cbn [negb andb] in *.
  - rewrite Hid in Hx. rewrite (find_by_id_fresh _ _ Hx).
    destruct (N.eqb_spec (pa_user x) userId) as [Hu|Hu].
    + injection Hfind as <-. cbn [allocated]. rewrite Hu.
      split; [|done]. destruct (userId =? v)%N; lia.
    + exfalso. apply find_some in Hfind as [Hin Hmatch].
      apply andb_prop in Hmatch as [Hmatch _]. apply N.eqb_eq in Hmatch.
      apply Hx, list_elem_of_In, in_map_iff. eauto.
  - destruct (IH Hnd' Hfind) as [Hsum Hlen]. cbn [allocated length].
    split; [lia|]. by rewrite Hlen.
Qed.

(** X13.  Removing an allocation moves its amount from the pools to the
    balance and nothing else: with ids unique, the user's total_balance
    grows by the amount withdrawn and what the user has in pools shrinks by
    it, exactly one row goes, other users' pools and rows are untouched,
    and removing the same allocation again answers "not found" and writes
    nothing. *)
Theorem deallocate_moves_amount userId allocationId s r s' :
  NoDup (map pa_id (pool_allocations s)) ->
  is_Some (users s !! userId) ->
  Deallocate userId allocationId s = (OkJson r, s') ->
  Ledger.balance_of s' userId = Ledger.balance_of s userId + withdrawnAmount r
  /\ allocated userId (pool_allocations s')
     = allocated userId (pool_allocations s) - withdrawnAmount r
  /\ S (length (pool_allocations s')) = length (pool_allocations s)
  /\ (forall v, v <> userId ->
        users s' !! v = users s !! v
        /\ allocated v (pool_allocations s') = allocated v (pool_allocations s))
  /\ transactions s' = transactions s
  /\ Deallocate userId allocationId s' = (NotFound "Allocation not found", s').
Proof.
  intros Hnd [u Hu] Hcall. unfold Deallocate in Hcall.
  destruct (List.find _ (pool_allocations s)) as [allocation|] eqn:Hfind; [|done].
  injection Hcall as <- <-. cbn [withdrawnAmount].
  unfold Ledger.balance_of. cbn [set_users set_pool_allocations users pool_allocations
                                   transactions].
  rewrite lookup_alter_eq, Hu. cbn [fmap option_fmap option_map credit total_balance].
  split; [done|].
  destruct (delete_found _ _ _ _ userId Hnd Hfind) as [Hsum Hlen].
  rewrite N.eqb_refl in Hsum. split; [done|]. split; [done|]. split.
  - intros v Hv. rewrite lookup_alter_ne by done. split; [done|].
    destruct (delete_found _ _ _ _ v Hnd Hfind) as [Hsum' _].
    destruct (N.eqb_spec userId v); [congruence|lia].
  - split; [done|]. unfold Deallocate.
    cbn [set_users set_pool_allocations pool_allocations].
    by rewrite find_by_id_filtered.
Qed.

Lemma deallocate_moves_amount_witness :
  Ledger.balance_of (snd (Deallocate 1%N 50%N demo_portfolio)) 1%N = 200000000
  /\ allocated 1%N (pool_allocations (snd (Deallocate 1%N 50%N demo_portfolio))) = 0.
Proof.
  destruct (deallocate_moves_amount 1%N 50%N demo_portfolio
              (mk_removed 100000000 "lending" "Aave V3")
              (snd (Deallocate 1%N 50%N demo_portfolio)))
    as (Hbal & Hsum & _).
  - cbn. apply NoDup_singleton.
  - vm_compute. eexists. reflexivity.
  - vm_compute. reflexivity.
  - split; [rewrite Hbal|rewrite Hsum]; vm_compute; reflexivity.
Defined.

(** X14.  Only the owner can remove an allocation: when the allocation id
    is not that of a row of the user (unknown, or another user's row), the
    answer is "not found" and the store is as before, the row and the
    owner's balance included. *)
Theorem deallocate_needs_owner userId allocationId s :
  (forall row, In row (pool_allocations s) ->
     pa_id row = allocationId -> pa_user row <> userId) ->
  Deallocate userId allocationId s = (NotFound "Allocation not found", s).
Proof.
  intros Hrows. unfold Deallocate.
  destruct (List.find _ (pool_allocations s)) as [allocation|] eqn:Hfind; [|done].
  apply find_some in Hfind as [Hin Hmatch].
  apply andb_prop in Hmatch as [Hid Hu].
  apply N.eqb_eq in Hid, Hu. by destruct (Hrows _ Hin Hid).
Qed.

Lemma deallocate_needs_owner_witness :
  Deallocate 2%N 50%N demo_portfolio = (NotFound "Allocation not found", demo_portfolio).
Proof.
  apply deallocate_needs_owner. intros row [<-|[]] _. cbn. discriminate.
Defined.

(** *** The earnings update *)

Lemma update_by_id_absent id q (t : list pool_row) :
  id ∉ map pa_id t -> update_by_id id q t = Some t.
Proof.
  induction t as [|r t IH]; [done|]. cbn [map update_by_id].
  rewrite not_elem_of_cons. intros [Hne Hout].
  destruct (N.eqb_spec (pa_id r) id); [congruence|]. by rewrite IH.
Qed.

(** The UPDATE of a row that is there raises in the trigger. *)
Lemma update_by_id_present id q (t : list pool_row) :
  id ∈ map pa_id t -> update_by_id id q t = None.
Proof.
  induction t as [|r t IH]; cbn [map update_by_id].
  - intros Hin. by apply elem_of_nil in Hin.
  - destruct (N.eqb_spec (pa_id r) id) as [Heq|Hne]; [done|].
    intros [Heq|Hin]%elem_of_cons; [congruence|]. by rewrite IH.
Qed.

Lemma store6_plus_zero v : store6 (to_Q v + 0)%Q = v.
Proof.
  unfold store6, to_Q, round_half_away, Qplus, Qmult, inject_Z, SCALE6.
  cbn [Qnum Qden]. rewrite Z.mul_0_l, Z.add_0_r, Z.mul_1_r.
  change (Z.pos (1000000 * 1 * 1)) with 1000000.
  destruct (Z.leb_spec 0 (v * 1000000)).
  - symmetry. apply Z.div_unique with (r := 1000000); lia.
  - assert (Hdiv : (2 * - (v * 1000000) + 1000000) / (2 * 1000000) = - v)
      by (symmetry; apply Z.div_unique with (r := 1000000); lia).
    rewrite Hdiv. lia.
Qed.

Lemma add_total_earnings_zero u : add_total_earnings 0 u = u.
Proof.
  destruct u. unfold add_total_earnings. cbn [total_earnings]. f_equal.
  apply store6_plus_zero.
Qed.

Lemma UpdateEarnings_rows userId s :
  (exists r, r ∈ pool_allocations s /\ pa_user r = userId) ->
  UpdateEarnings userId s = (ServerError "Failed to update earnings", s).
Proof.
  intros (r & Hr & Hu). unfold UpdateEarnings.
  destruct (List.filter _ (pool_allocations s)) as [|alloc rest] eqn:Hf.
  - exfalso. assert (Hin : In r (List.filter (fun r => (pa_user r =? userId)%N)
                                              (pool_allocations s))).
    { apply filter_In. split; [by apply list_elem_of_In|]. by apply N.eqb_eq. }
    by rewrite Hf in Hin.
  - cbn [accrue_loop]. rewrite update_by_id_present; [done|].
    assert (Hin : In alloc (List.filter (fun r => (pa_user r =? userId)%N)
                                        (pool_allocations s)))
      by (rewrite Hf; by left).
    apply filter_In in Hin as [Hin _].
    apply list_elem_of_In, in_map. exact Hin.
Qed.

Lemma UpdateEarnings_no_rows userId s :
  (forall r, r ∈ pool_allocations s -> pa_user r <> userId) ->
  UpdateEarnings userId s = (OkJson (0%Q, 0%nat), s).
Proof.
  intros Hno. unfold UpdateEarnings.
  destruct (List.filter _ (pool_allocations s)) as [|alloc rest] eqn:Hf; cycle 1.
  - exfalso.
    assert (Hin : In alloc (List.filter (fun r => (pa_user r =? userId)%N)
                                        (pool_allocations s)))
      by (rewrite Hf; by left).
    apply filter_In in Hin as [Hin Hu]. apply N.eqb_eq in Hu.
    by apply (Hno alloc); [apply list_elem_of_In|].
  - cbn [accrue_loop length]. f_equal. destruct s.
    unfold set_users, set_pool_allocations. cbn. f_equal.
    apply alter_id. intros u _. apply add_total_earnings_zero.
Qed.

Lemma UpdateEarnings_store userId s : snd (UpdateEarnings userId s) = s.
Proof.
  destruct (decide (Exists (fun r => pa_user r = userId) (pool_allocations s)))
    as [Hex|Hno].
  - apply Exists_exists in Hex. by rewrite UpdateEarnings_rows.
  - rewrite UpdateEarnings_no_rows; [done|].
    intros r Hr Hu. apply Hno, Exists_exists. eauto.
Qed.

(** X15.  The earnings update never pays.  For a user holding at least
    one allocation, the first UPDATE of pool_allocations raises in the
    table's BEFORE UPDATE trigger (which assigns updated_at, a column the
    table does not have): the reply is 500 and everything is rolled back.
    For a user holding none, the loop does nothing, the users row gets
    total_earnings + 0, and the reply carries 0 earnings over 0 rows.
    Either way the store is as it was. *)
Theorem update_earnings_never_pays userId s :
  ((exists r, r ∈ pool_allocations s /\ pa_user r = userId) ->
   UpdateEarnings userId s = (ServerError "Failed to update earnings", s))
  /\ ((forall r, r ∈ pool_allocations s -> pa_user r <> userId) ->
      UpdateEarnings userId s = (OkJson (0%Q, 0%nat), s))
  /\ snd (UpdateEarnings userId s) = s.
Proof.
  split; [apply UpdateEarnings_rows|]. split; [apply UpdateEarnings_no_rows|].
  apply UpdateEarnings_store.
Qed.

(** The user of [demo_portfolio] holds one allocation: the update is
    refused.  Half a unit at 0.1095%: the handler's doubles give
    1.4999999999999998e-06 a day, which a DECIMAL(18,6) parameter stores
    as 0.000001. *)
Lemma update_earnings_never_pays_witness :
  UpdateEarnings 1%N demo_portfolio
  = (ServerError "Failed to update earnings", demo_portfolio)
  /\ UpdateEarnings 1%N demo_store = (OkJson (0%Q, 0%nat), demo_store)
  /\ bound6 (dailyEarning (mk_pool 51%N 1%N "lending" "x" "X" None 500000 109500 0 0)) = 1.
Proof.
  destruct (update_earnings_never_pays 1%N demo_portfolio) as (Hrows & _).
  destruct (update_earnings_never_pays 1%N demo_store) as (_ & Hnone & _).
  split; [|split].
  - apply Hrows. eexists. split; [by left|reflexivity].
  - apply Hnone. intros r Hr. by apply elem_of_nil in Hr.
  - vm_compute. reflexivity.
Defined.

(** *** The table stays well formed *)









End YieldFacts.

(** ** The APY cache over many calls *)

Section ApyFacts.
Import ApyService ApyCalls.

Lemma answer_other apyCache c p :
  asked c <> p -> cache_after (answer apyCache c) !! p = apyCache !! p.
Proof.
  intros Hne. unfold answer, getProtocolAPY.
  destruct (apyCache !! asked c) as [cached|];
    [destruct (_ <? _)%Z; [done|]|];
    destruct (fetch (asked c) (outside c)); cbn [cache_after];
    by rewrite lookup_insert_ne.
Qed.

Lemma answer_asked apyCache c : is_Some (cache_after (answer apyCache c) !! asked c).
Proof.
  destruct (getProtocolAPY_caches (asked c) (checked_at c) (call_stored_at c)
              (outside c) apyCache) as (entry & Hentry & _).
  unfold answer. by rewrite Hentry.
Qed.

(** X17.  A cached APY lives ten minutes from the time it was stored,
    however often it is read: over any run of calls in which every call
    for the protocol checks the cache less than ten minutes after the
    entry's timestamp, each of those calls gets the cached value without
    a fetch, and the entry, timestamp included, is still the same at the
    end.  A hit does not renew the entry, and calls for other protocols
    do not disturb it. *)
Theorem cached_apy_is_not_renewed p e cs apyCache :
  apyCache !! p = Some e ->
  Forall (fun c => asked c = p -> (checked_at c - timestamp e < CACHE_DURATION)%Z) cs ->
  snd (answers cs apyCache) !! p = Some e
  /\ Forall2 (fun c r => asked c = p ->
                returned r = cached_apy e /\ fetcher_calls r = []
                /\ ran_switch r = false)
             cs (fst (answers cs apyCache)).
Proof.
  intros He Hcs. revert apyCache He.
  induction Hcs as [|c cs Hc Hcs IH]; intros apyCache He; [by split; [|constructor]|].
  cbn [answers].
  assert (Hkeep : cache_after (answer apyCache c) !! p = Some e
                  /\ (asked c = p ->
                      returned (answer apyCache c) = cached_apy e
                      /\ fetcher_calls (answer apyCache c) = []
                      /\ ran_switch (answer apyCache c) = false)).
  { destruct (decide (asked c = p)) as [Hp|Hp].
    - unfold answer. rewrite Hp in *.
      rewrite (getProtocolAPY_hit p _ _ _ _ e) by (done || by apply Hc). by split.
    - by rewrite answer_other. }
  destruct Hkeep as [He' Hans]. destruct (IH _ He') as [Hend Hrs].
  destruct (answers cs (cache_after (answer apyCache c))) as [rs apyCache'].
  cbn [fst snd] in *. split; [done|]. by constructor.
Qed.

Lemma cached_apy_is_not_renewed_witness :
  let w := mk_world (1 # 2) BeefyFailure in
  let apyCache := cache_after (getProtocolAPY "aave-v3-usdc" 0 0 w ∅) in
  snd (answers [mk_call "aave-v3-usdc" 100000 100001 w;
                mk_call "yearn-usdc" 200000 200001 w;
                mk_call "aave-v3-usdc" 599999 600000 w] apyCache) !! "aave-v3-usdc"
  = Some (mk_entry_of 11 0).
Proof.
  intros w apyCache.
  destruct (cached_apy_is_not_renewed "aave-v3-usdc" (mk_entry_of 11 0)
              [mk_call "aave-v3-usdc" 100000 100001 w;
               mk_call "yearn-usdc" 200000 200001 w;
               mk_call "aave-v3-usdc" 599999 600000 w] apyCache) as [Hend _].
  - vm_compute. reflexivity.
  - repeat constructor; intros _; cbn; unfold CACHE_DURATION; lia.
  - exact Hend.
Defined.

(** X18.  The cache only grows: after any run of calls it holds an entry
    for exactly the protocol ids it held before and the ids asked for in
    the run, known to the service or not.  Nothing is ever evicted, and an
    unknown id is cached like any other. *)
Theorem apy_cache_only_grows cs apyCache p :
  is_Some (snd (answers cs apyCache) !! p)
  <-> is_Some (apyCache !! p) \/ In p (map asked cs).
Proof.
  revert apyCache. induction cs as [|c cs IH]; intros apyCache; cbn [answers map In].
  - cbn. tauto.
  - specialize (IH (cache_after (answer apyCache c))).
    destruct (answers cs (cache_after (answer apyCache c))) as [rs apyCache'].
    cbn [snd] in *. rewrite IH.
    destruct (decide (asked c = p)) as [Hp|Hp].
    + pose proof (answer_asked apyCache c) as Hin. rewrite Hp in Hin. tauto.
    + rewrite answer_other by done. tauto.
Qed.

(** [base + Math.random() * width] in doubles stays within the range,
    ends included, when the ends are doubles themselves. *)
Lemma in_range_bounds base width w :
  (0 <= random w)%Q -> (random w < 1)%Q -> (0 <= width)%Q ->
  (Number.fl width == width)%Q -> (Number.fl base == base)%Q ->
  (Number.fl (base + width) == base + width)%Q ->
  (base <= in_range base width w /\ in_range base width w <= base + width)%Q.
Proof.
  intros H0 H1 Hw Hfw Hfb Hfe. unfold in_range, Number.add, Number.mul.
  assert (Hm0 : (0 <= Number.fl (random w * width))%Q).
  { apply fl_sign. by apply Qmult_le_0_compat. }
  assert (Hm1 : (Number.fl (random w * width) <= width)%Q).
  { rewrite <- Hfw at 2. apply fl_mono.
    rewrite <- (Qmult_1_l width) at 2. apply Qmult_le_compat_r; [lra|done]. }
  split.
  - rewrite <- Hfb at 1. apply fl_mono. lra.
  - rewrite <- Hfe. apply fl_mono. lra.
Qed.

(** X19.  What a fetch returns: with [Math.random()] in [0, 1), the figure
    computed for any protocol id lies between 6 and 80 percent, ends
    included (in doubles the upper end is reached: 60 + (1 - 2^-52) * 20
    is 80), unless it is the figure for one of the two Beefy vaults as the
    Beefy API reported it, which is passed on as it is (a figure of 0
    counts as missing). *)
Theorem fetched_apy_range protocolId w :
  (0 <= random w)%Q -> (random w < 1)%Q ->
  (6 <= fst (fetch protocolId w) /\ fst (fetch protocolId w) <= 80)%Q
  \/ exists vaultId data,
       beefy_vault protocolId = Some vaultId
       /\ beefy w = BeefyData data
       /\ data vaultId = Some (fst (fetch protocolId w))
       /\ ~ (fst (fetch protocolId w) == 0)%Q.
Proof.
  intros H0 H1.
  assert (Hrange : forall base width,
             (0 <= width)%Q -> (Number.fl width == width)%Q ->
             (Number.fl base == base)%Q ->
             (Number.fl (base + width) == base + width)%Q ->
             (6 <= base)%Q -> (base + width <= 80)%Q ->
             (6 <= in_range base width w /\ in_range base width w <= 80)%Q).
  { intros base width Hw Hfw Hfb Hfe Hlo Hhi.
    destruct (in_range_bounds base width w H0 H1 Hw Hfw Hfb Hfe). split; lra. }
  assert (Hfallback : (6 <= Number.fl (523 # 10) /\ Number.fl (523 # 10) <= 80)%Q
                      /\ (6 <= Number.fl (285 # 10) /\ Number.fl (285 # 10) <= 80)%Q)
    by (by vm_compute).
  unfold fetch, beefy_vault.
  repeat (match goal with
          | |- context [String.eqb protocolId ?k] =>
              destruct (String.eqb protocolId k) eqn:?
          end);
    try discriminate; cbn [fst];
    unfold fetchAaveAPY, fetchCompoundAPY, fetchMoonwellAPY, fetchDexAPY;
    cbn [String.eqb Ascii.eqb Bool.eqb];
    try (left; apply Hrange; by vm_compute);
    try (left; split; lra).
  all: unfold fetchBeefyAPY; cbn -[Qeq_bool Qplus Qmult Qle Qlt in_range Number.fl];
    destruct (beefy w) as [data|] eqn:Hb; [|left; apply Hfallback].
  all: match goal with
       | |- context [match ?d ?v with Some _ => _ | None => _ end] =>
           destruct (d v) as [x|] eqn:Hx
       end; [|left; apply Hrange; by vm_compute].
  all: destruct (Qeq_bool x 0) eqn:Hz; [left; apply Hrange; by vm_compute|].
  all: right; eexists _, _; split; [reflexivity|]; split; [reflexivity|];
    split; [exact Hx|].
  all: intros Hx0; apply Qeq_bool_iff in Hx0; congruence.
Qed.

Lemma fetched_apy_range_witness :
  (6 <= fst (fetch "uniswap-v3" (mk_world (999 # 1000) BeefyFailure))
   /\ fst (fetch "uniswap-v3" (mk_world (999 # 1000) BeefyFailure)) <= 80)%Q
  /\ (fst (fetch "uniswap-v3" (mk_world (1 - Number.pow2 (-52)) BeefyFailure)) == 80)%Q.
Proof.
  split; [|by vm_compute].
  destruct (fetched_apy_range "uniswap-v3" (mk_world (999 # 1000) BeefyFailure))
    as [Hin|(v & data & _ & Hb & _)].
  - cbn. lra.
  - cbn. lra.
  - exact Hin.
  - discriminate Hb.
Defined.

End ApyFacts.

(** ** Goals *)

Section GoalFacts.
Import Deposits Goals.
Context {zone : Zone}.

Lemma unset_main_of_user userId g : goal_user (unset_main_of userId g) = goal_user g.
Proof. unfold unset_main_of. by destruct (_ =? _)%N. Qed.

Lemma unset_main_of_main userId g :
  is_main_goal (unset_main_of userId g) = true ->
  is_main_goal g = true /\ goal_user g <> userId.
Proof.
  unfold unset_main_of. destruct (N.eqb_spec (goal_user g) userId); [done|]. by split.
Qed.

Lemma CreateGoal_cases userId req s :
  snd (CreateGoal userId req s) = s
  \/ (g_isMainGoal req = Some true
      /\ snd (CreateGoal userId req s)
         = set_savings_goals (fmap (unset_main_of userId)) s)
  \/ exists title targetAmount,
       let isMainGoal := default false (g_isMainGoal req) in
       let goals := if isMainGoal then unset_main_of userId <$> savings_goals s
                    else savings_goals s in
       is_Some (users s !! userId)
       /\ savings_goals (snd (CreateGoal userId req s))
          = <[uuid_seq s := mk_goal userId title targetAmount 0 isMainGoal false]> goals
       /\ uuid_seq (snd (CreateGoal userId req s)) = N.succ (uuid_seq s).
Proof.
  unfold CreateGoal.
  destruct (g_title req) as [title|]; [|by left].
  destruct (g_targetAmount req) as [targetAmount|]; [|by left].
  destruct (g_frequency req) as [frequency|]; [|by left].
  destruct (g_startDate req); [|by left]. destruct (g_endDate req); [|by left].
  destruct (_ || _); [by left|]. destruct (negb _); [by left|].
  destruct (g_isMainGoal req) as [[|]|]; cbn;
    (destruct (bool_decide (is_Some (users s !! userId))) eqn:Hu;
     [apply bool_decide_eq_true in Hu; right; right; by eexists _, _
     |first [by left | right; left; by split]]).
Qed.

Lemma UpdateGoal_cases goalId req s :
  let goals1 :=
    match u_isMainGoal req, savings_goals s !! goalId with
    | Some true, Some g => map_imap (unset_other_main (goal_user g) goalId) (savings_goals s)
    | _, _ => savings_goals s
    end in
  uuid_seq (snd (UpdateGoal goalId req s)) = uuid_seq s
  /\ (savings_goals (snd (UpdateGoal goalId req s)) = goals1
      \/ exists g, goals1 !! goalId = Some g
                   /\ savings_goals (snd (UpdateGoal goalId req s))
                      = <[goalId := updated_goal req g]> goals1).
Proof.
  intros goals1. unfold UpdateGoal.
  set (s1 := match u_isMainGoal req, savings_goals s !! goalId with
             | Some true, Some g =>
                 set_savings_goals (map_imap (unset_other_main (goal_user g) goalId)) s
             | _, _ => s
             end).
  assert (Hs1 : uuid_seq s1 = uuid_seq s /\ savings_goals s1 = goals1).
  { subst s1 goals1. destruct (u_isMainGoal req) as [[|]|]; try done.
    by destruct (savings_goals s !! goalId). }
  destruct Hs1 as [Hseq Hgoals].
  destruct (no_fields req); [by split; [|left]|].
  rewrite Hgoals. destruct (goals1 !! goalId) as [g|] eqn:Hg; [|by split; [|left]].
  destruct (match u_frequency req with Some _ => _ | None => _ end);
    [|by split; [|left]].
  split; [done|]. right. exists g. split; [done|].
  cbn [snd set_savings_goals savings_goals]. by rewrite Hgoals.
Qed.

Lemma unset_other_main_lookup userId goalId goals i :
  map_imap (unset_other_main userId goalId) goals !! i
  = (fun g => if (goal_user g =? userId)%N && negb (i =? goalId)%N
              then unset_main g else g) <$> goals !! i.
Proof. rewrite map_lookup_imap. by destruct (goals !! i). Qed.

Lemma one_main_goal_update goalId req s :
  one_main_goal s -> one_main_goal (snd (UpdateGoal goalId req s)).
Proof.
  intros Hone.
  destruct (UpdateGoal_cases goalId req s) as (_ & Hend). cbv zeta in Hend.
  set (goals1 := match u_isMainGoal req, savings_goals s !! goalId with
                 | Some true, Some g =>
                     map_imap (unset_other_main (goal_user g) goalId) (savings_goals s)
                 | _, _ => savings_goals s
                 end) in *.
  assert (Hkeep : forall i gi, goals1 !! i = Some gi ->
            exists g0, savings_goals s !! i = Some g0
                       /\ goal_user g0 = goal_user gi
                       /\ (is_main_goal gi = true -> is_main_goal g0 = true)).
  { intros i gi Hi. subst goals1.
    destruct (u_isMainGoal req) as [[|]|]; try by exists gi.
    destruct (savings_goals s !! goalId) as [g|]; [|by exists gi].
    rewrite unset_other_main_lookup in Hi.
    destruct (savings_goals s !! i) as [g0|]; [|done]. injection Hi as <-.
    exists g0. split; [done|]. by destruct (_ && _). }
  assert (Hone1 : forall i j gi gj, goals1 !! i = Some gi -> goals1 !! j = Some gj ->
            goal_user gi = goal_user gj ->
            is_main_goal gi = true -> is_main_goal gj = true -> i = j).
  { intros i j gi gj Hi Hj Hu Hmi Hmj.
    destruct (Hkeep _ _ Hi) as (gi0 & Hi0 & Hui & Hmi0).
    destruct (Hkeep _ _ Hj) as (gj0 & Hj0 & Huj & Hmj0).
    eapply (Hone i j); eauto. congruence. }
  destruct Hend as [Hend|(g & Hg & Hend)]; unfold one_main_goal; rewrite Hend; [done|].
  assert (Hothers : u_isMainGoal req = Some true ->
            forall k gk, k <> goalId -> goals1 !! k = Some gk ->
              goal_user gk = goal_user g -> is_main_goal gk = false).
  { intros Hmain k gk Hk Hgk Huk. subst goals1. rewrite Hmain in *.
    destruct (savings_goals s !! goalId) as [g0|] eqn:Hg0; [|congruence].
    rewrite unset_other_main_lookup in Hgk, Hg.
    rewrite Hg0 in Hg. cbn in Hg. rewrite !N.eqb_refl in Hg. cbn in Hg.
    injection Hg as <-.
    destruct (savings_goals s !! k) as [gk0|]; [|done]. injection Hgk as <-.
    destruct (N.eqb_spec (goal_user gk0) (goal_user g0)) as [Heq|Hne].
    - destruct (N.eqb_spec k goalId); [done|]. done.
    - cbn [andb] in Huk. done. }
  intros i j gi gj Hi Hj Hu Hmi Hmj.
  destruct (decide (i = goalId)) as [->|Hi'], (decide (j = goalId)) as [->|Hj'];
    [done|..].
  - rewrite lookup_insert_eq in Hi. rewrite lookup_insert_ne in Hj by done.
    injection Hi as <-. cbn in Hu, Hmi.
    destruct (u_isMainGoal req) as [[|]|] eqn:Hmain; cbn in Hmi; [|done|].
    + by rewrite (Hothers eq_refl j gj) in Hmj.
    + by apply (Hone1 goalId j g gj).
  - rewrite lookup_insert_eq in Hj. rewrite lookup_insert_ne in Hi by done.
    injection Hj as <-. cbn in Hu, Hmj.
    destruct (u_isMainGoal req) as [[|]|] eqn:Hmain; cbn in Hmj; [|done|].
    + by rewrite (Hothers eq_refl i gi) in Hmi.
    + by apply (Hone1 i goalId gi g).
  - rewrite lookup_insert_ne in Hi, Hj by done. by apply (Hone1 i j gi gj).
Qed.

(** Goals that are rows of the goals before, with the same owner and no new
    main flag, keep both invariants. *)
Lemma goals_refine s s' :
  (forall i g', savings_goals s' !! i = Some g' ->
     exists g, savings_goals s !! i = Some g /\ goal_user g = goal_user g'
               /\ (is_main_goal g' = true -> is_main_goal g = true)) ->
  (uuid_seq s <= uuid_seq s')%N ->
  one_main_goal s /\ goal_ids_drawn s -> one_main_goal s' /\ goal_ids_drawn s'.
Proof.
  intros Hrows Hseq [Hone Hids]. split.
  - intros i j gi gj Hi Hj Hu Hmi Hmj.
    destruct (Hrows _ _ Hi) as (gi0 & Hi0 & Hui & Hmi0).
    destruct (Hrows _ _ Hj) as (gj0 & Hj0 & Huj & Hmj0).
    eapply (Hone i j); eauto. congruence.
  - intros i [g' Hi]. destruct (Hrows _ _ Hi) as (g & Hg & _).
    specialize (Hids i (ex_intro _ g Hg)). lia.
Qed.

Lemma goal_invariants_create userId req s :
  one_main_goal s /\ goal_ids_drawn s ->
  one_main_goal (snd (CreateGoal userId req s))
  /\ goal_ids_drawn (snd (CreateGoal userId req s)).
Proof.
  intros Hinv.
  assert (Hunset : forall i g',
            (unset_main_of userId <$> savings_goals s) !! i = Some g' ->
            exists g, savings_goals s !! i = Some g /\ goal_user g = goal_user g'
                      /\ (is_main_goal g' = true -> is_main_goal g = true)
                      /\ (is_main_goal g' = true -> goal_user g' <> userId)).
  { intros i g' Hi. rewrite lookup_fmap in Hi.
    destruct (savings_goals s !! i) as [g|]; [|done]. injection Hi as <-.
    exists g. split; [done|]. rewrite unset_main_of_user. split; [done|].
    split; intros Hm; by apply unset_main_of_main in Hm as [? ?]. }
  destruct (CreateGoal_cases userId req s)
    as [->|[[_ ->]|(title & targetAmount & _ & Hgoals & Hseq)]]; [done|..].
  - apply (goals_refine s); [|done|done]. intros i g' Hi.
    destruct (Hunset i g' Hi) as (g & ? & ? & ? & _). eauto.
  - cbv zeta in Hgoals. destruct Hinv as [Hone Hids].
    assert (Hfresh : savings_goals s !! uuid_seq s = None).
    { destruct (savings_goals s !! uuid_seq s) as [g|] eqn:Hg; [|done].
      specialize (Hids _ (ex_intro _ g Hg)). lia. }
    set (goals := if default false (g_isMainGoal req)
                  then unset_main_of userId <$> savings_goals s
                  else savings_goals s) in *.
    assert (Hrows : forall i g', goals !! i = Some g' ->
              exists g, savings_goals s !! i = Some g /\ goal_user g = goal_user g'
                        /\ (is_main_goal g' = true -> is_main_goal g = true)
                        /\ (default false (g_isMainGoal req) = true ->
                            is_main_goal g' = true -> goal_user g' <> userId)).
    { intros i g' Hi. subst goals. destruct (default false (g_isMainGoal req)).
      - destruct (Hunset i g' Hi) as (g & ? & ? & ? & ?). eauto 8.
      - exists g'. by repeat split. }
    split.
    + unfold one_main_goal. rewrite Hgoals. intros i j gi gj Hi Hj Hu Hmi Hmj.
      destruct (decide (i = uuid_seq s)) as [->|Hi'],
               (decide (j = uuid_seq s)) as [->|Hj']; [done|..].
      * rewrite lookup_insert_eq in Hi. rewrite lookup_insert_ne in Hj by done.
        injection Hi as <-. cbn in Hu, Hmi.
        destruct (Hrows j gj Hj) as (_ & _ & _ & _ & Hno). by destruct (Hno Hmi Hmj).
      * rewrite lookup_insert_eq in Hj. rewrite lookup_insert_ne in Hi by done.
        injection Hj as <-. cbn in Hu, Hmj.
        destruct (Hrows i gi Hi) as (_ & _ & _ & _ & Hno). by destruct (Hno Hmj Hmi).
      * rewrite lookup_insert_ne in Hi, Hj by done.
        destruct (Hrows i gi Hi) as (gi0 & Hi0 & Hui & Hmi0 & _).
        destruct (Hrows j gj Hj) as (gj0 & Hj0 & Huj & Hmj0 & _).
        eapply (Hone i j); eauto. congruence.
    + unfold goal_ids_drawn. rewrite Hgoals, Hseq. intros i [g' Hi].
      destruct (decide (i = uuid_seq s)) as [->|Hi']; [lia|].
      rewrite lookup_insert_ne in Hi by done.
      destruct (Hrows i g' Hi) as (g & Hg & _).
      specialize (Hids i (ex_intro _ g Hg)). lia.
Qed.

Lemma goal_invariants_update goalId req s :
  one_main_goal s /\ goal_ids_drawn s ->
  one_main_goal (snd (UpdateGoal goalId req s))
  /\ goal_ids_drawn (snd (UpdateGoal goalId req s)).
Proof.
  intros [Hone Hids]. split; [by apply one_main_goal_update|].
  destruct (UpdateGoal_cases goalId req s) as (Hseq & Hend). cbv zeta in Hend.
  set (goals1 := match u_isMainGoal req, savings_goals s !! goalId with
                 | Some true, Some g =>
                     map_imap (unset_other_main (goal_user g) goalId) (savings_goals s)
                 | _, _ => savings_goals s
                 end) in *.
  assert (Hdom : forall i, is_Some (goals1 !! i) -> is_Some (savings_goals s !! i)).
  { intros i. subst goals1. destruct (u_isMainGoal req) as [[|]|]; try done.
    destruct (savings_goals s !! goalId) as [g|]; [|done].
    rewrite unset_other_main_lookup. by rewrite fmap_is_Some. }
  unfold goal_ids_drawn. rewrite Hseq. intros i Hi. apply Hids, Hdom.
  destruct Hend as [Hend|(g & Hg & Hend)]; rewrite Hend in Hi; [done|].
  destruct (decide (i = goalId)) as [->|Hne]; [by rewrite Hg|].
  by rewrite lookup_insert_ne in Hi.
Qed.

Lemma goal_invariants_delete goalId s :
  one_main_goal s /\ goal_ids_drawn s ->
  one_main_goal (snd (DeleteGoal goalId s))
  /\ goal_ids_drawn (snd (DeleteGoal goalId s)).
Proof.
  unfold DeleteGoal. destruct (savings_goals s !! goalId) as [g|]; [|done].
  apply goals_refine; [|done]. cbn [snd set_deposits set_savings_goals savings_goals].
  intros i g' Hi. apply lookup_delete_Some in Hi as [_ Hi]. by exists g'.
Qed.

Lemma goal_invariants_deposit userId req now s :
  one_main_goal s /\ goal_ids_drawn s ->
  one_main_goal (snd (RecordDeposit userId req now s))
  /\ goal_ids_drawn (snd (RecordDeposit userId req now s)).
Proof.
  destruct (RecordDeposit_cases userId req now s) as [->| ->]; [|done].
  apply goals_refine; cbn [snd deposit_post savings_goals uuid_seq]; [|lia].
  intros i g' Hi. destruct (decide (d_goalId req = Some i)) as [Hg|Hg].
  - rewrite Hg in Hi. destruct (savings_goals s !! i) as [g|] eqn:Hgi.
    + rewrite (goals_after_lookup _ _ _ _ Hgi) in Hi. injection Hi as <-.
      exists g. split; [done|]. cbv zeta. by destruct (reached _).
    + unfold goals_after in Hi. rewrite lookup_alter_eq, Hgi in Hi. cbn in Hi.
      by rewrite lookup_alter_eq, Hgi in Hi.
  - rewrite goals_after_other in Hi by done. by exists g'.
Qed.

(** X22.  No user ever has two main goals.  Over any sequence of goal
    creations, goal updates, goal deletions and deposits, accepted or
    refused, a store in which every user has at most one goal flagged
    is_main_goal (and goal ids come from the generator) stays such a
    store: making a goal the main one, at creation or by an update, unsets
    the user's other main goals first. *)
Theorem main_goal_stays_unique es s :
  one_main_goal s -> goal_ids_drawn s ->
  one_main_goal (goal_handle_all es s) /\ goal_ids_drawn (goal_handle_all es s).
Proof.
  intros Hone Hids. assert (Hinv := conj Hone Hids). clear Hone Hids.
  revert s Hinv. induction es as [|e es IH]; intros s Hinv; [done|].
  cbn [goal_handle_all fold_left]. apply IH. destruct e; cbn [goal_handle].
  - by apply goal_invariants_create.
  - by apply goal_invariants_update.
  - by apply goal_invariants_delete.
  - by apply goal_invariants_deposit.
Qed.

(** X23.  An update that fails can still take the main flag away.  PUT
    /api/goals/:goalId unsets the user's other main goals in a statement of
    its own before the UPDATE of the goal; when that UPDATE is refused by
    the CHECK on frequency, the reply is 500, the goal itself is as
    before, and every other goal of its owner has is_main_goal = false:
    a user whose main goal was another one is left with no main goal. *)
Theorem failed_update_unsets_main goalId req s g frequency :
  savings_goals s !! goalId = Some g ->
  u_isMainGoal req = Some true ->
  u_frequency req = Some frequency ->
  frequency ∉ FREQUENCIES ->
  let s' := snd (UpdateGoal goalId req s) in
  fst (UpdateGoal goalId req s) = ServerError "Failed to update goal"
  /\ savings_goals s' !! goalId = Some g
  /\ (forall other row, other <> goalId ->
        savings_goals s !! other = Some row ->
        savings_goals s' !! other
        = Some (if (goal_user row =? goal_user g)%N then unset_main row else row))
  /\ users s' = users s /\ deposits s' = deposits s.
Proof.
  intros Hg Hmain Hfreq Hbad s'. subst s'. unfold UpdateGoal.
  rewrite Hmain, Hg. cbn [set_savings_goals savings_goals].
  assert (Hno : no_fields req = false).
  { unfold no_fields. rewrite Hmain.
    by destruct (u_title req), (u_targetAmount req), (u_currentAmount req),
                (u_frequency req), (u_endDate req). }
  rewrite Hno, unset_other_main_lookup, Hg. cbn [fmap option_fmap option_map].
  rewrite Hfreq, bool_decide_eq_false_2 by done. cbn [fst snd savings_goals users deposits].
  split; [done|]. cbn [set_savings_goals savings_goals users deposits].
  rewrite unset_other_main_lookup, Hg. cbn [fmap option_fmap option_map].
  rewrite !N.eqb_refl. cbn [negb andb]. split; [done|]. split; [|done].
  intros other row Hne Hrow. rewrite unset_other_main_lookup, Hrow.
  cbn [fmap option_fmap option_map].
  destruct (N.eqb_spec other goalId); [done|]. by rewrite andb_true_r.
Qed.

(** X24.  Deleting a goal keeps the money and cuts the references: the
    goal's row goes, the deposits made to it stay with their amounts and
    lose only their goal_id (ON DELETE SET NULL), no user row and no ledger
    row changes (total_balance still holds what was deposited to the goal),
    a later deposit naming the deleted goal is refused with 500 and writes
    nothing, and a second deletion answers "Goal not found". *)
Theorem deleted_goal_keeps_the_money goalId s g :
  savings_goals s !! goalId = Some g ->
  let s' := snd (DeleteGoal goalId s) in
  fst (DeleteGoal goalId s) = OkJson tt
  /\ savings_goals s' = delete goalId (savings_goals s)
  /\ users s' = users s /\ transactions s' = transactions s
  /\ map dep_amount (deposits s') = map dep_amount (deposits s)
  /\ map dep_user (deposits s') = map dep_user (deposits s)
  /\ Forall (fun d => dep_goal d <> Some goalId) (deposits s')
  /\ (forall userId req now,
        d_goalId req = Some goalId -> 0 < d_amount req ->
        RecordDeposit userId req now s' = (ServerError "Failed to create deposit", s'))
  /\ DeleteGoal goalId s' = (NotFound "Goal not found", s').
Proof.
  intros Hg s'. subst s'.
  assert (Hcall : DeleteGoal goalId s
                  = (OkJson tt, set_deposits (map (clear_goal goalId))
                                  (set_savings_goals (delete goalId) s)))
    by (unfold DeleteGoal; by rewrite Hg).
  rewrite !Hcall.
  cbn [fst snd set_deposits set_savings_goals savings_goals users transactions deposits].
  split; [done|]. split; [done|]. split; [done|]. split; [done|].
  rewrite !map_map. split; [|split; [|split; [|split]]].
  - apply map_ext. intros d. unfold clear_goal. by destruct (bool_decide _).
  - apply map_ext. intros d. unfold clear_goal. by destruct (bool_decide _).
  - apply Forall_forall. intros d' Hd. apply list_elem_of_In, in_map_iff in Hd as (d & <- & _).
    unfold clear_goal. destruct (bool_decide (dep_goal d = Some goalId)) eqn:Hd.
    + done.
    + by apply bool_decide_eq_false in Hd.
  - intros userId req now Hgoal Ha. unfold RecordDeposit.
    destruct (Z.leb_spec (d_amount req) 0); [lia|].
    rewrite deposit_tx_raises; [done|]. unfold deposit_refs_ok.
    rewrite Hgoal. cbn [fk_ok savings_goals set_deposits set_savings_goals].
    rewrite (bool_decide_eq_false_2 (is_Some (delete goalId (savings_goals s) !! goalId))).
    + by rewrite andb_false_r.
    + rewrite lookup_delete_eq. by intros [? ?].
  - unfold DeleteGoal. cbn [savings_goals set_deposits set_savings_goals].
    by rewrite lookup_delete_eq.
Qed.

End GoalFacts.

Section GoalExamples.
Import Deposits Goals.
#[local] Existing Instance UTC.

Lemma main_goal_stays_unique_witness :
  let house := mk_goal_request (Some "House") (Some 900000000) (Some "monthly")
                               (Some 0) (Some 1) (Some true) in
  let s' := goal_handle_all
              [GoalCreated 1%N house;
               GoalUpdated 7%N (mk_goal_update None None None None None (Some true) None)]
              demo_store in
  one_main_goal s'
  /\ is_main_goal <$> savings_goals s' !! 7%N = Some true
  /\ is_main_goal <$> savings_goals s' !! 100%N = Some false.
Proof.
  intros house s'.
  destruct (main_goal_stays_unique
              [GoalCreated 1%N house;
               GoalUpdated 7%N (mk_goal_update None None None None None (Some true) None)]
              demo_store) as [Hone _].
  - intros i j gi gj Hi Hj _ _ _. cbn in Hi, Hj.
    apply lookup_singleton_Some in Hi as [<- _].
    by apply lookup_singleton_Some in Hj as [<- _].
  - intros i [g Hi]. cbn in Hi. apply lookup_singleton_Some in Hi as [<- _]. done.
  - split; [exact Hone|]. split; vm_compute; reflexivity.
Defined.

Lemma failed_update_unsets_main_witness :
  let s := snd (CreateGoal 1%N (mk_goal_request (Some "House") (Some 900000000)
                                  (Some "monthly") (Some 0) (Some 1) None) demo_store) in
  let req := mk_goal_update None None None (Some "daily") None (Some true) None in
  fst (UpdateGoal 100%N req s) = ServerError "Failed to update goal"
  /\ is_main_goal <$> savings_goals (snd (UpdateGoal 100%N req s)) !! 7%N = Some false
  /\ is_main_goal <$> savings_goals (snd (UpdateGoal 100%N req s)) !! 100%N = Some false.
Proof.
  intros s req.
  destruct (failed_update_unsets_main 100%N req s
              (mk_goal 1%N "House" 900000000 0 false false) "daily")
    as (Hreply & Hgoal & Hothers & _).
  - vm_compute. reflexivity.
  - reflexivity.
  - reflexivity.
  - unfold FREQUENCIES. intros Hin.
    repeat (apply elem_of_cons in Hin as [Hin|Hin]; [discriminate|]).
    by apply elem_of_nil in Hin.
  - split; [exact Hreply|]. split.
    + rewrite (Hothers 7%N (mk_goal 1%N "Car" 150000000 0 true false));
        [reflexivity|discriminate|vm_compute; reflexivity].
    + by rewrite Hgoal.
Defined.

Lemma deleted_goal_keeps_the_money_witness :
  let s := snd (RecordDeposit 1%N (mk_deposit_request (Some 7%N) 5000000 None None)
                              (on_day 19000 0) demo_store) in
  map dep_goal (deposits s) = [Some 7%N]
  /\ map dep_goal (deposits (snd (DeleteGoal 7%N s))) = [None]
  /\ users (snd (DeleteGoal 7%N s)) = users s.
Proof.
  intros s.
  destruct (deleted_goal_keeps_the_money 7%N s (mk_goal 1%N "Car" 150000000 5000000 true false))
    as (_ & _ & Husers & _).
  - vm_compute. reflexivity.
  - split; [vm_compute; reflexivity|]. split; [vm_compute; reflexivity|exact Husers].
Defined.

End GoalExamples.

(** ** Balances *)

Section LedgerBounds.
Import Deposits Transactions Ledger.
Context {zone : Zone}.

Lemma credit_of_nonneg u e : 0 <= credit_of u e.
Proof.
  destruct e as [userId req now|userId req|userId req now]; cbn [credit_of];
    try destruct (userId =? u)%N; lia.
Qed.

Lemma credited_snoc u es e : credited u (es ++ [e]) = credited u es + credit_of u e.
Proof. unfold credited. induction es as [|e' es IH]; cbn [app fold_right]; lia. Qed.

Lemma credited_nonneg u es : 0 <= credited u es.
Proof.
  induction es as [|e es IH]; cbn [credited fold_right]; [lia|].
  pose proof (credit_of_nonneg u e). fold (credited u es). lia.
Qed.

(** One request, for a balance below 8 000 000 000. *)
Lemma handle_keeps_balance s e u :
  0 <= balance_of s u < 8000000000000000 ->
  0 <= balance_of (handle s e) u <= balance_of s u + credit_of u e.
Proof.
  intros Hb. destruct e as [userId req now|userId req|userId req now];
    cbn [handle credit_of].
  - unfold RecordDeposit. destruct (Z.leb_spec (d_amount req) 0);
      [cbn [snd]; destruct (userId =? u)%N; lia|].
    destruct (deposit_refs_ok userId req s) eqn:Hok;
      [rewrite deposit_tx_ok by done
      |rewrite deposit_tx_raises by done; cbn [snd]; destruct (userId =? u)%N; lia].
    cbn [snd]. rewrite (balance_of_alter (credit (d_amount req)) userId s) by done.
    case_decide as Hu; [subst; rewrite N.eqb_refl|rewrite (proj2 (N.eqb_neq _ _) Hu); lia].
    unfold balance_of in *. destruct (users s !! u); cbn; lia.
  - rewrite Z.add_0_r.
    unfold RecordWithdrawal. destruct (Z.leb_spec (w_amount req) 0); [cbn [snd]; lia|].
    destruct (users s !! userId) as [r|] eqn:Hr; [|cbn [snd]; lia].
    destruct (Number.ltb _ _) eqn:Hcheck; [cbn [snd]; lia|].
    rewrite withdrawal_tx_run. cbn [snd].
    rewrite (balance_of_alter (debit (w_amount req)) userId s) by done.
    case_decide as Hu; [subst|lia]. unfold balance_of in *. rewrite Hr in *.
    pose proof (parseFloat_ge _ _ Hb Hcheck). cbn. lia.
  - unfold RecordEarnings. destruct (Z.leb_spec (e_amount req) 0);
      [cbn [snd]; destruct (userId =? u)%N; lia|].
    destruct (fits_decimal_10_6 (growth_of (e_amount req))) eqn:Hfits;
      [|rewrite earnings_tx_overflow by done; cbn [snd]; destruct (userId =? u)%N; lia].
    destruct (users s !! userId) as [r|] eqn:Hr;
      [rewrite earnings_tx_run by done
      |rewrite earnings_tx_raises by done; cbn [snd]; destruct (userId =? u)%N; lia].
    cbn [snd]. rewrite (balance_of_alter (credit_earnings (e_amount req)) userId s) by done.
    case_decide as Hu; [subst; rewrite N.eqb_refl|rewrite (proj2 (N.eqb_neq _ _) Hu); lia].
    unfold balance_of in *. rewrite Hr in *. cbn. lia.
Qed.

(** X25.  Served one after the other, deposits, withdrawals and earnings
    postings do not take a balance below zero as long as it stays below
    8 000 000 000: for a user whose total_balance is non-negative and, with
    all that the sequence deposits and posts for that user added, below
    that bound, the balance after the sequence, accepted or refused, is
    non-negative and at most the former balance plus what was credited.
    (Above the bound the balance check, made on doubles, lets a withdrawal
    of more than the balance through; overlapping withdrawals are another
    matter.) *)
Theorem balances_stay_non_negative es s u :
  0 <= balance_of s u ->
  balance_of s u + credited u es < 8000000000000000 ->
  0 <= balance_of (handle_all es s) u <= balance_of s u + credited u es.
Proof.
  intros Hs. induction es as [|e es IH] using rev_ind; intros Hbound.
  - cbn. lia.
  - rewrite credited_snoc in *. pose proof (credit_of_nonneg u e).
    rewrite handle_all_snoc.
    pose proof (handle_keeps_balance (handle_all es s) e u). lia.
Qed.

End LedgerBounds.

Section LedgerBoundsExamples.
Import Deposits Transactions Ledger.
#[local] Existing Instance UTC.

Lemma balances_stay_non_negative_witness :
  0 <= balance_of
         (handle_all [Withdrawal 1%N (mk_withdrawal_request 100000000 None None None);
                      Withdrawal 1%N (mk_withdrawal_request 1 None None None);
                      Deposit 1%N (mk_deposit_request None 5000000 None None)
                              (on_day 19000 0)]
                     demo_store) 1%N
  <= 100000000 + 5000000.
Proof.
  apply (balances_stay_non_negative
           [Withdrawal 1%N (mk_withdrawal_request 100000000 None None None);
            Withdrawal 1%N (mk_withdrawal_request 1 None None None);
            Deposit 1%N (mk_deposit_request None 5000000 None None) (on_day 19000 0)]
           demo_store 1%N).
  - vm_compute. discriminate.
  - vm_compute. reflexivity.
Defined.

(** Above the bound: a deposit of 100000000000 on an empty balance, a
    withdrawal of 0.000001 and a withdrawal of 100000000000 are all
    accepted, and the balance ends at -0.000001. *)
Example large_balance_goes_negative :
  let empty := set_users (<[1%N := mk_user "0xabc" "lite" 0 0]>) demo_store in
  balance_of
    (handle_all [Deposit 1%N (mk_deposit_request None 100000000000000000 None None)
                         (on_day 19000 0);
                 Withdrawal 1%N (mk_withdrawal_request 1 None None None);
                 Withdrawal 1%N (mk_withdrawal_request 100000000000000000 None None None)]
                empty) 1%N
  = -1.
Proof. vm_compute. reflexivity. Qed.

End LedgerBoundsExamples.

(** ** Connecting a wallet *)

Section AuthFacts.
Import Deposits Auth.
Context {zone : Zone}.

Variable toLowerCase : string -> string.

Lemma find_wallet_Some address t id user :
  find_wallet address t = Some (id, user) ->
  t !! id = Some user /\ wallet_address user = address.
Proof.
  unfold find_wallet. intros Hfind. apply find_some in Hfind as [Hin Hp].
  apply list_elem_of_In, elem_of_map_to_list in Hin.
  by apply String.eqb_eq in Hp.
Qed.

Lemma find_wallet_None address t id user :
  find_wallet address t = None -> t !! id = Some user ->
  wallet_address user <> address.
Proof.
  unfold find_wallet. intros Hfind Hu Heq.
  apply elem_of_map_to_list, list_elem_of_In in Hu.
  pose proof (find_none _ _ Hfind _ Hu) as Hp. cbn in Hp.
  by apply String.eqb_neq in Hp.
Qed.

(** X26.  Connecting a wallet twice gives the same account, whatever the
    letter case.  The first connection of an address answers with the
    user whose wallet_address is the address in lower case, creating it
    if there is none (mode lite, balance and earnings 0, and an all-zero
    streak row); a later connection with an address that lower-cases to
    the same string answers with the same id and row and writes nothing.
    Since the account is created with its streak row, its first accepted
    deposit starts the streak at 1. *)
Theorem connect_wallet_twice a b s :
  a <> "" -> b <> "" -> toLowerCase a = toLowerCase b ->
  exists id user,
    let s1 := snd (ConnectWallet toLowerCase (Some a) s) in
    ConnectWallet toLowerCase (Some a) s = (OkJson (id, user), s1)
    /\ ConnectWallet toLowerCase (Some b) s1 = (OkJson (id, user), s1)
    /\ users s1 !! id = Some user
    /\ wallet_address user = toLowerCase a
    /\ (find_wallet (toLowerCase a) (users s) = None ->
        id = uuid_seq s /\ user = mk_user (toLowerCase a) "lite" 0 0
        /\ streaks s1 !! id = Some (mk_streak 0 0 None 0)
        /\ forall req now,
             0 < d_amount req -> d_goalId req = None -> d_paymentMethodId req = None ->
             let s2 := snd (RecordDeposit id req now s1) in
             streaks s2 !! id = Some (mk_streak 1 1 (Some (iso_day now)) 1)
             /\ users s2 !! id = Some (mk_user (toLowerCase a) "lite" (d_amount req) 0))
    /\ (is_Some (find_wallet (toLowerCase a) (users s)) -> s1 = s).
Proof.
  intros Ha Hb Hab. unfold ConnectWallet at 1 2.
  rewrite (proj2 (String.eqb_neq a "") Ha).
  destruct (find_wallet (toLowerCase a) (users s)) as [[id user]|] eqn:Hfind.
  - exists id, user. cbn [snd]. split; [done|].
    destruct (find_wallet_Some _ _ _ _ Hfind) as [Hu Haddr].
    split; [|by repeat split].
    unfold ConnectWallet. rewrite (proj2 (String.eqb_neq b "") Hb).
    by rewrite <- Hab, Hfind.
  - exists (uuid_seq s), (mk_user (toLowerCase a) "lite" 0 0). cbn [snd].
    split; [done|].
    set (s1 := mk_db _ _ _ _ _ _ _ _ _ _).
    assert (Hu1 : users s1 !! uuid_seq s = Some (mk_user (toLowerCase a) "lite" 0 0))
      by (cbn; by rewrite lookup_insert_eq).
    assert (Hfind1 : find_wallet (toLowerCase a) (users s1)
                     = Some (uuid_seq s, mk_user (toLowerCase a) "lite" 0 0)).
    { destruct (find_wallet (toLowerCase a) (users s1)) as [[id' user']|] eqn:Hf.
      - destruct (find_wallet_Some _ _ _ _ Hf) as [Hin Haddr]. cbn in Hin.
        destruct (decide (id' = uuid_seq s)) as [->|Hne].
        + rewrite lookup_insert_eq in Hin. by injection Hin as <-.
        + rewrite lookup_insert_ne in Hin by done.
          by destruct (find_wallet_None _ _ _ _ Hfind Hin).
      - by destruct (find_wallet_None _ _ _ _ Hf Hu1). }
    split.
    { unfold ConnectWallet. rewrite (proj2 (String.eqb_neq b "") Hb).
      by rewrite <- Hab, Hfind1. }
    split; [done|]. split; [done|]. split; [|by intros [? ?]].
    intros _. split; [done|]. split; [done|].
    split; [cbn; by rewrite lookup_insert_eq|].
    intros req now Hamount Hgoal Hpm.
    rewrite RecordDeposit_ok; [|done|].
    + cbn [snd deposit_post streaks users]. split.
      * rewrite (streaks_after_lookup _ _ _ new_streak)
          by (cbn; by rewrite lookup_insert_eq).
        by rewrite streak_step_first.
      * by rewrite lookup_alter_eq, Hu1.
    + apply refs_ok_intro; [by rewrite Hu1|by rewrite Hgoal|by rewrite Hpm].
Qed.

End AuthFacts.

Section AuthExamples.
#[local] Existing Instance UTC.

Lemma connect_wallet_twice_witness :
  let s := demo_store in
  fst (Auth.ConnectWallet Auth.lower (Some "0xABCdef") s)
  = OkJson (100%N, mk_user "0xabcdef" "lite" 0 0)
  /\ fst (Auth.ConnectWallet Auth.lower (Some "0xabcDEF")
                              (snd (Auth.ConnectWallet Auth.lower (Some "0xABCdef") s)))
     = OkJson (100%N, mk_user "0xabcdef" "lite" 0 0).
Proof.
  intros s.
  destruct (connect_wallet_twice Auth.lower "0xABCdef" "0xabcDEF" s)
    as (id & user & H1 & H2 & _ & _ & Hnew & _).
  - discriminate.
  - discriminate.
  - reflexivity.
  - cbv zeta in H1, H2, Hnew. destruct Hnew as (-> & -> & _); [vm_compute; reflexivity|].
    split; [by rewrite H1|by rewrite H2].
Defined.

End AuthExamples.

(** ** Payment methods *)

Section PaymentFacts.
Import Deposits PaymentMethods.
Context {zone : Zone}.

Lemma unset_other_default_lookup userId paymentMethodId (rows : gmap N payment_row) i :
  map_imap (unset_other_default userId paymentMethodId) rows !! i
  = (fun r => if (pm_user r =? userId)%N && negb (i =? paymentMethodId)%N
              then unset_default r else r) <$> rows !! i.
Proof. rewrite map_lookup_imap. by destruct (rows !! i). Qed.

(** Rows that are rows of the table before, with the same owner and no new
    default flag, keep the invariants. *)
Lemma methods_refine st st' :
  (forall i r', methods st' !! i = Some r' ->
     exists r, methods st !! i = Some r /\ pm_user r = pm_user r'
               /\ (is_default r' = true -> is_default r = true)) ->
  one_default st -> one_default st'.
Proof.
  intros Hrows Hone i j ri rj Hi Hj Hu Hmi Hmj.
  destruct (Hrows _ _ Hi) as (ri0 & Hi0 & Hui & Hmi0).
  destruct (Hrows _ _ Hj) as (rj0 & Hj0 & Huj & Hmj0).
  eapply (Hone i j); eauto. congruence.
Qed.

Lemma AddPaymentMethod_cases userId req st :
  snd (AddPaymentMethod userId req st) = st
  \/ (default false (m_isDefault req) = true
      /\ snd (AddPaymentMethod userId req st)
         = set_methods (fmap (unset_default_of userId)) st)
  \/ exists row,
       let rows := if default false (m_isDefault req)
                   then unset_default_of userId <$> methods st else methods st in
       pm_user row = userId /\ is_default row = default false (m_isDefault req)
       /\ is_active row = true
       /\ methods (snd (AddPaymentMethod userId req st))
          = <[uuid_seq (base st) := row]> rows
       /\ payment_methods (base (snd (AddPaymentMethod userId req st)))
          = {[uuid_seq (base st)]} ∪ payment_methods (base st)
       /\ uuid_seq (base (snd (AddPaymentMethod userId req st)))
          = N.succ (uuid_seq (base st))
       /\ deposits (base (snd (AddPaymentMethod userId req st))) = deposits (base st)
       /\ users (base (snd (AddPaymentMethod userId req st))) = users (base st).
Proof.
  unfold AddPaymentMethod.
  destruct (negb _); [by left|]. destruct (_ && _); [by left|].
  destruct (_ && _); [by left|].
  destruct (default false (m_isDefault req)); cbn [set_methods base methods];
    (destruct (bool_decide (is_Some (users (base st) !! userId)));
     [right; right; eexists (mk_payment _ _ _ _ _ _ _); cbn; by repeat split
     |first [by left|right; left; by split]]).
Qed.

Lemma UpdatePaymentMethod_cases paymentMethodId req st :
  let rows1 :=
    match mu_isDefault req, methods st !! paymentMethodId with
    | Some true, Some r =>
        map_imap (unset_other_default (pm_user r) paymentMethodId) (methods st)
    | _, _ => methods st
    end in
  base (snd (UpdatePaymentMethod paymentMethodId req st)) = base st
  /\ (methods (snd (UpdatePaymentMethod paymentMethodId req st)) = rows1
      \/ exists r, rows1 !! paymentMethodId = Some r
                   /\ methods (snd (UpdatePaymentMethod paymentMethodId req st))
                      = <[paymentMethodId := updated_method req r]> rows1).
Proof.
  intros rows1. unfold UpdatePaymentMethod.
  set (st1 := match mu_isDefault req, methods st !! paymentMethodId with
              | Some true, Some r =>
                  set_methods (map_imap (unset_other_default (pm_user r) paymentMethodId)) st
              | _, _ => st
              end).
  assert (Hst1 : base st1 = base st /\ methods st1 = rows1).
  { subst st1 rows1. destruct (mu_isDefault req) as [[|]|]; try done.
    by destruct (methods st !! paymentMethodId). }
  destruct Hst1 as [Hbase Hrows].
  destruct (no_method_fields req); [by split; [|left]|].
  rewrite Hrows. destruct (rows1 !! paymentMethodId) as [r|] eqn:Hr; [|by split; [|left]].
  split; [done|]. right. exists r. split; [done|].
  cbn [snd set_methods methods]. by rewrite Hrows.
Qed.

Lemma one_default_update paymentMethodId req st :
  one_default st -> one_default (snd (UpdatePaymentMethod paymentMethodId req st)).
Proof.
  intros Hone.
  destruct (UpdatePaymentMethod_cases paymentMethodId req st) as (_ & Hend).
  cbv zeta in Hend.
  set (rows1 := match mu_isDefault req, methods st !! paymentMethodId with
                | Some true, Some r =>
                    map_imap (unset_other_default (pm_user r) paymentMethodId) (methods st)
                | _, _ => methods st
                end) in *.
  assert (Hkeep : forall i ri, rows1 !! i = Some ri ->
            exists r0, methods st !! i = Some r0
                       /\ pm_user r0 = pm_user ri
                       /\ (is_default ri = true -> is_default r0 = true)).
  { intros i ri Hi. subst rows1.
    destruct (mu_isDefault req) as [[|]|]; try by exists ri.
    destruct (methods st !! paymentMethodId) as [r|]; [|by exists ri].
    rewrite unset_other_default_lookup in Hi.
    destruct (methods st !! i) as [r0|]; [|done]. injection Hi as <-.
    exists r0. split; [done|]. by destruct (_ && _). }
  assert (Hone1 : forall i j ri rj, rows1 !! i = Some ri -> rows1 !! j = Some rj ->
            pm_user ri = pm_user rj ->
            is_default ri = true -> is_default rj = true -> i = j).
  { intros i j ri rj Hi Hj Hu Hmi Hmj.
    destruct (Hkeep _ _ Hi) as (ri0 & Hi0 & Hui & Hmi0).
    destruct (Hkeep _ _ Hj) as (rj0 & Hj0 & Huj & Hmj0).
    eapply (Hone i j); eauto. congruence. }
  destruct Hend as [Hend|(r & Hr & Hend)]; unfold one_default; rewrite Hend; [done|].
  assert (Hothers : mu_isDefault req = Some true ->
            forall k rk, k <> paymentMethodId -> rows1 !! k = Some rk ->
              pm_user rk = pm_user r -> is_default rk = false).
  { intros Hmain k rk Hk Hrk Huk. subst rows1. rewrite Hmain in *.
    destruct (methods st !! paymentMethodId) as [r0|] eqn:Hr0; [|congruence].
    rewrite unset_other_default_lookup in Hrk, Hr.
    rewrite Hr0 in Hr. cbn in Hr. rewrite !N.eqb_refl in Hr. cbn in Hr.
    injection Hr as <-.
    destruct (methods st !! k) as [rk0|]; [|done]. injection Hrk as <-.
    destruct (N.eqb_spec (pm_user rk0) (pm_user r0)) as [Heq|Hne].
    - destruct (N.eqb_spec k paymentMethodId); [done|]. done.
    - cbn [andb] in Huk. done. }
  intros i j ri rj Hi Hj Hu Hmi Hmj.
  destruct (decide (i = paymentMethodId)) as [->|Hi'],
           (decide (j = paymentMethodId)) as [->|Hj']; [done|..].
  - rewrite lookup_insert_eq in Hi. rewrite lookup_insert_ne in Hj by done.
    injection Hi as <-. cbn in Hu, Hmi.
    destruct (mu_isDefault req) as [[|]|] eqn:Hmain; cbn in Hmi; [|done|].
    + by rewrite (Hothers eq_refl j rj) in Hmj.
    + by apply (Hone1 paymentMethodId j r rj).
  - rewrite lookup_insert_eq in Hj. rewrite lookup_insert_ne in Hi by done.
    injection Hj as <-. cbn in Hu, Hmj.
    destruct (mu_isDefault req) as [[|]|] eqn:Hmain; cbn in Hmj; [|done|].
    + by rewrite (Hothers eq_refl i ri) in Hmi.
    + by apply (Hone1 i paymentMethodId ri r).
  - rewrite lookup_insert_ne in Hi, Hj by done. by apply (Hone1 i j ri rj).
Qed.

Lemma unset_default_of_row userId i (rows : gmap N payment_row) r' :
  (unset_default_of userId <$> rows) !! i = Some r' ->
  exists r, rows !! i = Some r /\ pm_user r = pm_user r'
            /\ (is_default r' = true -> is_default r = true)
            /\ (is_default r' = true -> pm_user r' <> userId).
Proof.
  intros Hi. rewrite lookup_fmap in Hi.
  destruct (rows !! i) as [r|]; [|done]. injection Hi as <-.
  exists r. split; [done|]. unfold unset_default_of.
  destruct (N.eqb_spec (pm_user r) userId); by repeat split.
Qed.

Lemma method_invariants_add userId req st :
  one_default st /\ methods_linked st ->
  one_default (snd (AddPaymentMethod userId req st))
  /\ methods_linked (snd (AddPaymentMethod userId req st)).
Proof.
  intros [Hone [Hdom Hids]].
  destruct (AddPaymentMethod_cases userId req st)
    as [->|[[_ ->]|(row & Hu & Hd & _ & Hrows & Hset & Hseq & _)]]; [done|..].
  - split.
    + apply (methods_refine st); [|done]. intros i r' Hi. cbn in Hi.
      destruct (unset_default_of_row _ _ _ _ Hi) as (r & ? & ? & ? & _). eauto.
    + split; intros i; cbn [set_methods methods base]; rewrite lookup_fmap, fmap_is_Some;
        [apply Hdom|apply Hids].
  - cbv zeta in Hrows.
    assert (Hfresh : methods st !! uuid_seq (base st) = None).
    { destruct (methods st !! uuid_seq (base st)) as [r|] eqn:Hr; [|done].
      specialize (Hids _ (ex_intro _ r Hr)). lia. }
    set (rows := if default false (m_isDefault req)
                 then unset_default_of userId <$> methods st else methods st) in *.
    assert (Hrow : forall i r', rows !! i = Some r' ->
              exists r, methods st !! i = Some r /\ pm_user r = pm_user r'
                        /\ (is_default r' = true -> is_default r = true)
                        /\ (default false (m_isDefault req) = true ->
                            is_default r' = true -> pm_user r' <> userId)).
    { intros i r' Hi. subst rows. destruct (default false (m_isDefault req)).
      - destruct (unset_default_of_row _ _ _ _ Hi) as (r & ? & ? & ? & ?). eauto 8.
      - exists r'. by repeat split. }
    split; [|split].
    + unfold one_default. rewrite Hrows. intros i j ri rj Hi Hj Huij Hmi Hmj.
      destruct (decide (i = uuid_seq (base st))) as [->|Hi'],
               (decide (j = uuid_seq (base st))) as [->|Hj']; [done|..].
      * rewrite lookup_insert_eq in Hi. rewrite lookup_insert_ne in Hj by done.
        injection Hi as <-. rewrite Hu in Huij. rewrite Hd in Hmi.
        destruct (Hrow j rj Hj) as (_ & _ & _ & _ & Hno). by destruct (Hno Hmi Hmj).
      * rewrite lookup_insert_eq in Hj. rewrite lookup_insert_ne in Hi by done.
        injection Hj as <-. rewrite Hu in Huij. rewrite Hd in Hmj.
        destruct (Hrow i ri Hi) as (_ & _ & _ & _ & Hno). by destruct (Hno Hmj Hmi).
      * rewrite lookup_insert_ne in Hi, Hj by done.
        destruct (Hrow i ri Hi) as (ri0 & Hi0 & Hui & Hmi0 & _).
        destruct (Hrow j rj Hj) as (rj0 & Hj0 & Huj & Hmj0 & _).
        eapply (Hone i j); eauto. congruence.
    + intros i. rewrite Hrows, Hset, elem_of_union, elem_of_singleton, <- Hdom.
      rewrite lookup_insert_is_Some.
      assert (Hsame : is_Some (rows !! i) <-> is_Some (methods st !! i)).
      { subst rows. destruct (default false (m_isDefault req)); [|done].
        by rewrite lookup_fmap, fmap_is_Some. }
      rewrite Hsame. split; [intros [->|[_ ?]]; [by left|by right]|].
      intros [->|Hi]; [by left|]. destruct (decide (uuid_seq (base st) = i)); [by left|by right].
    + intros i. rewrite Hrows, Hseq, lookup_insert_is_Some.
      intros [<-|[_ Hi]]; [lia|].
      assert (Hin : is_Some (methods st !! i)).
      { subst rows. destruct (default false (m_isDefault req)); [|done].
        by rewrite lookup_fmap, fmap_is_Some in Hi. }
      specialize (Hids i Hin). lia.
Qed.

Lemma method_invariants_update paymentMethodId req st :
  one_default st /\ methods_linked st ->
  one_default (snd (UpdatePaymentMethod paymentMethodId req st))
  /\ methods_linked (snd (UpdatePaymentMethod paymentMethodId req st)).
Proof.
  intros [Hone [Hdom Hids]]. split; [by apply one_default_update|].
  destruct (UpdatePaymentMethod_cases paymentMethodId req st) as (Hbase & Hend).
  cbv zeta in Hend.
  set (rows1 := match mu_isDefault req, methods st !! paymentMethodId with
                | Some true, Some r =>
                    map_imap (unset_other_default (pm_user r) paymentMethodId) (methods st)
                | _, _ => methods st
                end) in *.
  assert (Hsame : forall i, is_Some (rows1 !! i) <-> is_Some (methods st !! i)).
  { intros i. subst rows1. destruct (mu_isDefault req) as [[|]|]; try done.
    destruct (methods st !! paymentMethodId) as [r|]; [|done].
    rewrite unset_other_default_lookup. by rewrite fmap_is_Some. }
  assert (Hend' : forall i, is_Some (methods (snd (UpdatePaymentMethod paymentMethodId req st)) !! i)
                            <-> is_Some (methods st !! i)).
  { intros i. destruct Hend as [->|(r & Hr & ->)]; [done|].
    rewrite lookup_insert_is_Some, Hsame. split.
    - intros [<-|[_ ?]]; [|done]. apply Hsame. by rewrite Hr.
    - intros Hi. destruct (decide (paymentMethodId = i)); [by left|by right]. }
  split; intros i; rewrite Hend', Hbase; [apply Hdom|apply Hids].
Qed.

Lemma method_invariants_delete paymentMethodId hardDelete st :
  one_default st /\ methods_linked st ->
  one_default (snd (DeletePaymentMethod paymentMethodId hardDelete st))
  /\ methods_linked (snd (DeletePaymentMethod paymentMethodId hardDelete st)).
Proof.
  intros [Hone [Hdom Hids]]. unfold DeletePaymentMethod.
  destruct (methods st !! paymentMethodId) as [r|] eqn:Hr; [|done].
  destruct hardDelete; cbn [snd].
  - split; [|split].
    + apply (methods_refine st); [|done]. cbn [methods]. intros i r' Hi.
      apply lookup_delete_Some in Hi as [_ Hi]. by exists r'.
    + intros i. cbn [methods base payment_methods].
      rewrite elem_of_difference, elem_of_singleton, <- Hdom.
      destruct (decide (i = paymentMethodId)) as [->|Hne].
      * rewrite lookup_delete_eq. split; [by intros [? ?]|tauto].
      * rewrite lookup_delete_ne by done. tauto.
    + intros i. cbn [methods base uuid_seq]. intros [r' Hi].
      apply lookup_delete_Some in Hi as [_ Hi]. apply Hids. by exists r'.
  - split; [|split].
    + apply (methods_refine st); [|done]. cbn [set_methods methods]. intros i r' Hi.
      destruct (decide (i = paymentMethodId)) as [->|Hne].
      * rewrite lookup_insert_eq in Hi. injection Hi as <-. by exists r.
      * rewrite lookup_insert_ne in Hi by done. by exists r'.
    + intros i. cbn [set_methods methods base]. rewrite <- Hdom, lookup_insert_is_Some.
      split; [intros [<-|[_ ?]]; [by rewrite Hr|done]|].
      intros Hi. destruct (decide (paymentMethodId = i)); [by left|by right].
    + intros i. cbn [set_methods methods base]. rewrite lookup_insert_is_Some.
      intros [<-|[_ Hi]]; [apply Hids; by rewrite Hr|by apply Hids].
Qed.

Lemma method_invariants_deposit userId req now st :
  one_default st /\ methods_linked st ->
  one_default (mk_pm_store (snd (RecordDeposit userId req now (base st))) (methods st))
  /\ methods_linked (mk_pm_store (snd (RecordDeposit userId req now (base st))) (methods st)).
Proof.
  intros [Hone [Hdom Hids]]. split; [done|].
  destruct (RecordDeposit_cases userId req now (base st)) as [->| ->]; [|done].
  split; intros i; cbn [methods base snd deposit_post payment_methods uuid_seq];
    [apply Hdom|]. intros Hi. specialize (Hids i Hi). lia.
Qed.

(** X27.  No user ever has two default payment methods.  Over any
    sequence of additions, updates, soft and hard deletions of payment
    methods and of deposits, accepted or refused, a store in which every
    user has at most one row with is_default = true stays such a store,
    and the ids the deposits table may refer to stay the ids of the rows:
    making a method the default, at creation or by an update, unsets the
    owner's other defaults first. *)
Theorem default_method_stays_unique es st :
  one_default st -> methods_linked st ->
  one_default (method_handle_all es st) /\ methods_linked (method_handle_all es st).
Proof.
  intros Hone Hlinked. assert (Hinv := conj Hone Hlinked). clear Hone Hlinked.
  revert st Hinv. induction es as [|e es IH]; intros st Hinv; [done|].
  cbn [method_handle_all fold_left]. apply IH. destruct e; cbn [method_handle].
  - by apply method_invariants_add.
  - by apply method_invariants_update.
  - by apply method_invariants_delete.
  - by apply method_invariants_deposit.
Qed.

(** X28.  A deactivated payment method still takes deposits; a deleted one
    does not.  The deposit route asks only that paymentMethodId be the id
    of a row: after a soft delete (is_active = false) a deposit naming the
    method, by its owner or by any other user, is accepted and recorded
    with that payment_method_id; after a hard delete the same deposit is
    answered 500 and writes nothing, and the deposits made with the method
    before keep their user and amount and lose only payment_method_id
    (ON DELETE SET NULL). *)
Theorem deactivated_method_takes_deposits paymentMethodId st r userId req now :
  methods st !! paymentMethodId = Some r ->
  methods_linked st ->
  is_Some (users (base st) !! userId) ->
  0 < d_amount req -> d_goalId req = None ->
  d_paymentMethodId req = Some paymentMethodId ->
  let soft := snd (DeletePaymentMethod paymentMethodId false st) in
  let hard := snd (DeletePaymentMethod paymentMethodId true st) in
  (methods soft !! paymentMethodId = Some (deactivate r)
   /\ base soft = base st
   /\ exists row s',
        RecordDeposit userId req now (base soft) = (Created row, s')
        /\ dep_user row = userId
        /\ dep_payment_method row = Some paymentMethodId)
  /\ (methods hard !! paymentMethodId = None
      /\ RecordDeposit userId req now (base hard)
         = (ServerError "Failed to create deposit", base hard)
      /\ map dep_amount (deposits (base hard)) = map dep_amount (deposits (base st))
      /\ map dep_user (deposits (base hard)) = map dep_user (deposits (base st))
      /\ Forall (fun d => dep_payment_method d <> Some paymentMethodId)
                (deposits (base hard))
      /\ users (base hard) = users (base st)).
Proof.
  intros Hr [Hdom _] Hu Ha Hgoal Hpm soft hard. subst soft hard.
  unfold DeletePaymentMethod. rewrite Hr. cbn [snd set_methods methods base].
  split; [|split; [|split; [|split; [|split; [|split]]]]].
  - rewrite lookup_insert_eq. split; [done|]. split; [done|].
    eexists _, _. split.
    + apply RecordDeposit_ok; [done|]. apply refs_ok_intro; [done|by rewrite Hgoal|].
      intros p Hp. rewrite Hpm in Hp. injection Hp as <-. apply Hdom. by rewrite Hr.
    + by cbn.
  - by rewrite lookup_delete_eq.
  - unfold RecordDeposit. destruct (Z.leb_spec (d_amount req) 0); [lia|].
    rewrite deposit_tx_raises; [done|]. unfold deposit_refs_ok.
    rewrite Hpm. cbn [payment_methods].
    rewrite (bool_decide_eq_false_2
               (paymentMethodId ∈ payment_methods (base st) ∖ {[paymentMethodId]})).
    + by rewrite andb_false_r.
    + rewrite elem_of_difference, elem_of_singleton. tauto.
  - cbn [deposits]. rewrite map_map. apply map_ext. intros d.
    unfold clear_method. by destruct (bool_decide _).
  - cbn [deposits]. rewrite map_map. apply map_ext. intros d.
    unfold clear_method. by destruct (bool_decide _).
  - cbn [deposits]. apply Forall_forall. intros d' Hd.
    apply list_elem_of_In, in_map_iff in Hd as (d & <- & _).
    unfold clear_method.
    destruct (bool_decide (dep_payment_method d = Some paymentMethodId)) eqn:Hd.
    + done.
    + by apply bool_decide_eq_false in Hd.
  - done.
Qed.

End PaymentFacts.

Section PaymentExamples.
Import Deposits PaymentMethods.
#[local] Existing Instance UTC.

Lemma default_method_stays_unique_witness :
  let gopay := mk_method_request (Some "gopay") None (Some "0812") None (Some true) in
  let bank := mk_method_request (Some "bank") (Some "A") (Some "77") None (Some true) in
  let st := method_handle_all [MethodAdded 1%N gopay; MethodAdded 1%N bank]
                              (mk_pm_store demo_store ∅) in
  one_default st
  /\ is_default <$> methods st !! 100%N = Some false
  /\ is_default <$> methods st !! 101%N = Some true.
Proof.
  intros gopay bank st.
  destruct (default_method_stays_unique [MethodAdded 1%N gopay; MethodAdded 1%N bank]
              (mk_pm_store demo_store ∅)) as [Hone _].
  - intros i j ri rj Hi. cbn in Hi. by rewrite lookup_empty in Hi.
  - split; intros i; cbn; rewrite lookup_empty.
    + split; [by intros [? ?]|]. intros Hi. by apply elem_of_empty in Hi.
    + by intros [? ?].
  - split; [exact Hone|]. split; vm_compute; reflexivity.
Defined.

Lemma deactivated_method_takes_deposits_witness :
  let gopay := mk_method_request (Some "gopay") None (Some "0812") None (Some true) in
  let st := snd (AddPaymentMethod 1%N gopay (mk_pm_store demo_store ∅)) in
  let req := mk_deposit_request None 5000000 (Some 100%N) None in
  dep_payment_method
  <$> last (deposits (snd (RecordDeposit 1%N req (on_day 19000 0)
                             (base (snd (DeletePaymentMethod 100%N false st))))))
  = Some (Some 100%N)
  /\ fst (RecordDeposit 1%N req (on_day 19000 0)
            (base (snd (DeletePaymentMethod 100%N true st))))
     = ServerError "Failed to create deposit".
Proof.
  intros gopay st req.
  destruct (deactivated_method_takes_deposits 100%N st
              (mk_payment 1%N "gopay" None (Some "0812") None true true)
              1%N req (on_day 19000 0)) as [_ (_ & Hhard & _)].
  - vm_compute. reflexivity.
  - split; intros i.
    + change (methods st) with
        (<[100%N := mk_payment 1%N "gopay" None (Some "0812") None true true]>
           (∅ : gmap N payment_row)).
      change (payment_methods (base st)) with ({[100%N]} ∪ (∅ : gset N)).
      rewrite lookup_insert_is_Some, lookup_empty, elem_of_union, elem_of_singleton.
      split; [intros [<-|[_ [? ?]]]; [by left|done]|].
      intros [->|Hi]; [by left|by apply elem_of_empty in Hi].
    + change (methods st) with
        (<[100%N := mk_payment 1%N "gopay" None (Some "0812") None true true]>
           (∅ : gmap N payment_row)).
      rewrite lookup_insert_is_Some, lookup_empty.
      intros [<-|[_ [? ?]]]; [reflexivity|done].
  - vm_compute. eexists. reflexivity.
  - cbn. lia.
  - reflexivity.
  - reflexivity.
  - split; [vm_compute; reflexivity|]. by rewrite Hhard.
Defined.

End PaymentExamples.

(** ** The list of deposits *)

Section DepositViewFacts.
Import Deposits DepositViews.
Context {zone : Zone}.

Lemma newer_first_trans : Transitive newer_first.
Proof. unfold newer_first. intros a b c ? ?. lia. Qed.

Lemma newer_first_total : Total newer_first.
Proof. unfold newer_first. intros a b. lia. Qed.

Lemma sorted_selected userId goalId s d :
  d ∈ merge_sort newer_first (List.filter (selected userId goalId) (deposits s))
  <-> d ∈ deposits s /\ selected userId goalId d = true.
Proof.
  rewrite merge_sort_Permutation, !list_elem_of_In. apply filter_In.
Qed.

(** X29.  The list of deposits is the user's latest deposits, newest
    first.  For a limit that is not negative (50 when none is given), the
    reply holds min(limit, number of matching deposits) rows; each is a
    deposit of the user (and of the goal asked for, if one is) with the
    title of its goal joined; the rows come by deposit_date, newest first;
    no matching deposit left out is newer than one shown.  So a deposit
    just accepted, made later than every deposit recorded, heads the
    list that follows. *)
Theorem deposit_list_is_latest_first userId goalId limit s :
  0 <= default 50 limit ->
  exists l,
    GetDeposits userId goalId limit s = OkJson l
    /\ length l
       = Nat.min (Z.to_nat (default 50 limit))
                 (length (List.filter (selected userId goalId) (deposits s)))
    /\ StronglySorted (fun a b => dep_date (shown b) <= dep_date (shown a)) l
    /\ (forall v, v ∈ l ->
          shown v ∈ deposits s /\ selected userId goalId (shown v) = true
          /\ v = join_goal s (shown v))
    /\ (forall d v, d ∈ deposits s -> selected userId goalId d = true ->
          d ∉ shown <$> l -> v ∈ l -> dep_date d <= dep_date (shown v))
    /\ (forall req now userId' s',
          RecordDeposit userId' req now s' = (Created (deposit_row_of userId' req now s'), s) ->
          selected userId goalId (deposit_row_of userId' req now s') = true ->
          Forall (fun d => dep_date d < now) (deposits s') ->
          0 < default 50 limit ->
          head l = Some (join_goal s (deposit_row_of userId' req now s'))).
Proof.
  intros Hlimit. unfold GetDeposits.
  destruct (Z.ltb_spec (default 50 limit) 0); [lia|].
  set (rows := List.filter (selected userId goalId) (deposits s)).
  set (sorted := merge_sort newer_first rows).
  set (n := Z.to_nat (default 50 limit)).
  assert (Hsorted : StronglySorted newer_first sorted)
    by apply (@StronglySorted_merge_sort _ newer_first _ newer_first_trans
                                         newer_first_total).
  eexists. split; [done|]. split; [|split; [|split; [|split]]].
  - rewrite length_fmap, length_take. unfold sorted.
    by rewrite (Permutation_length (merge_sort_Permutation newer_first rows)).
  - apply (StronglySorted_fmap _ newer_first); [done|].
    rewrite <- (take_drop n sorted) in Hsorted.
    by apply StronglySorted_app_1_l in Hsorted.
  - intros v Hv. apply list_elem_of_fmap in Hv as (d & -> & Hd).
    apply elem_of_take in Hd as (i & Hd & _). apply list_elem_of_lookup_2 in Hd.
    apply sorted_selected in Hd as [? ?]. by repeat split.
  - intros d v Hd Hsel Hout Hv.
    apply list_elem_of_fmap in Hv as (d' & -> & Hd'). cbn [join_goal shown].
    assert (Hin : d ∈ sorted) by by apply sorted_selected.
    rewrite <- (take_drop n sorted) in Hin, Hsorted.
    apply elem_of_app in Hin as [Hin|Hin].
    + destruct Hout. apply list_elem_of_fmap. exists (join_goal s d). by split;
        [|apply list_elem_of_fmap; exists d].
    + by apply (StronglySorted_app_1_elem_of _ _ _ d' d Hsorted).
  - intros req now userId' s' Hcall Hsel Hold Hpos.
    assert (Hs : deposits s = deposits s' ++ [deposit_row_of userId' req now s']).
    { destruct (RecordDeposit_outcome userId' req now s') as [[_ Hc]|[Hc _]].
      - rewrite Hc in Hcall. by injection Hcall as <-.
      - rewrite Hcall in Hc. by destruct (Hc _ eq_refl). }
    set (new := deposit_row_of userId' req now s') in *.
    assert (Hnew : new ∈ sorted).
    { apply sorted_selected. split; [|done]. rewrite Hs. apply elem_of_app. right.
      by apply list_elem_of_singleton. }
    destruct sorted as [|first rest] eqn:Hsort; [by apply elem_of_nil in Hnew|].
    assert (Hn : n = S (pred n)) by (subst n; lia). rewrite Hn. cbn [take fmap list_fmap head].
    f_equal. f_equal.
    assert (Hfirst : first ∈ deposits s).
    { eapply (proj1 (sorted_selected userId goalId s first)). fold rows. fold sorted.
      rewrite Hsort. by left. }
    apply elem_of_cons in Hnew as [<-|Hrest]; [done|].
    apply StronglySorted_inv in Hsorted as [_ Hall].
    pose proof (proj1 (Forall_forall _ _) Hall new Hrest) as Hle.
    unfold newer_first in Hle. cbn in Hle.
    rewrite Hs in Hfirst. apply elem_of_app in Hfirst as [Hfirst|Hfirst].
    + pose proof (proj1 (Forall_forall _ _) Hold first Hfirst) as Hlt.
      cbn in Hlt. lia.
    + by apply list_elem_of_singleton in Hfirst.
Qed.

End DepositViewFacts.

Section DepositViewExamples.
Import Deposits DepositViews.
#[local] Existing Instance UTC.

Lemma deposit_list_is_latest_first_witness :
  let s := serve_all [(1%N, mk_deposit_request (Some 7%N) 5000000 None None, on_day 19000 0);
                      (1%N, mk_deposit_request None 2000000 None None, on_day 19001 0);
                      (1%N, mk_deposit_request None 3000000 None None, on_day 19002 0)]
                     demo_store in
  exists l,
    GetDeposits 1%N None (Some 2) s = OkJson l
    /\ length l = 2%nat
    /\ StronglySorted (fun a b => dep_date (shown b) <= dep_date (shown a)) l.
Proof.
  intros s.
  destruct (deposit_list_is_latest_first 1%N None (Some 2) s) as (l & Hl & Hlen & Hs & _).
  - cbn. lia.
  - exists l. split; [exact Hl|]. split; [exact Hlen|exact Hs].
Defined.

End DepositViewExamples.

(** ** The list of protocols *)

Section ApyListFacts.
Import ApyService ApyCalls.

Lemma asked_calls_of inputs ids : map asked (calls_of inputs ids) = ids.
Proof. unfold calls_of. rewrite map_map. cbn. apply map_id. Qed.

Lemma answers_frame cs apyCache p :
  ~ In p (map asked cs) -> snd (answers cs apyCache) !! p = apyCache !! p.
Proof.
  revert apyCache. induction cs as [|c cs IH]; intros apyCache Hp; [done|].
  cbn [answers map In] in *.
  specialize (IH (cache_after (answer apyCache c))).
  destruct (answers cs (cache_after (answer apyCache c))) as [rs apyCache'].
  cbn [snd] in *. rewrite IH by tauto. apply answer_other. tauto.
Qed.

(** After a run over distinct ids, each id's entry holds what its call
    returned. *)
Lemma answers_entries cs apyCache :
  List.NoDup (map asked cs) ->
  Forall2 (fun c r => exists e, snd (answers cs apyCache) !! asked c = Some e
                                /\ cached_apy e = returned r)
          cs (fst (answers cs apyCache)).
Proof.
  revert apyCache. induction cs as [|c cs IH]; intros apyCache Hnd; [constructor|].
  cbn [answers map] in *. apply List.NoDup_cons_iff in Hnd as [Hc Hnd].
  specialize (IH (cache_after (answer apyCache c)) Hnd).
  pose proof (answers_frame cs (cache_after (answer apyCache c)) (asked c) Hc) as Hframe.
  destruct (answers cs (cache_after (answer apyCache c))) as [rs apyCache'].
  cbn [fst snd] in *. constructor; [|done].
  destruct (getProtocolAPY_caches (asked c) (checked_at c) (call_stored_at c)
              (outside c) apyCache) as (e & He & Hv).
  exists e. by rewrite Hframe.
Qed.

(** A run in which every call finds a fresh entry returns the entries and
    leaves the cache as it is. *)
Lemma answers_all_hit cs apyCache :
  Forall (fun c => exists e, apyCache !! asked c = Some e
                             /\ (checked_at c - timestamp e < CACHE_DURATION)%Z) cs ->
  snd (answers cs apyCache) = apyCache
  /\ Forall2 (fun c r => exists e, apyCache !! asked c = Some e
                                   /\ r = mk_served (cached_apy e) apyCache [] false)
             cs (fst (answers cs apyCache)).
Proof.
  induction 1 as [|c cs (e & He & Hfresh) Hcs [IHc IHr]]; [by split; [|constructor]|].
  cbn [answers].
  assert (Hans : answer apyCache c = mk_served (cached_apy e) apyCache [] false)
    by (unfold answer; by apply getProtocolAPY_hit).
  rewrite Hans. cbn [cache_after].
  destruct (answers cs apyCache) as [rs apyCache']. cbn [fst snd] in *.
  split; [done|]. constructor; [by exists e|done].
Qed.

Lemma infos_of_combine (cs : list call) (rs rs' : list served) :
  Forall2 (fun r r' => returned r' = returned r) rs rs' ->
  map (fun cr => mk_protocol_info (asked (fst cr)) (or_zero (returned (snd cr))))
      (combine cs rs')
  = map (fun cr => mk_protocol_info (asked (fst cr)) (or_zero (returned (snd cr))))
        (combine cs rs).
Proof.
  intros Hrs. revert cs. induction Hrs as [|r r' rs rs' Hr Hrs IH]; intros [|c cs];
    try done.
  cbn [combine map fst snd]. by rewrite Hr, IH.
Qed.

Lemma infos_ids (cs : list call) (rs : list served) :
  length rs = length cs ->
  map info_protocolId
      (map (fun cr => mk_protocol_info (asked (fst cr)) (or_zero (returned (snd cr))))
           (combine cs rs))
  = map asked cs.
Proof.
  revert rs. induction cs as [|c cs IH]; intros [|r rs] Hlen; try done.
  cbn [combine map fst snd info_protocolId]. rewrite IH; [done|]. by injection Hlen.
Qed.

Lemma answers_length cs apyCache : length (fst (answers cs apyCache)) = length cs.
Proof.
  revert apyCache. induction cs as [|c cs IH]; intros apyCache; [done|].
  cbn [answers]. specialize (IH (cache_after (answer apyCache c))).
  destruct (answers cs (cache_after (answer apyCache c))). cbn [fst length] in *.
  by rewrite IH.
Qed.

(** X30.  The list of protocols is served from the cache.  A listing
    names the eleven protocols of PROTOCOL_ADDRESSES in its order and
    leaves every one of them cached; a second listing, every cache check
    of which comes less than ten minutes after the timestamp of the entry
    it finds, gives the same figures, makes no fetch (so no request to the
    Beefy API) and leaves the cache as it is. *)
Theorem protocol_list_is_cached inputs1 inputs2 apyCache :
  let first := getAllProtocolsWithAPY inputs1 apyCache in
  let apyCache1 := snd (fst first) in
  (forall id e, In id PROTOCOL_IDS -> apyCache1 !! id = Some e ->
     (fst (fst (inputs2 id)) - timestamp e < CACHE_DURATION)%Z) ->
  map info_protocolId (fst (fst first)) = PROTOCOL_IDS
  /\ (forall id, In id PROTOCOL_IDS -> is_Some (apyCache1 !! id))
  /\ getAllProtocolsWithAPY inputs2 apyCache1 = (fst (fst first), apyCache1, []).
Proof.
  intros first apyCache1 Hfresh. subst first apyCache1. unfold getAllProtocolsWithAPY in *.
  cbv zeta in *.
  assert (Hnd : List.NoDup (map asked (calls_of inputs1 PROTOCOL_IDS))).
  { rewrite asked_calls_of. unfold PROTOCOL_IDS.
    repeat (constructor; [cbn; intuition discriminate|]). constructor. }
  pose proof (answers_entries (calls_of inputs1 PROTOCOL_IDS) apyCache Hnd) as Hentries.
  pose proof (answers_length (calls_of inputs1 PROTOCOL_IDS) apyCache) as Hlen.
  destruct (answers (calls_of inputs1 PROTOCOL_IDS) apyCache) as [rs1 apyCache1].
  cbn [fst snd] in *.
  assert (Hcached : forall id, In id PROTOCOL_IDS ->
            exists e r, apyCache1 !! id = Some e /\ cached_apy e = returned r).
  { intros id Hid. rewrite <- (asked_calls_of inputs1) in Hid.
    apply in_map_iff in Hid as (c & <- & Hc).
    apply list_elem_of_In, list_elem_of_lookup_1 in Hc as [i Hi].
    destruct (Forall2_lookup_l _ _ _ i c Hentries Hi) as (r & _ & e & He & Hv). eauto. }
  split; [by rewrite infos_ids, asked_calls_of|]. split.
  { intros id Hid. destruct (Hcached id Hid) as (e & _ & -> & _). by eexists. }
  assert (Hhits : Forall (fun c => exists e, apyCache1 !! asked c = Some e
                            /\ (checked_at c - timestamp e < CACHE_DURATION)%Z)
                         (calls_of inputs2 PROTOCOL_IDS)).
  { apply Forall_forall. intros c Hc. apply list_elem_of_In, in_map_iff in Hc as (id & <- & Hid).
    destruct (Hcached id Hid) as (e & _ & He & _). exists e. split; [done|].
    cbn. by apply Hfresh. }
  destruct (answers_all_hit _ _ Hhits) as [Hsame Hrs2].
  destruct (answers (calls_of inputs2 PROTOCOL_IDS) apyCache1) as [rs2 apyCache2].
  cbn [fst snd] in *. subst apyCache2.
  assert (Hreturned : Forall2 (fun r r' => returned r' = returned r) rs1 rs2
                      /\ concat (map fetcher_calls rs2) = []).
  { clear Hhits Hcached Hfresh Hnd Hlen. revert Hentries Hrs2.
    unfold calls_of. generalize PROTOCOL_IDS. intros ids. revert rs1 rs2.
    induction ids as [|id ids IH]; intros rs1 rs2 H1 H2; cbn [map] in *.
    - apply Forall2_nil_inv_l in H1, H2. subst. by split; [constructor|].
    - apply Forall2_cons_inv_l in H1 as (r1 & rs1' & (e1 & He1 & Hv1) & H1 & ->).
      apply Forall2_cons_inv_l in H2 as (r2 & rs2' & (e2 & He2 & ->) & H2 & ->).
      cbn [asked] in *. destruct (IH _ _ H1 H2) as [IHr IHc].
      split; [constructor; [cbn; congruence|done]|]. by cbn. }
  destruct Hreturned as [Hreturned ->].
  f_equal. f_equal.
  rewrite (infos_of_combine _ rs1 rs2 Hreturned).
  clear. unfold calls_of. generalize PROTOCOL_IDS. intros ids. revert rs1.
  induction ids as [|id ids IH]; intros [|r rs]; try done.
  cbn [map combine fst snd asked]. by rewrite IH.
Qed.

Lemma protocol_list_is_cached_witness :
  let w := mk_world (1 # 2) BeefyFailure in
  let first := getAllProtocolsWithAPY (fun _ => (0, 0, w)) ∅ in
  snd (getAllProtocolsWithAPY (fun _ => (1000, 1000, w)) (snd (fst first))) = []
  /\ length (fst (fst first)) = 11%nat.
Proof.
  intros w first.
  destruct (protocol_list_is_cached (fun _ => (0, 0, w)) (fun _ => (1000, 1000, w)) ∅)
    as (Hids & _ & Hsecond).
  - intros id e Hid He. cbn [PROTOCOL_IDS In] in Hid.
    repeat (destruct Hid as [<-|Hid];
            [vm_compute in He; injection He as <-; vm_compute; reflexivity|]).
    destruct Hid.
  - split.
    + unfold first. by rewrite Hsecond.
    + unfold first. rewrite <- (length_map info_protocolId), Hids. reflexivity.
Defined.

End ApyListFacts.
